(** * WasteWise: authentication and authorization core

    A shallow embedding of the backend's login and two-factor routes, the
    [TwoFactorAuth] model, the authorization middleware and the role-update
    and delete routes of user management, together with the properties of
    the one-time-code flow and of the permission gate.

    Two things the handlers leave to Mongoose are part of the embedding:
    the cast of a request's id string to an ObjectId, and the reading of a
    request's code field, whatever JSON value it is, as a condition of the
    lookup filter.

    Handlers are written as programs over the operations they await
    (database calls, the mailer, the clock, the random source, the token
    signer); a program is run against a [World] either alone or interleaved
    with another request at the granularity of those operations. *)

From Stdlib Require Import ZArith List String Ascii Bool Lia Arith.
Import ListNotations.
Open Scope string_scope.
Open Scope Z_scope.

(** ** JavaScript values used by the handlers *)

(** A string field of a request body or a header; a missing one is [None].
    JavaScript truthiness of such a field: a missing field and the empty
    string are falsy. *)
Definition truthy (v : option string) : bool :=
  match v with
  | Some s => negb (s =? "")%string
  | None => false
  end.

(** [Array.prototype.includes] on an array of strings. *)
Definition includes (l : list string) (s : string) : bool :=
  existsb (String.eqb s) l.

Unset Elimination Schemes.
Inductive Json : Type :=
| JNull
| JBool (b : bool)
| JNum (n : Z)
| JStr (s : string)
| JArr (l : list Json)
| JObj (fields : list (string * Json)).
Set Elimination Schemes.

Record Response : Type := mkResponse { status : Z; body : Json }.

(** [res.json(b)] answers with status 200; [res.status(c).json(b)] with [c]. *)
Definition res_json (b : Json) : Response := mkResponse 200 b.
Definition res_status_json (c : Z) (b : Json) : Response := mkResponse c b.
Definition message (m : string) : Json := JObj [("message", JStr m)].

(** ** Number.prototype.toString for non-negative integers *)

Definition digitChar (d : Z) : ascii := ascii_of_nat (48 + Z.to_nat d).

Fixpoint toStringAux (fuel : nat) (n : Z) (acc : string) : string :=
  match fuel with
  | O => acc
  | S f =>
      let acc' := String (digitChar (n mod 10)) acc in
      if n <? 10 then acc' else toStringAux f (n / 10) acc'
  end.

(** Integers below 10^21 print in plain decimal; 22 digits of fuel cover them. *)
Definition Number_toString (n : Z) : string := toStringAux 22 n "".

Arguments Number_toString : simpl never.

(** ** The random source *)

(** [crypto.randomInt(min, max)]: an integer [n] with [min <= n < max]; the
    upper bound is exclusive.  [x] is the raw value drawn from the secure
    random source, reduced to the range [max - min]. *)
Definition randomInt (min max : Z) (x : Z) : Z := min + x mod (max - min).

(** ** Data model *)

(** [role] of the User schema: one of 'user', 'manager', 'admin'. *)
Inductive Role : Type := RoleUser | RoleManager | RoleAdmin.

Definition roleName (r : Role) : string :=
  match r with
  | RoleUser => "user"
  | RoleManager => "manager"
  | RoleAdmin => "admin"
  end.

Definition parseRole (s : string) : option Role :=
  if (s =? "user")%string then Some RoleUser
  else if (s =? "manager")%string then Some RoleManager
  else if (s =? "admin")%string then Some RoleAdmin
  else None.

(** A document of the User collection, as the routes use it.  [_id] is the
    hexadecimal string of the ObjectId, [password] the stored bcrypt hash. *)
Record User : Type := mkUser {
  _id : string;
  name : string;
  email : string;
  password : string;
  role : Role;
  permissions : list string;
  twoFactorEnabled : bool;
  lastLogin : option Z
}.

(** [type] of the TwoFactorAuth schema. *)
Inductive CodeType : Type := login_t | enable_2fa | disable_2fa.

Definition CodeType_eqb (a b : CodeType) : bool :=
  match a, b with
  | login_t, login_t | enable_2fa, enable_2fa | disable_2fa, disable_2fa => true
  | _, _ => false
  end.

(** A document of the TwoFactorAuth collection (models/TwoFactorAuth.js).
    Times are milliseconds since the epoch. *)
Record TwoFactorAuth : Type := mkTwoFactorAuth {
  tfa_id : nat;
  user : string;
  code : string;
  expiresAt : Z;
  isUsed : bool;
  type : CodeType
}.

(** Schema defaults: [expiresAt] is [Date.now() + 10 * 60 * 1000] and
    [isUsed] is [false]. *)
Definition default_expiresAt (now : Z) : Z := now + 10 * 60 * 1000.
Definition default_isUsed : bool := false.

Definition newTwoFactorAuth (id : nat) (now : Z) (u c : string) (t : CodeType)
  : TwoFactorAuth :=
  {| tfa_id := id; user := u; code := c; expiresAt := default_expiresAt now;
     isUsed := default_isUsed; type := t |}.

(** The [twoFactorCode] / [code] field of a request body.  [express.json()]
    hands the handlers whatever JSON value the request carries, and the
    handlers test the field for truthiness and then put it into the filter
    of [TwoFactorAuth.findOne] as it is.  What happens to the value depends
    on its truthiness and on what the query makes of it at the String path
    [code]: a string is compared with the stored code; any other value is
    either cast by the query into a condition on the stored code (an
    operator object such as [{"$ne": "x"}], a number) or rejected with a
    CastError. *)
Inductive CodeField : Type :=
| NoCode                              (* missing, or falsy and not a string: null, false, 0 *)
| CodeText (s : string)               (* a JSON string *)
| CodeFilter (sat : string -> bool)   (* truthy, not a string, cast to the condition [sat] *)
| CodeInvalid.                        (* truthy, rejected by the cast *)

(** JavaScript truthiness of the field. *)
Definition truthyCode (c : CodeField) : bool :=
  match c with
  | NoCode => false
  | CodeText s => negb (s =? "")%string
  | CodeFilter _ => true
  | CodeInvalid => true
  end.

(** Whether the query cast lets the value through. *)
Definition castable (c : CodeField) : bool :=
  match c with
  | CodeInvalid => false
  | _ => true
  end.

(** The operator object [{"$ne": x}]: satisfied by every stored code other
    than [x]. *)
Definition notEqual (x : string) : CodeField :=
  CodeFilter (fun stored => negb (stored =? x)%string).

(** The condition on [code] inside a filter: equality with a string, or the
    condition an operator object stands for. *)
Inductive CodeCondition : Type :=
| Equals (s : string)
| Satisfies (sat : string -> bool).

Definition holds (c : CodeCondition) (stored : string) : bool :=
  match c with
  | Equals s => (stored =? s)%string
  | Satisfies sat => sat stored
  end.

(** The condition a field value becomes in the filter (for a value that is
    never queried, the empty string). *)
Definition asCondition (c : CodeField) : CodeCondition :=
  match c with
  | CodeText s => Equals s
  | CodeFilter sat => Satisfies sat
  | NoCode | CodeInvalid => Equals ""
  end.

(** The filter object handed to [TwoFactorAuth.findOne]:
    [{ user, code, type, isUsed, expiresAt: { $gt: ... } }]. *)
Record CodeQuery : Type := mkCodeQuery {
  q_user : string;
  q_code : CodeCondition;
  q_type : CodeType;
  q_isUsed : bool;
  q_expiresAt_gt : Z
}.

Definition matches (q : CodeQuery) (r : TwoFactorAuth) : bool :=
  (user r =? q_user q)%string && holds (q_code q) (code r)
  && CodeType_eqb (type r) (q_type q) && Bool.eqb (isUsed r) (q_isUsed q)
  && (q_expiresAt_gt q <? expiresAt r).

(** The update object handed to [User.findByIdAndUpdate]; an absent key is
    [None]. *)
Record UserUpdate : Type := mkUserUpdate {
  upd_role : option Role;
  upd_permissions : option (list string);
  upd_twoFactorEnabled : option bool
}.

Definition applyUpdate (upd : UserUpdate) (u : User) : User :=
  {| _id := _id u; name := name u; email := email u; password := password u;
     role := match upd_role upd with Some r => r | None => role u end;
     permissions :=
       match upd_permissions upd with Some p => p | None => permissions u end;
     twoFactorEnabled :=
       match upd_twoFactorEnabled upd with
       | Some b => b
       | None => twoFactorEnabled u
       end;
     lastLogin := lastLogin u |}.

Definition setLastLogin (t : Z) (u : User) : User :=
  {| _id := _id u; name := name u; email := email u; password := password u;
     role := role u; permissions := permissions u;
     twoFactorEnabled := twoFactorEnabled u; lastLogin := Some t |}.

Definition setIsUsed (b : bool) (r : TwoFactorAuth) : TwoFactorAuth :=
  {| tfa_id := tfa_id r; user := user r; code := code r;
     expiresAt := expiresAt r; isUsed := b; type := type r |}.

(** ** Collections *)

(** A collection is the list of its documents in natural order; [findOne]
    without a sort returns the first match, [updateOne] and [deleteOne]
    touch the first match only. *)
Fixpoint updateOne {A : Type} (p : A -> bool) (f : A -> A) (l : list A) : list A :=
  match l with
  | [] => []
  | x :: t => if p x then f x :: t else x :: updateOne p f t
  end.

Fixpoint deleteOne {A : Type} (p : A -> bool) (l : list A) : list A :=
  match l with
  | [] => []
  | x :: t => if p x then t else x :: deleteOne p t
  end.

(** *** ObjectIds

    An ObjectId is kept as the string its [toString()] gives: 24
    hexadecimal digits in lower case.  Where a handler passes a string of
    the request ([req.params.id], the [id] of a token payload) to
    [findById], [findByIdAndUpdate] or [findByIdAndDelete], Mongoose casts
    it to an ObjectId first: a string of 24 hexadecimal digits in either
    case denotes the ObjectId with those digits, and any other string makes
    the call throw a CastError. *)
Definition isHexDigit (c : ascii) : bool :=
  let n := nat_of_ascii c in
  ((48 <=? n) && (n <=? 57) || (97 <=? n) && (n <=? 102)
   || (65 <=? n) && (n <=? 70))%nat.

Definition lowerHex (c : ascii) : ascii :=
  let n := nat_of_ascii c in
  if ((65 <=? n) && (n <=? 70))%nat then ascii_of_nat (n + 32) else c.

Fixpoint allHex (s : string) : bool :=
  match s with
  | EmptyString => true
  | String c t => isHexDigit c && allHex t
  end.

Fixpoint toLowerHex (s : string) : string :=
  match s with
  | EmptyString => EmptyString
  | String c t => String (lowerHex c) (toLowerHex t)
  end.

(** The cast: the ObjectId a string denotes, [None] where it throws. *)
Definition ObjectId_cast (s : string) : option string :=
  if (String.length s =? 24)%nat && allHex s then Some (toLowerHex s) else None.

Definition byEmail (e : string) (u : User) : bool := (email u =? e)%string.

(** The filter [{ _id: id }] for an ObjectId [id]. *)
Definition byId (id : string) (u : User) : bool := (_id u =? id)%string.
Definition byTfaId (id : nat) (r : TwoFactorAuth) : bool := Nat.eqb (tfa_id r) id.

(** ** The world a request runs against *)

Record World : Type := mkWorld {
  users : list User;
  codes : list TwoFactorAuth;
  nextId : nat;               (* next fresh TwoFactorAuth id *)
  clock : Z;                  (* current time, ms *)
  rng : nat -> Z;             (* the secure random source *)
  rngPos : nat;               (* draws consumed so far *)
  mailerUp : bool;            (* whether the e-mail service delivers *)
  outbox : list (string * string * CodeType)
}.

Definition setUsers (us : list User) (w : World) : World :=
  {| users := us; codes := codes w; nextId := nextId w; clock := clock w;
     rng := rng w; rngPos := rngPos w; mailerUp := mailerUp w;
     outbox := outbox w |}.

Definition setCodes (cs : list TwoFactorAuth) (w : World) : World :=
  {| users := users w; codes := cs; nextId := nextId w; clock := clock w;
     rng := rng w; rngPos := rngPos w; mailerUp := mailerUp w;
     outbox := outbox w |}.

(** Time passing between two operations. *)
Definition advance (d : Z) (w : World) : World :=
  {| users := users w; codes := codes w; nextId := nextId w;
     clock := clock w + d; rng := rng w; rngPos := rngPos w;
     mailerUp := mailerUp w; outbox := outbox w |}.

(** The TTL index [{ expiresAt: 1 }, { expireAfterSeconds: 0 }]: the
    background reaper removes the documents whose [expiresAt] has passed. *)
Definition reap (w : World) : World :=
  setCodes (filter (fun r => clock w <? expiresAt r) (codes w)) w.

(** ** Operations a handler awaits *)

(** [TwoFactorAuth_save_isUsed id] is [twoFactorRecord.isUsed = true;
    await twoFactorRecord.save()] on the document [id]: the save writes the
    modified path only.  [User_save_lastLogin] likewise is
    [user.lastLogin = ...; await user.save()]. *)

Inductive Op : Type -> Type :=
| User_findOne (e : string) : Op (option User)
| User_findById (id : string) : Op (option User)
| User_matchPassword (u : User) (entered : string) : Op bool
| User_save_lastLogin (id : string) (t : Z) : Op unit
| User_findByIdAndUpdate (id : string) (upd : UserUpdate) : Op (option User)
| User_findByIdAndDelete (id : string) : Op (option User)
| TwoFactorAuth_create (u c : string) (t : CodeType) : Op TwoFactorAuth
| TwoFactorAuth_findOne (q : CodeQuery) : Op (option TwoFactorAuth)
| TwoFactorAuth_save_isUsed (id : nat) : Op unit
| sendTwoFactorCode (e c : string) (t : CodeType) : Op bool
| Date_now : Op Z
| crypto_randomInt (min max : Z) : Op Z
| jwt_sign (id : string) : Op string.

(** A handler: a tree of awaited operations ending in a result. *)
Inductive Prog (R : Type) : Type :=
| Ret (r : R)
| Vis (A : Type) (op : Op A) (k : A -> Prog R).

Arguments Ret {R} r.
Arguments Vis {R A} op k.

Notation "x <- op ;; k" := (Vis op (fun x => k))
  (at level 61, op at next level, right associativity).

Fixpoint bind {A B : Type} (p : Prog A) (f : A -> Prog B) : Prog B :=
  match p with
  | Ret a => f a
  | Vis op k => Vis op (fun x => bind (k x) f)
  end.

(** An executed operation, as recorded in the trace of a run. *)
Definition Event : Type := {A : Type & Op A}.
Definition ev {A : Type} (op : Op A) : Event := existT Op A op.

(** ** Handlers *)

(** The string carried by a body field ([""] when the field is missing). *)
Definition str (v : option string) : string :=
  match v with
  | Some s => s
  | None => ""
  end.

Definition JStrs (l : list string) : Json := JArr (map JStr l).

Definition JOptNum (t : option Z) : Json :=
  match t with
  | Some n => JNum n
  | None => JNull
  end.

(** A user document serialised without its password
    ([.select('-password')]). *)
Definition userJson (u : User) : Json :=
  JObj [("_id", JStr (_id u)); ("name", JStr (name u));
        ("email", JStr (email u)); ("role", JStr (roleName (role u)));
        ("permissions", JStrs (permissions u));
        ("twoFactorEnabled", JBool (twoFactorEnabled u));
        ("lastLogin", JOptNum (lastLogin u))].

Definition serverError : Response :=
  res_status_json 500 (message "Server error").

Definition invalidOrExpiredCode : Response :=
  res_status_json 400 (message "Invalid or expired verification code").

Definition missingCredentials : Response :=
  res_status_json 400 (message "Please provide email and password").

Definition invalidCredentials : Response :=
  res_status_json 401 (message "Invalid email or password").

Module Auth.

(** Body of [POST /api/auth/login].  [email] and [password] are taken as
    strings (or missing): they go to [User.findOne] and to
    [user.matchPassword], and what the latter does with a value that is no
    string is decided inside the User model.  [twoFactorCode] is whatever
    value the request carries. *)
Record LoginBody : Type := mkLoginBody {
  lb_email : option string;
  lb_password : option string;
  lb_twoFactorCode : CodeField
}.

Definition codeQuery (u : string) (c : CodeCondition) (t : CodeType) (now : Z)
  : CodeQuery :=
  {| q_user := u; q_code := c; q_type := t; q_isUsed := false;
     q_expiresAt_gt := now |}.

(** [generateTwoFactorCode]: "Generate 6-digit code". *)
Definition generateTwoFactorCode : Prog string :=
  n <- crypto_randomInt 100000 999999 ;;
  Ret (Number_toString n).

(** The tail of the login handler: update [lastLogin], answer with the
    identity and a fresh token. *)
Definition login_finish (u : User) : Prog Response :=
  now <- Date_now ;;
  _ <- User_save_lastLogin (_id u) now ;;
  token <- jwt_sign (_id u) ;;
  Ret (res_json
         (JObj [("_id", JStr (_id u)); ("name", JStr (name u));
                ("email", JStr (email u)); ("role", JStr (roleName (role u)));
                ("permissions", JStrs (permissions u));
                ("twoFactorEnabled", JBool (twoFactorEnabled u));
                ("token", JStr token)])).

(** [router.post('/login', ...)]. *)
Definition login (b : LoginBody) : Prog Response :=
  if negb (truthy (lb_email b)) || negb (truthy (lb_password b)) then
    Ret missingCredentials
  else
    found <- User_findOne (str (lb_email b)) ;;
    match found with
    | None => Ret invalidCredentials
    | Some u =>
        ok <- User_matchPassword u (str (lb_password b)) ;;
        if ok then
          if twoFactorEnabled u then
            if negb (truthyCode (lb_twoFactorCode b)) then
              bind generateTwoFactorCode (fun c =>
                _ <- TwoFactorAuth_create (_id u) c login_t ;;
                sent <- sendTwoFactorCode (email u) c login_t ;;
                if sent then
                  Ret (res_json
                         (JObj [("requiresTwoFactor", JBool true);
                                ("message",
                                 JStr "Two-factor authentication code sent to your email")]))
                else Ret serverError)
            else
              now <- Date_now ;;
              if negb (castable (lb_twoFactorCode b)) then
                (* findOne throws the CastError; the catch block answers *)
                Ret serverError
              else
                twoFactorRecord <-
                  TwoFactorAuth_findOne
                    (codeQuery (_id u) (asCondition (lb_twoFactorCode b)) login_t now) ;;
                match twoFactorRecord with
                | None => Ret invalidOrExpiredCode
                | Some r =>
                    _ <- TwoFactorAuth_save_isUsed (tfa_id r) ;;
                    login_finish u
                end
          else login_finish u
        else Ret invalidCredentials
    end.

Definition twoFactorEnabledUpdate (b : bool) : UserUpdate :=
  {| upd_role := None; upd_permissions := None;
     upd_twoFactorEnabled := Some b |}.

(** The shared shape of [POST /enable-2fa] and [POST /disable-2fa], which
    differ in the flow type, the flag they store and the final message;
    [req_user] is the account [protect] attached to the request and [c]
    the [code] field of the body. *)
Definition toggle2fa (t : CodeType) (flag : bool) (done : string)
           (req_user : User) (c : CodeField) : Prog Response :=
  if negb (truthyCode c) then
    bind generateTwoFactorCode (fun twoFactorCode =>
      _ <- TwoFactorAuth_create (_id req_user) twoFactorCode t ;;
      sent <- sendTwoFactorCode (email req_user) twoFactorCode t ;;
      if sent then
        Ret (res_json (message "Verification code sent to your email"))
      else Ret serverError)
  else
    now <- Date_now ;;
    if negb (castable c) then
      (* findOne throws the CastError; the catch block answers *)
      Ret serverError
    else
      twoFactorRecord <-
        TwoFactorAuth_findOne (codeQuery (_id req_user) (asCondition c) t now) ;;
      match twoFactorRecord with
      | None => Ret invalidOrExpiredCode
      | Some r =>
          _ <- User_findByIdAndUpdate (_id req_user) (twoFactorEnabledUpdate flag) ;;
          _ <- TwoFactorAuth_save_isUsed (tfa_id r) ;;
          Ret (res_json (message done))
      end.

(** [router.post('/enable-2fa', protect, ...)]. *)
Definition enable2fa : User -> CodeField -> Prog Response :=
  toggle2fa enable_2fa true "Two-factor authentication enabled successfully".

(** [router.post('/disable-2fa', protect, ...)]. *)
Definition disable2fa : User -> CodeField -> Prog Response :=
  toggle2fa disable_2fa false "Two-factor authentication disabled successfully".

End Auth.

(** ** Authorization middleware (middleware/auth.js, routes/users.js) *)

(** What a middleware does: hand over to the next handler or answer. *)
Inductive MwResult : Type :=
| Next
| Respond (r : Response).

Definition rolePermissions (r : Role) : list string :=
  match r with
  | RoleUser =>
      ["inventory:read"; "inventory:write"; "waste:read"; "waste:write"]
  | RoleManager =>
      ["inventory:read"; "inventory:write"; "inventory:delete";
       "waste:read"; "waste:write"; "waste:delete";
       "analytics:read"; "users:read"]
  | RoleAdmin =>
      ["inventory:read"; "inventory:write"; "inventory:delete";
       "waste:read"; "waste:write"; "waste:delete";
       "analytics:read"; "users:read";
       "users:write"; "users:delete"; "settings:write"]
  end.

Definition requirePermission (permission : string) (req_user : option User)
  : Prog MwResult :=
  match req_user with
  | None =>
      Ret (Respond (res_status_json 401 (message "Authentication required")))
  | Some ru =>
      found <- User_findById (_id ru) ;;
      match found with
      | None => Ret (Respond (res_status_json 401 (message "User not found")))
      | Some u =>
          let userRolePermissions := rolePermissions (role u) in
          let hasRolePermission := includes userRolePermissions permission in
          let hasCustomPermission := includes (permissions u) permission in
          if negb hasRolePermission && negb hasCustomPermission then
            Ret (Respond
                   (res_status_json 403
                      (JObj [("message", JStr "Insufficient permissions");
                             ("required", JStr permission);
                             ("userRole", JStr (roleName (role u)))])))
          else Ret Next
      end
  end.

Definition requireRole (allowedRoles : list string) (req_user : option User)
  : Prog MwResult :=
  match req_user with
  | None =>
      Ret (Respond (res_status_json 401 (message "Authentication required")))
  | Some ru =>
      found <- User_findById (_id ru) ;;
      match found with
      | None => Ret (Respond (res_status_json 401 (message "User not found")))
      | Some u =>
          if negb (includes allowedRoles (roleName (role u))) then
            Ret (Respond
                   (res_status_json 403
                      (JObj [("message", JStr "Insufficient role permissions");
                             ("required", JStrs allowedRoles);
                             ("userRole", JStr (roleName (role u)))])))
          else Ret Next
      end
  end.

(** A route: the middleware runs first and the handler only after [next()]. *)
Definition route (mw : Prog MwResult) (handler : Prog Response) : Prog Response :=
  bind mw (fun r =>
             match r with
             | Next => handler
             | Respond resp => Ret resp
             end).

Module Users.

(** Body of [PUT /api/users/:id/role]. *)
Record RoleBody : Type := mkRoleBody {
  rb_role : option string;
  rb_permissions : option (list string)
}.

Definition validRoles : list string := ["user"; "manager"; "admin"].

(** The handlers compare [req.params.id] with [req.user._id.toString()] as
    strings, and then hand [req.params.id] to Mongoose, which casts it. *)
Definition updateRoleHandler (params_id : string) (req_user : User)
           (b : RoleBody) : Prog Response :=
  if truthy (rb_role b) && negb (includes validRoles (str (rb_role b))) then
    Ret (res_status_json 400 (message "Invalid role"))
  else if (params_id =? _id req_user)%string && truthy (rb_role b)
          && negb (str (rb_role b) =? "admin")%string then
    Ret (res_status_json 400 (message "Cannot change your own admin role"))
  else
    let updateData :=
      {| upd_role := if truthy (rb_role b) then parseRole (str (rb_role b)) else None;
         upd_permissions := rb_permissions b;
         upd_twoFactorEnabled := None |} in
    match ObjectId_cast params_id with
    | None => Ret serverError   (* CastError, caught *)
    | Some id =>
        updated <- User_findByIdAndUpdate id updateData ;;
        match updated with
        | None => Ret (res_status_json 404 (message "User not found"))
        | Some u => Ret (res_json (userJson u))
        end
    end.

Definition deleteHandler (params_id : string) (req_user : User) : Prog Response :=
  if (params_id =? _id req_user)%string then
    Ret (res_status_json 400 (message "Cannot delete your own account"))
  else
    match ObjectId_cast params_id with
    | None => Ret serverError   (* CastError, caught *)
    | Some id =>
        deleted <- User_findByIdAndDelete id ;;
        match deleted with
        | None => Ret (res_status_json 404 (message "User not found"))
        | Some _ => Ret (res_json (message "User deleted successfully"))
        end
    end.

(** [router.put('/:id/role', requireRole('admin'), ...)]; [router.use(protect)]
    has attached [req_user]. *)
Definition updateRole (params_id : string) (req_user : User) (b : RoleBody)
  : Prog Response :=
  route (requireRole ["admin"] (Some req_user))
        (updateRoleHandler params_id req_user b).

(** [router.delete('/:id', requireRole('admin'), ...)]. *)
Definition deleteUser (params_id : string) (req_user : User) : Prog Response :=
  route (requireRole ["admin"] (Some req_user))
        (deleteHandler params_id req_user).

End Users.

(** ** Running handlers *)

Section Semantics.

(** [bcrypt.compare(entered, hash)] behind [user.matchPassword], and
    [jwt.sign({ id }, secret, { expiresIn: '30d' })] at a given time. *)
Variable bcrypt_compare : string -> string -> bool.
Variable sign : string -> Z -> string.

Definition exec {A : Type} (op : Op A) (w : World) : A * World :=
  match op in Op T return T * World with
  | User_findOne e => (find (byEmail e) (users w), w)
  | User_findById id => (find (byId id) (users w), w)
  | User_matchPassword u entered => (bcrypt_compare entered (password u), w)
  | User_save_lastLogin id t =>
      (tt, setUsers (updateOne (byId id) (setLastLogin t) (users w)) w)
  | User_findByIdAndUpdate id upd =>
      (option_map (applyUpdate upd) (find (byId id) (users w)),
       setUsers (updateOne (byId id) (applyUpdate upd) (users w)) w)
  | User_findByIdAndDelete id =>
      (find (byId id) (users w), setUsers (deleteOne (byId id) (users w)) w)
  | TwoFactorAuth_create u c t =>
      let r := newTwoFactorAuth (nextId w) (clock w) u c t in
      (r, {| users := users w; codes := codes w ++ [r];
             nextId := S (nextId w); clock := clock w; rng := rng w;
             rngPos := rngPos w; mailerUp := mailerUp w;
             outbox := outbox w |})
  | TwoFactorAuth_findOne q => (find (matches q) (codes w), w)
  | TwoFactorAuth_save_isUsed id =>
      (tt, setCodes (updateOne (byTfaId id) (setIsUsed true) (codes w)) w)
  | sendTwoFactorCode e c t =>
      if mailerUp w then
        (true, {| users := users w; codes := codes w; nextId := nextId w;
                  clock := clock w; rng := rng w; rngPos := rngPos w;
                  mailerUp := mailerUp w;
                  outbox := outbox w ++ [(e, c, t)] |})
      else (false, w)
  | Date_now => (clock w, w)
  | crypto_randomInt min max =>
      (randomInt min max (rng w (rngPos w)),
       {| users := users w; codes := codes w; nextId := nextId w;
          clock := clock w; rng := rng w; rngPos := S (rngPos w);
          mailerUp := mailerUp w; outbox := outbox w |})
  | jwt_sign id => (sign id (clock w), w)
  end.

(** A request served alone: every operation runs in turn. *)
Fixpoint run {R : Type} (p : Prog R) (w : World) : R * World * list Event :=
  match p with
  | Ret r => (r, w, [])
  | Vis op k =>
      let '(a, w1) := exec op w in
      let '(r, w2, t) := run (k a) w1 in
      (r, w2, ev op :: t)
  end.

(** One operation of a request; a finished request stays as it is. *)
Definition step {R : Type} (p : Prog R) (w : World) : Prog R * World :=
  match p with
  | Ret r => (Ret r, w)
  | Vis op k => let '(a, w1) := exec op w in (k a, w1)
  end.

(** Two requests in flight.  The schedule says whose operation runs next;
    when it is exhausted the first request completes, then the second. *)
Inductive Turn : Type := First | Second.

Fixpoint interleave {R1 R2 : Type} (sched : list Turn)
         (p1 : Prog R1) (p2 : Prog R2) (w : World) : R1 * R2 * World :=
  match sched with
  | [] =>
      let '(r1, w1, _) := run p1 w in
      let '(r2, w2, _) := run p2 w1 in
      (r1, r2, w2)
  | First :: s => let '(p1', w1) := step p1 w in interleave s p1' p2 w1
  | Second :: s => let '(p2', w1) := step p2 w in interleave s p1 p2' w1
  end.

(** *** Worlds over time *)

(** Ids of the TwoFactorAuth collection are distinct and below the next
    fresh id. *)
Definition wf (w : World) : Prop :=
  NoDup (map tfa_id (codes w))
  /\ Forall (fun r => (tfa_id r < nextId w)%nat) (codes w).

(** One thing happening to the world: an operation of some request, time
    passing, or the reaper. *)
Inductive world_step (w : World) : World -> Prop :=
| step_op (A : Type) (op : Op A) : world_step w (snd (exec op w))
| step_advance (d : Z) : 0 <= d -> world_step w (advance d w)
| step_reap : world_step w (reap w).

Inductive later (w : World) : World -> Prop :=
| later_now : later w w
| later_step (w1 w2 : World) :
    later w w1 -> world_step w1 w2 -> later w w2.

(** The document [i] is marked used wherever it still exists. *)
Definition usedIn (i : nat) (cs : list TwoFactorAuth) : Prop :=
  forall r, In r cs -> tfa_id r = i -> isUsed r = true.

(** A login request that reaches the code lookup for account [u]: both
    fields present, [u] is the account found by the email, the password
    matches, 2FA is enabled and a code is supplied that the query accepts
    (a string, or a value the cast lets through). *)
Definition reachesVerification (b : Auth.LoginBody) (w : World) (u : User) : Prop :=
  truthy (Auth.lb_email b) = true
  /\ truthy (Auth.lb_password b) = true
  /\ find (byEmail (str (Auth.lb_email b))) (users w) = Some u
  /\ bcrypt_compare (str (Auth.lb_password b)) (password u) = true
  /\ twoFactorEnabled u = true
  /\ truthyCode (Auth.lb_twoFactorCode b) = true
  /\ castable (Auth.lb_twoFactorCode b) = true.

End Semantics.

(** ** A sample deployment *)

Module Sample.

Definition compare (entered hash : string) : bool :=
  (("bcrypt:" ++ entered) =? hash)%string.

Definition sign (id : string) (now : Z) : string := "jwt:" ++ id.

(** ObjectIds of the two accounts. *)
Definition aliceId : string := "64a1f3c29b7e4d0012ab34c1".
Definition bobId : string := "64b2f3c29b7e4d0012ab34c2".

Definition alice : User :=
  {| _id := aliceId; name := "Alice"; email := "alice@example.com";
     password := "bcrypt:pw1"; role := RoleAdmin; permissions := [];
     twoFactorEnabled := true; lastLogin := None |}.

Definition bob : User :=
  {| _id := bobId; name := "Bob"; email := "bob@example.com";
     password := "bcrypt:pw2"; role := RoleUser; permissions := ["reports:export"];
     twoFactorEnabled := false; lastLogin := None |}.

(** An outstanding login code for Alice, issued at time 1000. *)
Definition aliceCode : TwoFactorAuth :=
  newTwoFactorAuth 0 1000 aliceId "123456" login_t.

Definition world0 : World :=
  {| users := [alice; bob]; codes := [aliceCode]; nextId := 1; clock := 2000;
     rng := fun _ => 23456; rngPos := 0; mailerUp := true; outbox := [] |}.

Definition aliceLogin (c : CodeField) : Auth.LoginBody :=
  {| Auth.lb_email := Some "alice@example.com"; Auth.lb_password := Some "pw1";
     Auth.lb_twoFactorCode := c |}.

Definition bobLogin (pw : string) : Auth.LoginBody :=
  {| Auth.lb_email := Some "bob@example.com"; Auth.lb_password := Some pw;
     Auth.lb_twoFactorCode := NoCode |}.

(** The same deployment with no code outstanding yet. *)
Definition worldFresh : World :=
  {| users := [alice; bob]; codes := []; nextId := 0; clock := 1000;
     rng := fun _ => 23456; rngPos := 0; mailerUp := true; outbox := [] |}.

(** The same deployment eleven minutes after the code was issued. *)
Definition worldLate : World := advance 660000 world0.

Definition demote : Users.RoleBody :=
  {| Users.rb_role := Some "user"; Users.rb_permissions := None |}.

End Sample.

(** ** Specification-side definitions *)

(** [effectivePermissions(account)] in the specification's words: the role
    table's entry for the account's role united with the account's custom
    permissions. *)
Definition spec_effectivePermissions (u : User) : list string :=
  rolePermissions (role u) ++ permissions u.

(** The additions the specification's role table names for each level. *)
Definition spec_managerOnly : list string :=
  ["inventory:delete"; "waste:delete"; "analytics:read"; "users:read"].

Definition spec_adminOnly : list string :=
  ["users:write"; "users:delete"; "settings:write"].

(** The 403 answer of [requirePermission]. *)
Definition forbidden (permission : string) (r : Role) : Response :=
  res_status_json 403
    (JObj [("message", JStr "Insufficient permissions");
           ("required", JStr permission);
           ("userRole", JStr (roleName r))]).

(** The operations a login runs up to and including the code lookup. *)
Definition verificationTrace (b : Auth.LoginBody) (u : User) (now : Z) : list Event :=
  [ev (User_findOne (str (Auth.lb_email b)));
   ev (User_matchPassword u (str (Auth.lb_password b)));
   ev Date_now;
   ev (TwoFactorAuth_findOne
         (Auth.codeQuery (_id u) (asCondition (Auth.lb_twoFactorCode b)) login_t now))].

(** The world after a login whose code matched the record [r] of account
    [u]: the record is marked used and [lastLogin] is set. *)
Definition afterVerifiedLogin (u : User) (r : TwoFactorAuth) (w : World) : World :=
  setUsers (updateOne (byId (_id u)) (setLastLogin (clock w)) (users w))
    (setCodes (updateOne (byTfaId (tfa_id r)) (setIsUsed true) (codes w)) w).

(** The operations of a login after the code lookup has matched [r]: the
    save that marks it used is an operation of its own. *)
Definition completionTrace (u : User) (r : TwoFactorAuth) (now : Z) : list Event :=
  [ev (TwoFactorAuth_save_isUsed (tfa_id r));
   ev Date_now;
   ev (User_save_lastLogin (_id u) now);
   ev (jwt_sign (_id u))].

(** The world after an enable (disable) request whose code matched the
    record [r] of the requester [ru]: the flag is stored and the record is
    marked used. *)
Definition afterVerifiedToggle (flag : bool) (ru : User) (r : TwoFactorAuth)
           (w : World) : World :=
  setCodes (updateOne (byTfaId (tfa_id r)) (setIsUsed true) (codes w))
    (setUsers (updateOne (byId (_id ru))
                 (applyUpdate (Auth.twoFactorEnabledUpdate flag)) (users w)) w).

(** The operations of such a request: the lookup, the update of the account
    and the save that marks the record used, each an operation of its
    own. *)
Definition toggleTrace (t : CodeType) (flag : bool) (ru : User) (c : CodeField)
           (r : TwoFactorAuth) (now : Z) : list Event :=
  [ev Date_now;
   ev (TwoFactorAuth_findOne (Auth.codeQuery (_id ru) (asCondition c) t now));
   ev (User_findByIdAndUpdate (_id ru) (Auth.twoFactorEnabledUpdate flag));
   ev (TwoFactorAuth_save_isUsed (tfa_id r))].

(** An address without the '@' separator: malformed under any reading of
    "malformed email". *)
Fixpoint hasAtSign (s : string) : bool :=
  match s with
  | EmptyString => false
  | String c t => (Ascii.eqb c "@"%char) || hasAtSign t
  end.

Definition lacksAtSign (s : string) : bool := negb (hasAtSign s).


(** ** Further middleware and routes *)

(** [s.split(sep)] for a one-character separator: the pieces between the
    separators, at least one piece. *)
Fixpoint split (sep : ascii) (s : string) : list string :=
  match s with
  | EmptyString => [EmptyString]
  | String c t =>
      if Ascii.eqb c sep then EmptyString :: split sep t
      else
        match split sep t with
        | piece :: rest => String c piece :: rest
        | [] => [String c EmptyString]
        end
  end.

(** The request interceptor of services/api.ts:
    [config.headers.Authorization = `Bearer ${token}`]. *)
Definition authorizationHeader (token : string) : string := "Bearer " ++ token.

(** What [protect] does: attach [req.user] and call [next()], or answer. *)
Inductive ProtectResult : Type :=
| Attached (req_user : User)
| Refused (r : Response).

(** A user document read with [.select('-password')]: the password path is
    left out, which the record shows as the empty string. *)
Definition withoutPassword (u : User) : User :=
  {| _id := _id u; name := name u; email := email u; password := "";
     role := role u; permissions := permissions u;
     twoFactorEnabled := twoFactorEnabled u; lastLogin := lastLogin u |}.

Definition notAuthorized (why : string) : Response :=
  res_status_json 401 (message why).

(** [protect] (middleware/auth.js).  [jwt_verify token] is
    [jwt.verify(token, process.env.JWT_SECRET)] at the time of the request:
    the [id] of the payload, or [None] where it throws.  The [id] is a
    string, cast by [findById]; a CastError ends in the same catch block as
    a failed verification. *)
Definition protect (jwt_verify : string -> option string)
           (authorization : option string) : Prog ProtectResult :=
  if truthy authorization && String.prefix "Bearer" (str authorization) then
    match nth_error (split " "%char (str authorization)) 1 with
    | None => Ret (Refused (notAuthorized "Not authorized, token failed"))
    | Some token =>
        match jwt_verify token with
        | None => Ret (Refused (notAuthorized "Not authorized, token failed"))
        | Some decoded_id =>
            match ObjectId_cast decoded_id with
            | None => Ret (Refused (notAuthorized "Not authorized, token failed"))
            | Some id =>
                found <- User_findById id ;;
                match found with
                | None =>
                    Ret (Refused (notAuthorized "Not authorized, user not found"))
                | Some u => Ret (Attached (withoutPassword u))
                end
            end
        end
    end
  else Ret (Refused (notAuthorized "Not authorized, no token")).

(** A protected route: [protect] first, the handler with the attached
    account only after [next()]. *)
Definition protected (jwt_verify : string -> option string)
           (authorization : option string) (handler : User -> Prog Response)
  : Prog Response :=
  bind (protect jwt_verify authorization)
       (fun r =>
          match r with
          | Attached req_user => handler req_user
          | Refused resp => Ret resp
          end).

Module AuthMore.

(** [router.get('/profile', protect, ...)]: the stored document without its
    password, [null] when it is gone. *)
Definition profile (req_user : User) : Prog Response :=
  found <- User_findById (_id req_user) ;;
  Ret (res_json (match found with
                 | Some u => userJson u
                 | None => JNull
                 end)).

(** A login body with the code field replaced. *)
Definition withCode (b : Auth.LoginBody) (c : CodeField) : Auth.LoginBody :=
  {| Auth.lb_email := Auth.lb_email b; Auth.lb_password := Auth.lb_password b;
     Auth.lb_twoFactorCode := c |}.

(** The answer of a login that has sent a code. *)
Definition codeSent : Response :=
  res_json
    (JObj [("requiresTwoFactor", JBool true);
           ("message", JStr "Two-factor authentication code sent to your email")]).

(** The answer of a login that went through for account [u]. *)
Definition loggedIn (u : User) (token : string) : Response :=
  res_json
    (JObj [("_id", JStr (_id u)); ("name", JStr (name u));
           ("email", JStr (email u)); ("role", JStr (roleName (role u)));
           ("permissions", JStrs (permissions u));
           ("twoFactorEnabled", JBool (twoFactorEnabled u));
           ("token", JStr token)]).

End AuthMore.

(** The code the generator returns on the next draw of [w]. *)
Definition nextCode (w : World) : string :=
  Number_toString (randomInt 100000 999999 (rng w (rngPos w))).

(** The world after a code of flow [t] has been created for account [id]
    and, when the mailer is up, sent to [e]. *)
Definition afterIssuance (id e : string) (t : CodeType) (w : World) : World :=
  {| users := users w;
     codes := codes w ++ [newTwoFactorAuth (nextId w) (clock w) id (nextCode w) t];
     nextId := S (nextId w); clock := clock w; rng := rng w;
     rngPos := S (rngPos w); mailerUp := mailerUp w;
     outbox := if mailerUp w then outbox w ++ [(e, nextCode w, t)] else outbox w |}.

(** Everything of an account but its [lastLogin]. *)
Definition accountCore (u : User)
  : string * string * string * string * Role * list string * bool :=
  (_id u, name u, email u, password u, role u, permissions u, twoFactorEnabled u).

(** Everything of an account but its [twoFactorEnabled] flag. *)
Definition accountButFlag (u : User)
  : string * string * string * string * Role * list string * option Z :=
  (_id u, name u, email u, password u, role u, permissions u, lastLogin u).

(** Everything of a code record but its [isUsed] flag. *)
Definition recordCore (r : TwoFactorAuth) : nat * string * string * Z * CodeType :=
  (tfa_id r, user r, code r, expiresAt r, type r).

Module UsersMore.

(** The list answered by [GET /api/users/permissions]: value and label. *)
Definition availablePermissions : list (string * string) :=
  [("inventory:read", "View Inventory");
   ("inventory:write", "Add/Edit Inventory");
   ("inventory:delete", "Delete Inventory");
   ("waste:read", "View Waste Logs");
   ("waste:write", "Add/Edit Waste Logs");
   ("waste:delete", "Delete Waste Logs");
   ("users:read", "View Users");
   ("users:write", "Manage Users");
   ("users:delete", "Delete Users");
   ("analytics:read", "View Analytics");
   ("settings:write", "Manage Settings")].

(** The 403 answer of [requireRole]. *)
Definition forbiddenRole (allowedRoles : list string) (r : Role) : Response :=
  res_status_json 403
    (JObj [("message", JStr "Insufficient role permissions");
           ("required", JStrs allowedRoles);
           ("userRole", JStr (roleName r))]).

(** The update [PUT /:id/role] hands to [findByIdAndUpdate] once the body
    has passed its checks. *)
Definition updateData (b : Users.RoleBody) : UserUpdate :=
  {| upd_role :=
       if truthy (Users.rb_role b) then parseRole (str (Users.rb_role b)) else None;
     upd_permissions := Users.rb_permissions b;
     upd_twoFactorEnabled := None |}.

End UsersMore.

(** *** Deleting inventory items and waste logs (routes/inventory.js,
    routes/waste.js) *)

(** A document of the Inventory or Waste collection as the delete routes
    see it: its id, the id of the account in [user], and the rest of its
    fields, which those routes never read. *)
Record Owned (P : Type) : Type := mkOwned {
  doc_id : string;
  doc_user : string;
  doc_rest : P
}.

Arguments mkOwned {P} _ _ _.
Arguments doc_id {P} _.
Arguments doc_user {P} _.
Arguments doc_rest {P} _.

(** The filter [{ _id: id }] for an ObjectId [id]. *)
Definition byDocId {P : Type} (id : string) (d : Owned P) : bool :=
  (doc_id d =? id)%string.

(** The handler shared by [DELETE /api/inventory/:id] and
    [DELETE /api/waste/:id], which differ in their two messages: look the
    document up, check that [req.user] owns it, delete it.  [findById] and
    [findByIdAndDelete] cast [req.params.id]; the CastError of a string
    that is no ObjectId is caught and answered 500. *)
Definition deleteOwnedHandler {P : Type} (notFound removed : string)
           (params_id : string) (req_user : User) (docs : list (Owned P))
  : Response * list (Owned P) :=
  match ObjectId_cast params_id with
  | None => (serverError, docs)
  | Some id =>
      match find (byDocId id) docs with
      | None => (res_status_json 404 (message notFound), docs)
      | Some d =>
          if negb (doc_user d =? _id req_user)%string then
            (res_status_json 401 (message "Not authorized"), docs)
          else (res_json (message removed), deleteOne (byDocId id) docs)
      end
  end.

Section Documents.

Variable bcrypt_compare : string -> string -> bool.
Variable sign : string -> Z -> string.
Variable P : Type.

(** The route: [requirePermission] on the users, then the handler on the
    documents. *)
Definition deleteOwnedRoute (permission notFound removed : string)
           (params_id : string) (req_user : User) (w : World)
           (docs : list (Owned P)) : Response * list (Owned P) :=
  match fst (fst (run bcrypt_compare sign
                      (requirePermission permission (Some req_user)) w)) with
  | Next => deleteOwnedHandler notFound removed params_id req_user docs
  | Respond resp => (resp, docs)
  end.

(** [router.delete('/:id', requirePermission('inventory:delete'), ...)]. *)
Definition deleteInventoryItem : string -> User -> World -> list (Owned P)
                                 -> Response * list (Owned P) :=
  deleteOwnedRoute "inventory:delete" "Inventory item not found" "Item removed".

(** [router.delete('/:id', requirePermission('waste:delete'), ...)]. *)
Definition deleteWasteLog : string -> User -> World -> list (Owned P)
                            -> Response * list (Owned P) :=
  deleteOwnedRoute "waste:delete" "Waste log not found" "Waste log removed".

End Documents.

(** Whether a JSON object has a member named [k]. *)
Definition hasMember (k : string) (j : Json) : bool :=
  match j with
  | JObj fields => existsb (fun kv => (fst kv =? k)%string) fields
  | _ => false
  end.

(** Whether a character occurs in a string. *)
Fixpoint occurs (c : ascii) (s : string) : bool :=
  match s with
  | EmptyString => false
  | String x t => Ascii.eqb x c || occurs c t
  end.

(** A login request that reaches the code issuance for account [u]: both
    fields present, [u] found by the email, the password matches, 2FA is
    enabled and no code is supplied. *)
Definition reachesIssuance (bcrypt_compare : string -> string -> bool)
           (b : Auth.LoginBody) (w : World) (u : User) : Prop :=
  truthy (Auth.lb_email b) = true
  /\ truthy (Auth.lb_password b) = true
  /\ find (byEmail (str (Auth.lb_email b))) (users w) = Some u
  /\ bcrypt_compare (str (Auth.lb_password b)) (password u) = true
  /\ twoFactorEnabled u = true
  /\ truthyCode (Auth.lb_twoFactorCode b) = false.

(** ** More sample data *)

Module SampleMore.

(** [jwt.verify] matching [Sample.sign]: a token is the id behind "jwt:". *)
Definition verify (token : string) : option string :=
  if String.prefix "jwt:" token
  then Some (substring 4 (String.length token - 4) token)
  else None.

(** The same deployment with the e-mail service down. *)
Definition worldMailDown : World :=
  {| users := [Sample.alice; Sample.bob]; codes := [Sample.aliceCode]; nextId := 1; clock := 2000;
     rng := fun _ => 23456; rngPos := 0; mailerUp := false; outbox := [] |}.

(** An outstanding enable-2FA code for Bob, issued at time 1000. *)
Definition bobEnableCode : TwoFactorAuth :=
  newTwoFactorAuth 0 1000 Sample.bobId "654321" enable_2fa.

Definition worldEnable : World :=
  {| users := [Sample.alice; Sample.bob]; codes := [bobEnableCode]; nextId := 1; clock := 2000;
     rng := fun _ => 23456; rngPos := 0; mailerUp := true; outbox := [] |}.

(** An account with the role 'user' and no custom permission. *)
Definition carolId : string := "64c3f3c29b7e4d0012ab34c3".

Definition carol : User :=
  {| _id := carolId; name := "Carol"; email := "carol@example.com";
     password := "bcrypt:pw3"; role := RoleUser; permissions := [];
     twoFactorEnabled := false; lastLogin := None |}.

Definition worldCarol : World :=
  {| users := [Sample.alice; carol]; codes := []; nextId := 0; clock := 1000;
     rng := fun _ => 23456; rngPos := 0; mailerUp := true; outbox := [] |}.

(** Two inventory items, one of Alice's and one of Bob's, and the id of a
    waste log. *)
Definition item1 : string := "65d1f3c29b7e4d0012ab3401".
Definition item2 : string := "65d1f3c29b7e4d0012ab3402".
Definition log1 : string := "65e1f3c29b7e4d0012ab3401".

Definition items : list (Owned unit) :=
  [mkOwned item1 Sample.aliceId tt; mkOwned item2 Sample.bobId tt].

Definition promote : Users.RoleBody :=
  {| Users.rb_role := Some "manager"; Users.rb_permissions := None |}.

(** Alice's ObjectId spelled with upper-case digits. *)
Definition aliceIdUpper : string := "64A1F3C29B7E4D0012AB34C1".

(** A later moment of the deployment: Alice's first login code has expired
    unused, and a second login code with the same digits, issued at time
    700000, is still valid. *)
Definition aliceSecondCode : TwoFactorAuth :=
  newTwoFactorAuth 1 700000 Sample.aliceId "123456" login_t.

Definition worldDuplicate : World :=
  {| users := [Sample.alice; Sample.bob];
     codes := [Sample.aliceCode; aliceSecondCode]; nextId := 2; clock := 800000;
     rng := fun _ => 23456; rngPos := 0; mailerUp := true; outbox := [] |}.

End SampleMore.

(** ** Basic facts *)

Lemma randomInt_range min max x :
  min < max -> min <= randomInt min max x < max.
Proof.
  intros H. unfold randomInt.
  pose proof (Z.mod_pos_bound x (max - min)). lia.
Qed.

Lemma toStringAux_unfold fuel n acc :
  toStringAux (S fuel) n acc =
  if n <? 10 then String (digitChar (n mod 10)) acc
  else toStringAux fuel (n / 10) (String (digitChar (n mod 10)) acc).
Proof. reflexivity. Qed.

(** The six digits of a number between 100000 and 999999, most significant
    first. *)
Lemma Number_toString_six_digits n :
  100000 <= n <= 999999 ->
  Number_toString n =
  String (digitChar (n / 10 / 10 / 10 / 10 / 10 mod 10))
    (String (digitChar (n / 10 / 10 / 10 / 10 mod 10))
       (String (digitChar (n / 10 / 10 / 10 mod 10))
          (String (digitChar (n / 10 / 10 mod 10))
             (String (digitChar (n / 10 mod 10))
                (String (digitChar (n mod 10)) ""))))).
Proof.
  intros H. unfold Number_toString.
  assert (H1 : 10000 <= n / 10 <= 99999)
    by (Z.to_euclidean_division_equations; lia).
  assert (H2 : 1000 <= n / 10 / 10 <= 9999)
    by (Z.to_euclidean_division_equations; lia).
  assert (H3 : 100 <= n / 10 / 10 / 10 <= 999)
    by (Z.to_euclidean_division_equations; lia).
  assert (H4 : 10 <= n / 10 / 10 / 10 / 10 <= 99)
    by (Z.to_euclidean_division_equations; lia).
  assert (H5 : 1 <= n / 10 / 10 / 10 / 10 / 10 <= 9)
    by (Z.to_euclidean_division_equations; lia).
  rewrite toStringAux_unfold.
  replace (n <? 10) with false by (symmetry; apply Z.ltb_ge; lia).
  rewrite toStringAux_unfold.
  replace (n / 10 <? 10) with false by (symmetry; apply Z.ltb_ge; lia).
  rewrite toStringAux_unfold.
  replace (n / 10 / 10 <? 10) with false by (symmetry; apply Z.ltb_ge; lia).
  rewrite toStringAux_unfold.
  replace (n / 10 / 10 / 10 <? 10) with false by (symmetry; apply Z.ltb_ge; lia).
  rewrite toStringAux_unfold.
  replace (n / 10 / 10 / 10 / 10 <? 10) with false
    by (symmetry; apply Z.ltb_ge; lia).
  rewrite toStringAux_unfold.
  replace (n / 10 / 10 / 10 / 10 / 10 <? 10) with true
    by (symmetry; apply Z.ltb_lt; lia).
  reflexivity.
Qed.

Lemma Number_toString_length6 n :
  100000 <= n <= 999999 -> String.length (Number_toString n) = 6%nat.
Proof. intros H. rewrite Number_toString_six_digits by exact H. reflexivity. Qed.

Lemma digitChar_nine d : 0 <= d < 10 -> digitChar d = "9"%char -> d = 9.
Proof.
  intros Hd H.
  assert (C : d = 0 \/ d = 1 \/ d = 2 \/ d = 3 \/ d = 4 \/ d = 5 \/ d = 6
              \/ d = 7 \/ d = 8 \/ d = 9) by lia.
  repeat (destruct C as [C | C]; [subst d; vm_compute in H; congruence|]).
  exact C.
Qed.

Lemma Number_toString_999999 n :
  100000 <= n <= 999999 -> Number_toString n = "999999" -> n = 999999.
Proof.
  intros Hn H. rewrite Number_toString_six_digits in H by exact Hn.
  injection H as E5 E4 E3 E2 E1 E0.
  apply digitChar_nine in E0, E1, E2, E3, E4, E5;
    try (apply Z.mod_pos_bound; lia).
  Z.to_euclidean_division_equations; lia.
Qed.

(** *** The ObjectId cast *)

Lemma lowerHex_hex (c : ascii) :
  isHexDigit c = true ->
  isHexDigit (lowerHex c) = true /\ lowerHex (lowerHex c) = lowerHex c.
Proof.
  destruct c as [[] [] [] [] [] [] [] []]; vm_compute; intros H;
    first [discriminate H | split; reflexivity].
Qed.

Lemma toLowerHex_hex (s : string) :
  allHex s = true ->
  String.length (toLowerHex s) = String.length s
  /\ allHex (toLowerHex s) = true
  /\ toLowerHex (toLowerHex s) = toLowerHex s.
Proof.
  induction s as [|c t IH]; cbn [allHex toLowerHex String.length]; [auto|].
  intros H. apply andb_true_iff in H. destruct H as [Hc Ht].
  destruct (lowerHex_hex c Hc) as [H1 H2]. destruct (IH Ht) as (L & A & I).
  rewrite L, H1, H2, A, I. auto.
Qed.

(** The cast gives the canonical spelling, which casts to itself: every
    spelling of an ObjectId denotes the same ObjectId as its lower-case
    form. *)
Lemma ObjectId_cast_canonical (s id : string) :
  ObjectId_cast s = Some id -> id = toLowerHex s /\ ObjectId_cast id = Some id.
Proof.
  unfold ObjectId_cast.
  destruct ((String.length s =? 24)%nat && allHex s) eqn:E; [|discriminate].
  intros [= <-]. split; [reflexivity|].
  apply andb_true_iff in E. destruct E as [El Eh].
  destruct (toLowerHex_hex s Eh) as (L & A & I).
  rewrite L, El, A, I. reflexivity.
Qed.

Example sample_ids_are_ObjectIds :
  ObjectId_cast Sample.aliceId = Some Sample.aliceId
  /\ ObjectId_cast Sample.bobId = Some Sample.bobId
  /\ ObjectId_cast SampleMore.carolId = Some SampleMore.carolId
  /\ ObjectId_cast SampleMore.aliceIdUpper = Some Sample.aliceId
  /\ ObjectId_cast "zz" = None.
Proof. repeat split. Qed.

Example login_with_valid_code_succeeds :
  let '(resp, w, _) :=
    run Sample.compare Sample.sign (Auth.login (Sample.aliceLogin (CodeText "123456")))
        Sample.world0 in
  status resp = 200
  /\ map isUsed (codes w) = [true]
  /\ map lastLogin (users w) = [Some 2000; None].
Proof. vm_compute. repeat split; reflexivity. Qed.

Example login_without_code_sends_one :
  let '(resp, w, _) :=
    run Sample.compare Sample.sign (Auth.login (Sample.aliceLogin NoCode))
        Sample.world0 in
  resp = res_json
           (JObj [("requiresTwoFactor", JBool true);
                  ("message",
                   JStr "Two-factor authentication code sent to your email")])
  /\ map code (codes w) = ["123456"; "123456"]
  /\ map expiresAt (codes w) = [601000; 602000]
  /\ outbox w = [("alice@example.com", "123456", login_t)].
Proof. vm_compute. repeat split; reflexivity. Qed.

(** ** Properties *)

Section Properties.

Variable bcrypt_compare : string -> string -> bool.
Variable sign : string -> Z -> string.

Local Abbreviation run := (run bcrypt_compare sign).
Local Abbreviation exec := (exec bcrypt_compare sign).
Local Abbreviation world_step := (world_step bcrypt_compare sign).
Local Abbreviation later := (later bcrypt_compare sign).

Lemma includes_In l s : includes l s = true <-> In s l.
Proof.
  unfold includes. rewrite existsb_exists. split.
  - intros [x [Hin Heq]]. apply String.eqb_eq in Heq. subst. exact Hin.
  - intros Hin. exists s. split; [exact Hin | apply String.eqb_refl].
Qed.

Lemma includes_false_notIn l s : includes l s = false <-> ~ In s l.
Proof.
  rewrite <- includes_In. destruct (includes l s); split; congruence.
Qed.

(** *** One-time-code generation *)

Lemma generateTwoFactorCode_result (w : World) :
  fst (fst (run Auth.generateTwoFactorCode w))
  = Number_toString (randomInt 100000 999999 (rng w (rngPos w))).
Proof. reflexivity. Qed.

(** C1.  Every code the generator returns is the decimal string of a number
    between 100000 and 999998: six digits long and inside [100000, 999999].
    The lower endpoint is attained; the upper endpoint 999999 is attained
    for no draw, since the upper bound handed to [crypto.randomInt] is
    exclusive. *)
Theorem generateTwoFactorCode_range :
  (forall w, exists n,
      fst (fst (run Auth.generateTwoFactorCode w)) = Number_toString n
      /\ n = randomInt 100000 999999 (rng w (rngPos w))
      /\ 100000 <= n <= 999998
      /\ String.length (Number_toString n) = 6%nat)
  /\ (forall w, rng w (rngPos w) = 0 ->
                fst (fst (run Auth.generateTwoFactorCode w)) = "100000")
  /\ (forall w, rng w (rngPos w) = 899998 ->
                fst (fst (run Auth.generateTwoFactorCode w)) = "999998")
  /\ (forall w, fst (fst (run Auth.generateTwoFactorCode w)) <> "999999").
Proof.
  assert (R : forall x, 100000 <= randomInt 100000 999999 x <= 999998).
  { intros x. pose proof (randomInt_range 100000 999999 x). lia. }
  repeat split.
  - intros w. exists (randomInt 100000 999999 (rng w (rngPos w))).
    specialize (R (rng w (rngPos w))).
    repeat split; try reflexivity; try lia.
    apply Number_toString_length6. lia.
  - intros w H. rewrite generateTwoFactorCode_result, H. reflexivity.
  - intros w H. rewrite generateTwoFactorCode_result, H. reflexivity.
  - intros w H. rewrite generateTwoFactorCode_result in H.
    specialize (R (rng w (rngPos w))).
    apply Number_toString_999999 in H; lia.
Qed.

(** *** Login: validation and credential failures *)

(** C9, as the code has it.  A login request whose email or password is
    missing or empty is answered with status 400 before any operation
    runs: the world is untouched and the trace is empty, so no account
    lookup has happened. *)
Theorem login_missing_field_rejected_before_lookup (b : Auth.LoginBody) (w : World) :
  truthy (Auth.lb_email b) = false \/ truthy (Auth.lb_password b) = false ->
  run (Auth.login b) w = (missingCredentials, w, [])
  /\ status missingCredentials = 400.
Proof.
  intros H. split; [|reflexivity]. unfold Auth.login.
  destruct H as [H | H]; rewrite H; cbn [negb orb].
  - reflexivity.
  - rewrite orb_true_r. reflexivity.
Qed.

(** C5.  A login whose email matches no account and a login whose email
    matches an account but whose password does not match its hash receive
    the same response, status 401 with the same body, and both leave the
    world as it was. *)
Theorem login_failure_indistinguishable
        (b1 b2 : Auth.LoginBody) (w1 w2 : World) (u : User) :
  truthy (Auth.lb_email b1) = true -> truthy (Auth.lb_password b1) = true ->
  truthy (Auth.lb_email b2) = true -> truthy (Auth.lb_password b2) = true ->
  find (byEmail (str (Auth.lb_email b1))) (users w1) = None ->
  find (byEmail (str (Auth.lb_email b2))) (users w2) = Some u ->
  bcrypt_compare (str (Auth.lb_password b2)) (password u) = false ->
  fst (fst (run (Auth.login b1) w1)) = fst (fst (run (Auth.login b2) w2))
  /\ fst (fst (run (Auth.login b1) w1)) = invalidCredentials
  /\ snd (fst (run (Auth.login b1) w1)) = w1
  /\ snd (fst (run (Auth.login b2) w2)) = w2.
Proof.
  intros He1 Hp1 He2 Hp2 Hnone Hsome Hbad.
  unfold Auth.login. rewrite He1, Hp1, He2, Hp2. cbn.
  rewrite Hnone, Hsome. cbn. rewrite Hbad. cbn. auto.
Qed.

Lemma find_none_all {A : Type} (p : A -> bool) (l : list A) :
  (forall x, In x l -> p x = false) -> find p l = None.
Proof.
  induction l as [|x t IH]; cbn; intros H; [reflexivity|].
  rewrite (H x) by auto. apply IH. intros y Hy. apply H. auto.
Qed.

Lemma CodeType_eqb_eq a b : CodeType_eqb a b = true <-> a = b.
Proof. destruct a, b; cbn; split; congruence. Qed.

Lemma matches_spec q r :
  matches q r = true <->
  user r = q_user q /\ holds (q_code q) (code r) = true /\ type r = q_type q
  /\ isUsed r = q_isUsed q /\ q_expiresAt_gt q < expiresAt r.
Proof.
  unfold matches. rewrite !andb_true_iff, String.eqb_eq, CodeType_eqb_eq,
    Bool.eqb_true_iff, Z.ltb_lt. tauto.
Qed.

(** A string in the filter is satisfied by that very string only. *)
Lemma holds_text (c : CodeField) (s stored : string) :
  c = CodeText s -> (holds (asCondition c) stored = true <-> stored = s).
Proof. intros ->. cbn. apply String.eqb_eq. Qed.

(** No record of the code is still unexpired: the lookup finds nothing. *)
Lemma expired_no_match (u : string) (c : CodeCondition) (t : CodeType) (now : Z)
      (cs : list TwoFactorAuth) :
  (forall r, In r cs -> user r = u -> holds c (code r) = true -> type r = t ->
             expiresAt r <= now) ->
  find (matches (Auth.codeQuery u c t now)) cs = None.
Proof.
  intros H. apply find_none_all. intros r Hr.
  destruct (matches (Auth.codeQuery u c t now) r) eqn:E; [|reflexivity].
  apply matches_spec in E. cbn in E. destruct E as (Eu & Ec & Et & _ & Hlt).
  specialize (H r Hr Eu Ec Et). lia.
Qed.

Lemma login_lookup_fails (b : Auth.LoginBody) (w : World) (u : User) :
  reachesVerification bcrypt_compare b w u ->
  find (matches (Auth.codeQuery (_id u) (asCondition (Auth.lb_twoFactorCode b)) login_t (clock w)))
       (codes w) = None ->
  run (Auth.login b) w = (invalidOrExpiredCode, w, verificationTrace b u (clock w)).
Proof.
  intros (He & Hp & Hu & Hok & H2fa & Hc & Hcast) Hnone.
  unfold Auth.login. rewrite He, Hp. cbn.
  rewrite Hu. cbn. rewrite Hok, H2fa, Hc. cbn. rewrite Hcast. cbn.
  rewrite Hnone. reflexivity.
Qed.

Lemma toggle2fa_lookup_fails (t : CodeType) (flag : bool) (done : string)
      (ru : User) (c : CodeField) (w : World) :
  truthyCode c = true -> castable c = true ->
  find (matches (Auth.codeQuery (_id ru) (asCondition c) t (clock w))) (codes w) = None ->
  run (Auth.toggle2fa t flag done ru c) w
    = (invalidOrExpiredCode, w,
       [ev Date_now;
        ev (TwoFactorAuth_findOne (Auth.codeQuery (_id ru) (asCondition c) t (clock w)))]).
Proof.
  intros Hc Hcast Hnone. unfold Auth.toggle2fa. rewrite Hc. cbn.
  rewrite Hcast. cbn. rewrite Hnone. reflexivity.
Qed.

(** C10.  With 2FA enabled, a login whose supplied code (a string, or any
    other value the query accepts) matches no unused, unexpired record is
    answered with the invalid-code error; the world is exactly the one
    before the request (no [lastLogin] update, no record modified), and the
    only operations run are the two lookups, the password comparison and
    the clock read: no token is signed. *)
Theorem login_bad_code_changes_nothing (b : Auth.LoginBody) (w : World) (u : User) :
  reachesVerification bcrypt_compare b w u ->
  find (matches (Auth.codeQuery (_id u) (asCondition (Auth.lb_twoFactorCode b)) login_t (clock w)))
       (codes w) = None ->
  run (Auth.login b) w
    = (invalidOrExpiredCode, w,
       [ev (User_findOne (str (Auth.lb_email b)));
        ev (User_matchPassword u (str (Auth.lb_password b)));
        ev Date_now;
        ev (TwoFactorAuth_findOne
              (Auth.codeQuery (_id u) (asCondition (Auth.lb_twoFactorCode b)) login_t (clock w)))]).
Proof. intros H Hnone. exact (login_lookup_fails b w u H Hnone). Qed.

(** C4, as the code has it.  A code all of whose records (for the account
    and flow) have an [expiresAt] not later than the current time is
    rejected with the invalid-code error, whatever the [isUsed] flags, in
    the login flow and in the enable/disable flows, and the world is left
    as it was; a newly created record expires 600000 ms (10 minutes) after
    the creation time and is unused. *)
Theorem expired_code_rejected :
  (forall (b : Auth.LoginBody) (w : World) (u : User),
      reachesVerification bcrypt_compare b w u ->
      (forall r, In r (codes w) -> user r = _id u ->
                 holds (asCondition (Auth.lb_twoFactorCode b)) (code r) = true ->
                 type r = login_t -> expiresAt r <= clock w) ->
      run (Auth.login b) w = (invalidOrExpiredCode, w, verificationTrace b u (clock w)))
  /\ (forall (t : CodeType) (flag : bool) (done : string) (ru : User)
             (c : CodeField) (w : World),
         truthyCode c = true -> castable c = true ->
         (forall r, In r (codes w) -> user r = _id ru ->
                    holds (asCondition c) (code r) = true ->
                    type r = t -> expiresAt r <= clock w) ->
         fst (run (Auth.toggle2fa t flag done ru c) w) = (invalidOrExpiredCode, w))
  /\ (forall (u c : string) (t : CodeType) (w : World),
         let r := fst (exec (TwoFactorAuth_create u c t) w) in
         expiresAt r = clock w + 600000
         /\ isUsed r = false
         /\ codes (snd (exec (TwoFactorAuth_create u c t) w)) = (codes w ++ [r])%list).
Proof.
  split; [|split].
  - intros b w u H Hexp. apply login_lookup_fails; [exact H|].
    apply expired_no_match. exact Hexp.
  - intros t flag done ru c w Hc Hcast Hexp.
    rewrite toggle2fa_lookup_fails; [reflexivity | exact Hc | exact Hcast |].
    apply expired_no_match. exact Hexp.
  - intros u c t w. cbn. repeat split.
Qed.

(** *** The authorization gate *)

(** C6.  For an authenticated request whose account is in the store, the
    permission check passes exactly when the required permission belongs to
    the union of the role's permissions and the account's custom ones;
    otherwise it answers 403 with the required permission and the account's
    role. *)
Theorem requirePermission_iff_effective
        (permission : string) (ru u : User) (w : World) :
  find (byId (_id ru)) (users w) = Some u ->
  (run (requirePermission permission (Some ru)) w
     = (Next, w, [ev (User_findById (_id ru))])
   <-> In permission (spec_effectivePermissions u))
  /\ (~ In permission (spec_effectivePermissions u) ->
      run (requirePermission permission (Some ru)) w
        = (Respond (forbidden permission (role u)), w,
           [ev (User_findById (_id ru))])).
Proof.
  intros Hu. unfold spec_effectivePermissions, requirePermission.
  cbn. rewrite Hu. cbn.
  destruct (includes (rolePermissions (role u)) permission) eqn:Hr;
    destruct (includes (permissions u) permission) eqn:Hc; cbn [negb andb].
  - apply includes_In in Hr. split; [split; auto|]; intros; try reflexivity;
      try (apply in_or_app; auto). exfalso. apply H, in_or_app; auto.
  - apply includes_In in Hr. split; [split; auto|]; intros; try reflexivity;
      try (apply in_or_app; auto). exfalso. apply H, in_or_app; auto.
  - apply includes_In in Hc. split; [split; auto|]; intros; try reflexivity;
      try (apply in_or_app; auto). exfalso. apply H, in_or_app; auto.
  - apply includes_false_notIn in Hr, Hc. split; [split|].
    + intros H. discriminate H.
    + intros H. apply in_app_or in H. tauto.
    + intros _. reflexivity.
Qed.

(** C7.  The manager's permissions are the user's together with the four
    manager-only additions, the admin's are the manager's together with the
    three admin-only additions, and a custom permission of an account
    passes the check whatever the account's role. *)
Theorem rolePermissions_monotone :
  (forall p, In p (rolePermissions RoleManager)
             <-> In p (rolePermissions RoleUser) \/ In p spec_managerOnly)
  /\ (forall p, In p (rolePermissions RoleAdmin)
                <-> In p (rolePermissions RoleManager) \/ In p spec_adminOnly)
  /\ (forall (p : string) (ru u : User) (w : World),
         find (byId (_id ru)) (users w) = Some u ->
         In p (permissions u) ->
         run (requirePermission p (Some ru)) w
           = (Next, w, [ev (User_findById (_id ru))])).
Proof.
  split; [|split].
  - intros p. cbn. tauto.
  - intros p. cbn. tauto.
  - intros p ru u w Hu Hin. unfold requirePermission. cbn. rewrite Hu. cbn.
    apply includes_In in Hin. rewrite Hin, andb_false_r. reflexivity.
Qed.

(** *** Self-protection in user management *)

Lemma find_updateOne {A : Type} (p : A -> bool) (f : A -> A) (l : list A) :
  (forall x, p (f x) = p x) ->
  find p (updateOne p f l) = option_map f (find p l).
Proof.
  intros Hp. induction l as [|x t IH]; cbn; [reflexivity|].
  destruct (p x) eqn:E; cbn.
  - rewrite Hp, E. reflexivity.
  - rewrite E. exact IH.
Qed.

Lemma byId_applyUpdate id upd u : byId id (applyUpdate upd u) = byId id u.
Proof. reflexivity. Qed.

Lemma requireRole_admin_passes (ru u : User) (w : World) :
  find (byId (_id ru)) (users w) = Some u -> role u = RoleAdmin ->
  run (requireRole ["admin"] (Some ru)) w = (Next, w, [ev (User_findById (_id ru))]).
Proof.
  intros Hu Hr. unfold requireRole. cbn. rewrite Hu. cbn. rewrite Hr. reflexivity.
Qed.

Lemma run_route (mw : Prog MwResult) (h : Prog Response) (w : World) :
  run (route mw h) w =
  match run mw w with
  | (Next, w1, t1) =>
      let '(r, w2, t2) := run h w1 in (r, w2, (t1 ++ t2)%list)
  | (Respond resp, w1, t1) => (resp, w1, (t1 ++ [])%list)
  end.
Proof.
  unfold route. revert w. induction mw as [r | A op k IH]; intros w.
  - cbn. destruct r; cbn; [destruct (run h w) as [[r w2] t2]|]; reflexivity.
  - cbn. destruct (exec op w) as [a w1]. rewrite IH.
    destruct (run (k a) w1) as [[r w2] t2].
    destruct r; [destruct (run h w2) as [[r' w3] t3]|]; reflexivity.
Qed.

Lemma valid_role_body (b : Users.RoleBody) :
  truthy (Users.rb_role b) = false
  \/ includes Users.validRoles (str (Users.rb_role b)) = true ->
  truthy (Users.rb_role b)
    && negb (includes Users.validRoles (str (Users.rb_role b))) = false.
Proof. intros [-> | ->]; [reflexivity | apply andb_false_r]. Qed.

(** An admin's role update under an id that gets past the guard: the
    account addressed is the one the id casts to. *)
Lemma updateRole_cast (me acct : User) (pid id : string) (w : World)
      (b : Users.RoleBody) :
  find (byId (_id me)) (users w) = Some acct -> role acct = RoleAdmin ->
  pid <> _id me ->
  truthy (Users.rb_role b) = false
  \/ includes Users.validRoles (str (Users.rb_role b)) = true ->
  ObjectId_cast pid = Some id ->
  fst (run (Users.updateRole pid me b) w)
  = (match find (byId id) (users w) with
     | Some target =>
         res_json (userJson (applyUpdate (UsersMore.updateData b) target))
     | None => res_status_json 404 (message "User not found")
     end,
     setUsers (updateOne (byId id) (applyUpdate (UsersMore.updateData b))
                 (users w)) w).
Proof.
  intros Hme Hadmin Hne Hvalid Hcast.
  unfold Users.updateRole. rewrite run_route.
  rewrite (requireRole_admin_passes me acct w Hme Hadmin).
  unfold Users.updateRoleHandler. rewrite (valid_role_body b Hvalid).
  apply String.eqb_neq in Hne. rewrite Hne, Hcast. cbn -[find].
  destruct (find (byId id) (users w)); reflexivity.
Qed.

(** An admin's delete under an id that gets past the guard. *)
Lemma deleteUser_cast (me acct : User) (pid id : string) (w : World) :
  find (byId (_id me)) (users w) = Some acct -> role acct = RoleAdmin ->
  pid <> _id me ->
  ObjectId_cast pid = Some id ->
  fst (run (Users.deleteUser pid me) w)
  = (match find (byId id) (users w) with
     | Some _ => res_json (message "User deleted successfully")
     | None => res_status_json 404 (message "User not found")
     end,
     setUsers (deleteOne (byId id) (users w)) w).
Proof.
  intros Hme Hadmin Hne Hcast.
  unfold Users.deleteUser. rewrite run_route.
  rewrite (requireRole_admin_passes me acct w Hme Hadmin).
  unfold Users.deleteHandler.
  apply String.eqb_neq in Hne. rewrite Hne, Hcast. cbn -[find].
  destruct (find (byId id) (users w)); reflexivity.
Qed.

Lemma deleteOne_removes (id : string) (l : list User) :
  NoDup (map _id l) ->
  forall x, In x (deleteOne (byId id) l) -> In x l /\ _id x <> id.
Proof.
  induction l as [|y t IH]; cbn; intros Hnd x Hx; [contradiction|].
  apply NoDup_cons_iff in Hnd. destruct Hnd as [Hy Ht].
  destruct (byId id y) eqn:E.
  - unfold byId in E. apply String.eqb_eq in E. split; [auto|].
    intros Heq. apply Hy. rewrite E, <- Heq. apply in_map. exact Hx.
  - destruct Hx as [<- | Hx].
    + split; [auto|]. unfold byId in E. apply String.eqb_neq in E. exact E.
    + destruct (IH Ht x Hx). auto.
Qed.

Lemma find_none_after_delete (id : string) (l : list User) :
  NoDup (map _id l) -> find (byId id) (deleteOne (byId id) l) = None.
Proof.
  intros Hnd. apply find_none_all. intros x Hx.
  destruct (deleteOne_removes id l Hnd x Hx) as [_ Hne].
  unfold byId. apply String.eqb_neq. exact Hne.
Qed.

Lemma parseRole_roleName (r : Role) : parseRole (roleName r) = Some r.
Proof. destruct r; reflexivity. Qed.

(** C8.  The guards of the two routes compare the id of the request with
    the requester's own id as strings, while the update and the delete
    address the account the id casts to.  A request spelling the id
    exactly as the requester's own is refused, as the comments of the two
    routes intend: 400 for an admin's role update with a role other than
    'admin', and 401, 403 or 400 for a delete, the world staying as it
    was.  Any other spelling of
    the same ObjectId gets past the guard: the admin's role update then
    answers 200 and stores the new role on the admin's own account, and
    the admin's delete answers 200 and removes the admin's own account. *)
Theorem self_protection_depends_on_spelling :
  (forall (me acct : User) (w : World) (b : Users.RoleBody),
      find (byId (_id me)) (users w) = Some acct ->
      role acct = RoleAdmin ->
      truthy (Users.rb_role b) = true ->
      str (Users.rb_role b) <> "admin" ->
      exists resp,
        run (Users.updateRole (_id me) me b) w
          = (resp, w, [ev (User_findById (_id me))])
        /\ status resp = 400)
  /\ (forall (me : User) (w : World),
         exists resp,
           run (Users.deleteUser (_id me) me) w
             = (resp, w, [ev (User_findById (_id me))])
           /\ 400 <= status resp <= 403)
  /\ (forall (me acct : User) (w : World) (pid : string) (newRole : Role),
         find (byId (_id me)) (users w) = Some acct ->
         role acct = RoleAdmin ->
         pid <> _id me ->
         ObjectId_cast pid = Some (_id me) ->
         let b := {| Users.rb_role := Some (roleName newRole);
                     Users.rb_permissions := None |} in
         let w1 := snd (fst (run (Users.updateRole pid me b) w)) in
         status (fst (fst (run (Users.updateRole pid me b) w))) = 200
         /\ option_map role (find (byId (_id me)) (users w1)) = Some newRole)
  /\ (forall (me acct : User) (w : World) (pid : string),
         find (byId (_id me)) (users w) = Some acct ->
         role acct = RoleAdmin ->
         pid <> _id me ->
         ObjectId_cast pid = Some (_id me) ->
         NoDup (map _id (users w)) ->
         let w1 := snd (fst (run (Users.deleteUser pid me) w)) in
         fst (fst (run (Users.deleteUser pid me) w))
           = res_json (message "User deleted successfully")
         /\ find (byId (_id me)) (users w1) = None).
Proof.
  split; [|split; [|split]].
  - intros me acct w b Hu Hr Ht Hn.
    unfold Users.updateRole. rewrite run_route.
    rewrite (requireRole_admin_passes me acct w Hu Hr).
    unfold Users.updateRoleHandler. rewrite Ht, String.eqb_refl.
    destruct (includes Users.validRoles (str (Users.rb_role b))).
    + apply String.eqb_neq in Hn. rewrite Hn. cbn. eauto.
    + cbn. eauto.
  - intros me w. unfold Users.deleteUser. rewrite run_route.
    unfold requireRole. cbn -[find includes].
    destruct (find (byId (_id me)) (users w)) as [u|]; cbn -[includes].
    + destruct (includes ["admin"] (roleName (role u))); cbn.
      * unfold Users.deleteHandler. rewrite String.eqb_refl. cbn.
        eexists. split; [reflexivity | cbn; lia].
      * eexists. split; [reflexivity | cbn; lia].
    + eexists. split; [reflexivity | cbn; lia].
  - intros me acct w pid newRole Hu Hr Hne Hcast. cbn zeta.
    rewrite (updateRole_cast me acct pid (_id me) w _ Hu Hr Hne);
      [| right; destruct newRole; reflexivity | exact Hcast].
    rewrite Hu. cbn [fst snd]. split; [reflexivity|]. cbn -[find].
    rewrite find_updateOne by apply byId_applyUpdate. rewrite Hu.
    cbn. rewrite parseRole_roleName.
    destruct newRole; reflexivity.
  - intros me acct w pid Hu Hr Hne Hcast Hnd. cbn zeta.
    rewrite (deleteUser_cast me acct pid (_id me) w Hu Hr Hne Hcast).
    rewrite Hu. cbn [fst snd]. split; [reflexivity|]. cbn -[find].
    apply find_none_after_delete, Hnd.
Qed.

(** *** Single use of a code record *)

Lemma map_tfa_id_updateOne (p : TwoFactorAuth -> bool) (b : bool)
      (l : list TwoFactorAuth) :
  map tfa_id (updateOne p (setIsUsed b) l) = map tfa_id l.
Proof.
  induction l as [|x t IH]; cbn; [reflexivity|].
  destruct (p x); cbn; [reflexivity | now rewrite IH].
Qed.

Lemma In_updateOne {A : Type} (p : A -> bool) (f : A -> A) (l : list A) (y : A) :
  In y (updateOne p f l) ->
  In y l \/ exists x, In x l /\ p x = true /\ y = f x.
Proof.
  induction l as [|x t IH]; cbn; [tauto|].
  destruct (p x) eqn:E; cbn; intros [H | H].
  - right. exists x. auto.
  - auto.
  - auto.
  - destruct (IH H) as [H1 | (z & Hz & Hp & Hy)]; [auto|].
    right. exists z. auto.
Qed.

Lemma usedIn_updateOne (i j : nat) (cs : list TwoFactorAuth) :
  usedIn i cs -> usedIn i (updateOne (byTfaId j) (setIsUsed true) cs).
Proof.
  intros H r Hr Hi. apply In_updateOne in Hr.
  destruct Hr as [Hr | (x & _ & _ & ->)]; [exact (H r Hr Hi) | reflexivity].
Qed.

Lemma usedIn_marked (i : nat) (cs : list TwoFactorAuth) :
  NoDup (map tfa_id cs) ->
  usedIn i (updateOne (byTfaId i) (setIsUsed true) cs).
Proof.
  induction cs as [|x t IH]; cbn; intros Hnd r Hr Hi; [contradiction|].
  inversion Hnd as [|? ? Hnot Hnd']; subst.
  unfold byTfaId in Hr at 1. destruct (Nat.eqb_spec (tfa_id x) (tfa_id r)) as [E|E].
  - destruct Hr as [<- | Hr]; [reflexivity|].
    exfalso. apply Hnot. rewrite E. apply in_map. exact Hr.
  - destruct Hr as [<- | Hr]; [congruence|]. exact (IH Hnd' r Hr eq_refl).
Qed.

Lemma NoDup_snoc {A : Type} (l : list A) (x : A) :
  NoDup l -> ~ In x l -> NoDup (l ++ [x]).
Proof.
  induction l as [|y t IH]; cbn; intros Hnd Hx.
  - constructor; [tauto | constructor].
  - inversion Hnd as [|? ? Hy Hnd']; subst. constructor.
    + rewrite in_app_iff. cbn. intros [H | [H | []]]; [tauto|].
      apply Hx. auto.
    + apply IH; [exact Hnd' | tauto].
Qed.

Lemma wf_exec (A : Type) (op : Op A) (w : World) :
  wf w -> wf (snd (exec op w)).
Proof.
  intros [Hnd Hlt]. destruct op; cbn; try (split; assumption).
  - (* create *)
    split; cbn.
    + rewrite map_app. cbn. apply NoDup_snoc; [exact Hnd|].
      intros Hin. apply in_map_iff in Hin. destruct Hin as (r & Hr & Hin).
      rewrite Forall_forall in Hlt. specialize (Hlt r Hin). lia.
    + apply Forall_app. split.
      * eapply Forall_impl; [|exact Hlt]. cbn. intros; lia.
      * constructor; [cbn; lia | constructor].
  - (* save isUsed *)
    split; cbn.
    + rewrite map_tfa_id_updateOne. exact Hnd.
    + rewrite Forall_forall in *. intros r Hr. apply In_updateOne in Hr.
      destruct Hr as [Hr | (x & Hx & _ & ->)]; [auto|]. cbn. auto.
  - (* mailer *)
    destruct (mailerUp w); cbn; split; assumption.
Qed.

(** The reaper only removes documents, so the remaining ids stay distinct. *)
Lemma reap_ids_distinct (now : Z) (cs : list TwoFactorAuth) :
  NoDup (map tfa_id cs) ->
  NoDup (map tfa_id (filter (fun r => now <? expiresAt r) cs)).
Proof.
  intros Hnd. induction cs as [|r cs IH]; cbn in *; [exact Hnd|].
  apply NoDup_cons_iff in Hnd. destruct Hnd as [Hfresh Hrest].
  destruct (now <? expiresAt r); cbn; [|exact (IH Hrest)].
  apply NoDup_cons; [|exact (IH Hrest)].
  contradict Hfresh. apply in_map_iff in Hfresh.
  destruct Hfresh as (r' & Hid & Hr'). apply filter_In in Hr'.
  apply in_map_iff. exists r'. tauto.
Qed.

Lemma wf_step (w w' : World) : wf w -> world_step w w' -> wf w'.
Proof.
  intros Hw Hs. destruct Hs as [A op | d Hd |].
  - apply wf_exec, Hw.
  - exact Hw.
  - destruct Hw as [Hnd Hlt]. split; cbn.
    + apply reap_ids_distinct, Hnd.
    + rewrite Forall_forall in *. intros r Hr. apply filter_In in Hr.
      apply Hlt. tauto.
Qed.

Lemma nextId_exec (A : Type) (op : Op A) (w : World) :
  (nextId w <= nextId (snd (exec op w)))%nat.
Proof. destruct op; cbn; try lia. destruct (mailerUp w); cbn; lia. Qed.

Lemma usedIn_exec (A : Type) (op : Op A) (i : nat) (w : World) :
  (i < nextId w)%nat -> usedIn i (codes w) ->
  usedIn i (codes (snd (exec op w))).
Proof.
  intros Hi Hu. destruct op; cbn; try assumption.
  - intros r Hr Hid. apply in_app_iff in Hr. destruct Hr as [Hr | [<- | []]].
    + exact (Hu r Hr Hid).
    + cbn in Hid. lia.
  - apply usedIn_updateOne, Hu.
  - destruct (mailerUp w); cbn; assumption.
Qed.

(** Once marked, always marked: nothing that can happen to the world
    afterwards makes the document [i] unused again. *)
Lemma usedIn_later (i : nat) (w w' : World) :
  wf w -> (i < nextId w)%nat -> usedIn i (codes w) -> later w w' ->
  wf w' /\ (i < nextId w')%nat /\ usedIn i (codes w').
Proof.
  intros Hw Hi Hu Hl. induction Hl as [|w1 w2 Hl IH Hs]; [auto|].
  destruct IH as (Hw1 & Hi1 & Hu1).
  split; [exact (wf_step w1 w2 Hw1 Hs)|].
  destruct Hs as [A op | d Hd |].
  - split; [pose proof (nextId_exec A op w1); lia|].
    apply usedIn_exec; assumption.
  - auto.
  - split; [exact Hi1|]. intros r Hr Hid. cbn in Hr. apply filter_In in Hr.
    apply Hu1; tauto.
Qed.

(** A document marked used is returned by no lookup for unused codes. *)
Lemma used_never_found (i : nat) (cs : list TwoFactorAuth) (q : CodeQuery)
      (r : TwoFactorAuth) :
  usedIn i cs -> q_isUsed q = false -> find (matches q) cs = Some r ->
  tfa_id r <> i.
Proof.
  intros Hu Hq Hf Hi. apply find_some in Hf. destruct Hf as [Hin Hm].
  apply matches_spec in Hm. destruct Hm as (_ & _ & _ & Hused & _).
  rewrite (Hu r Hin Hi), Hq in Hused. discriminate.
Qed.

(** Running any handler is a sequence of world steps. *)
Lemma later_run (R : Type) (p : Prog R) (w : World) :
  later w (snd (fst (run p w))).
Proof.
  assert (G : forall w0 w, later w0 w -> later w0 (snd (fst (run p w)))).
  { induction p as [r | A op k IH]; intros w0 w1 Hl; cbn; [exact Hl|].
    destruct (exec op w1) as [a w2] eqn:E.
    specialize (IH a w0 w2).
    destruct (run (k a) w2) as [[r w3] t]. cbn in *. apply IH.
    eapply later_step; [exact Hl|].
    replace w2 with (snd (exec op w1)) by now rewrite E. constructor. }
  apply G. constructor.
Qed.

Lemma login_verified (b : Auth.LoginBody) (w : World) (u : User)
      (r : TwoFactorAuth) :
  reachesVerification bcrypt_compare b w u ->
  find (matches (Auth.codeQuery (_id u) (asCondition (Auth.lb_twoFactorCode b)) login_t (clock w)))
       (codes w) = Some r ->
  exists resp,
    run (Auth.login b) w
      = (resp, afterVerifiedLogin u r w,
         (verificationTrace b u (clock w) ++ completionTrace u r (clock w))%list)
    /\ status resp = 200.
Proof.
  intros (He & Hp & Hu & Hok & H2fa & Hc & Hcast) Hsome.
  unfold Auth.login. rewrite He, Hp. cbn.
  rewrite Hu. cbn. rewrite Hok, H2fa, Hc. cbn. rewrite Hcast. cbn.
  rewrite Hsome. cbn. eexists. split; reflexivity.
Qed.

Lemma toggle2fa_verified (t : CodeType) (flag : bool) (done : string)
      (ru : User) (c : CodeField) (w : World) (r : TwoFactorAuth) :
  truthyCode c = true -> castable c = true ->
  find (matches (Auth.codeQuery (_id ru) (asCondition c) t (clock w))) (codes w) = Some r ->
  run (Auth.toggle2fa t flag done ru c) w
    = (res_json (message done), afterVerifiedToggle flag ru r w,
       toggleTrace t flag ru c r (clock w)).
Proof.
  intros Hc Hcast Hf. unfold Auth.toggle2fa. rewrite Hc. cbn.
  rewrite Hcast. cbn. rewrite Hf. reflexivity.
Qed.



(** Marking a record used keeps the collection well formed. *)
Lemma wf_marked (i : nat) (us : list User) (w : World) :
  wf w ->
  wf (setUsers us (setCodes (updateOne (byTfaId i) (setIsUsed true) (codes w)) w))
  /\ wf (setCodes (updateOne (byTfaId i) (setIsUsed true) (codes w)) (setUsers us w)).
Proof.
  intros [Hnd Hall].
  assert (Hlt : Forall (fun r => (tfa_id r < nextId w)%nat)
                       (updateOne (byTfaId i) (setIsUsed true) (codes w))).
  { rewrite Forall_forall in *. intros x Hx. apply In_updateOne in Hx.
    destruct Hx as [Hx | (y & Hy & _ & ->)]; cbn; auto. }
  split; (split; cbn; [rewrite map_tfa_id_updateOne; exact Hnd | exact Hlt]).
Qed.

(** Once a record is marked used in a well-formed world, it is marked used
    in every later world, no lookup for unused codes returns it, and a
    lookup finds nothing at all when every unused, unexpired record it
    could match is that record. *)
Lemma used_record_is_spent (r : TwoFactorAuth) (w1 w2 : World) :
  wf w1 -> (tfa_id r < nextId w1)%nat -> usedIn (tfa_id r) (codes w1) ->
  later w1 w2 ->
  usedIn (tfa_id r) (codes w2)
  /\ (forall q r', q_isUsed q = false ->
                   find (matches q) (codes w2) = Some r' ->
                   tfa_id r' <> tfa_id r)
  /\ (forall (id : string) (c : CodeCondition) (t : CodeType),
         (forall r', In r' (codes w2) -> user r' = id ->
                     holds c (code r') = true -> type r' = t ->
                     isUsed r' = false -> clock w2 < expiresAt r' ->
                     tfa_id r' = tfa_id r) ->
         find (matches (Auth.codeQuery id c t (clock w2))) (codes w2) = None).
Proof.
  intros Hw1 Hlt Hu1 Hl.
  destruct (usedIn_later (tfa_id r) _ w2 Hw1 Hlt Hu1 Hl) as (_ & _ & Hu2).
  split; [exact Hu2 | split].
  - intros q r' Hq Hf. exact (used_never_found _ _ q r' Hu2 Hq Hf).
  - intros id c t Honly. apply find_none_all. intros x Hx.
    destruct (matches _ x) eqn:E; [exfalso | reflexivity].
    apply matches_spec in E. cbn in E.
    destruct E as (Eu & Ec & Et & Eused & Elt).
    rewrite (Hu2 x Hx (Honly x Hx Eu Ec Et Eused Elt)) in Eused. discriminate.
Qed.

(** C3, as the code has it.  After a verification has succeeded against the
    record [r] and has run to its end (login, or enabling or disabling
    2FA), that record is marked used in every later world, whatever
    requests, reaping or passing of time come in between; no lookup for an
    unused code returns it again; and a later attempt of the same flow
    submitting the same code for the same account is answered with the
    invalid-code error unless another unused, unexpired record holds that
    code for the account and flow. *)
Theorem code_record_single_use :
  (forall (b : Auth.LoginBody) (w : World) (u : User) (r : TwoFactorAuth),
      wf w ->
      reachesVerification bcrypt_compare b w u ->
      find (matches (Auth.codeQuery (_id u) (asCondition (Auth.lb_twoFactorCode b)) login_t (clock w)))
           (codes w) = Some r ->
      status (fst (fst (run (Auth.login b) w))) = 200
      /\ forall w2, later (snd (fst (run (Auth.login b) w))) w2 ->
           usedIn (tfa_id r) (codes w2)
           /\ (forall q r', q_isUsed q = false ->
                            find (matches q) (codes w2) = Some r' ->
                            tfa_id r' <> tfa_id r)
           /\ (forall b' u',
                  reachesVerification bcrypt_compare b' w2 u' ->
                  _id u' = _id u ->
                  asCondition (Auth.lb_twoFactorCode b')
                  = asCondition (Auth.lb_twoFactorCode b) ->
                  (forall r', In r' (codes w2) -> user r' = _id u ->
                              holds (asCondition (Auth.lb_twoFactorCode b)) (code r') = true ->
                              type r' = login_t ->
                              isUsed r' = false -> clock w2 < expiresAt r' ->
                              tfa_id r' = tfa_id r) ->
                  run (Auth.login b') w2
                    = (invalidOrExpiredCode, w2, verificationTrace b' u' (clock w2))))
  /\ (forall (t : CodeType) (flag : bool) (done : string) (ru : User)
             (c : CodeField) (w : World) (r : TwoFactorAuth),
         wf w ->
         truthyCode c = true -> castable c = true ->
         find (matches (Auth.codeQuery (_id ru) (asCondition c) t (clock w))) (codes w)
           = Some r ->
         fst (fst (run (Auth.toggle2fa t flag done ru c) w)) = res_json (message done)
         /\ forall w2, later (snd (fst (run (Auth.toggle2fa t flag done ru c) w))) w2 ->
              usedIn (tfa_id r) (codes w2)
              /\ (forall q r', q_isUsed q = false ->
                               find (matches q) (codes w2) = Some r' ->
                               tfa_id r' <> tfa_id r)
              /\ (forall (flag' : bool) (done' : string) (ru' : User) (c' : CodeField),
                     truthyCode c' = true -> castable c' = true ->
                     _id ru' = _id ru ->
                     asCondition c' = asCondition c ->
                     (forall r', In r' (codes w2) -> user r' = _id ru ->
                                 holds (asCondition c) (code r') = true ->
                                 type r' = t ->
                                 isUsed r' = false -> clock w2 < expiresAt r' ->
                                 tfa_id r' = tfa_id r) ->
                     fst (run (Auth.toggle2fa t flag' done' ru' c') w2)
                     = (invalidOrExpiredCode, w2))).
Proof.
  split.
  - intros b w u r Hw Hreach Hsome.
    destruct (login_verified b w u r Hreach Hsome) as (resp & Hrun & Hst).
    rewrite Hrun. cbn [fst snd]. split; [exact Hst|].
    intros w2 Hl.
    assert (Hlt : (tfa_id r < nextId w)%nat).
    { destruct Hw as [_ Hlt]. rewrite Forall_forall in Hlt.
      apply Hlt. apply find_some in Hsome. tauto. }
    assert (Hu1 : usedIn (tfa_id r) (codes (afterVerifiedLogin u r w))).
    { cbn. apply usedIn_marked. apply Hw. }
    destruct (used_record_is_spent r _ w2
                (proj1 (wf_marked (tfa_id r) _ w Hw)) Hlt Hu1 Hl)
      as (Hu2 & Hnever & Hnone).
    split; [exact Hu2 | split; [exact Hnever|]].
    intros b' u' Hreach' Hid Hcode Honly.
    apply login_lookup_fails; [exact Hreach'|].
    rewrite Hid, Hcode. apply Hnone. exact Honly.
  - intros t flag done ru c w r Hw Hc Hcast Hsome.
    rewrite (toggle2fa_verified t flag done ru c w r Hc Hcast Hsome).
    cbn [fst snd]. split; [reflexivity|].
    intros w2 Hl.
    assert (Hlt : (tfa_id r < nextId w)%nat).
    { destruct Hw as [_ Hlt]. rewrite Forall_forall in Hlt.
      apply Hlt. apply find_some in Hsome. tauto. }
    assert (Hu1 : usedIn (tfa_id r) (codes (afterVerifiedToggle flag ru r w))).
    { cbn. apply usedIn_marked. apply Hw. }
    destruct (used_record_is_spent r _ w2
                (proj2 (wf_marked (tfa_id r) _ w Hw)) Hlt Hu1 Hl)
      as (Hu2 & Hnever & Hnone).
    split; [exact Hu2 | split; [exact Hnever|]].
    intros flag' done' ru' c' Hc' Hcast' Hid Hcode Honly.
    rewrite (toggle2fa_lookup_fails t flag' done' ru' c' w2 Hc' Hcast');
      [reflexivity|].
    rewrite Hid, Hcode. apply Hnone. exact Honly.
Qed.


End Properties.

(** ** The properties at work on the sample deployment *)

Lemma wf_world0 : wf Sample.world0.
Proof.
  split; cbn.
  - constructor; [intros [] | constructor].
  - constructor; [cbn; lia | constructor].
Qed.

Lemma users_world0_distinct : NoDup (map _id (users Sample.world0)).
Proof.
  cbn. constructor; [|constructor; [intros [] | constructor]].
  intros [H | []]. discriminate H.
Qed.

Lemma reaches_world0 c :
  truthyCode c = true -> castable c = true ->
  reachesVerification Sample.compare
    (Sample.aliceLogin c) Sample.world0 Sample.alice.
Proof. intros H H'. repeat split; try reflexivity; assumption. Qed.

Lemma wf_worldEnable : wf SampleMore.worldEnable.
Proof.
  split; cbn.
  - constructor; [intros [] | constructor].
  - constructor; [cbn; lia | constructor].
Qed.

Lemma generateTwoFactorCode_range_witness :
  rng Sample.world0 (rngPos Sample.world0) = 23456
  /\ fst (fst (run Sample.compare Sample.sign Auth.generateTwoFactorCode Sample.world0))
     <> "999999".
Proof.
  split; [reflexivity|].
  apply (generateTwoFactorCode_range Sample.compare Sample.sign).
Defined.

Lemma login_missing_field_witness :
  truthy (Auth.lb_password (Auth.mkLoginBody (Some "alice@example.com") None NoCode)) = false
  /\ run Sample.compare Sample.sign
         (Auth.login (Auth.mkLoginBody (Some "alice@example.com") None NoCode))
         Sample.world0
     = (missingCredentials, Sample.world0, []).
Proof.
  split; [reflexivity|].
  apply (login_missing_field_rejected_before_lookup Sample.compare Sample.sign).
  right. reflexivity.
Defined.

(** The login handler validates presence only: an email without '@' is
    looked up like any other, and the answer is 401, not 400. *)
Lemma login_malformed_email_reaches_lookup :
  lacksAtSign "not-an-email" = true
  /\ run Sample.compare Sample.sign
         (Auth.login (Auth.mkLoginBody (Some "not-an-email") (Some "pw1") NoCode))
         Sample.world0
     = (invalidCredentials, Sample.world0, [ev (User_findOne "not-an-email")])
  /\ status invalidCredentials = 401.
Proof. repeat split. Qed.

Lemma login_failure_indistinguishable_witness :
  fst (fst (run Sample.compare Sample.sign
              (Auth.login (Auth.mkLoginBody (Some "carol@example.com") (Some "pw1") NoCode))
              Sample.world0))
  = fst (fst (run Sample.compare Sample.sign
                (Auth.login (Sample.bobLogin "wrong")) Sample.world0)).
Proof.
  apply (login_failure_indistinguishable Sample.compare Sample.sign
           (Auth.mkLoginBody (Some "carol@example.com") (Some "pw1") NoCode)
           (Sample.bobLogin "wrong") Sample.world0 Sample.world0 Sample.bob);
    reflexivity.
Defined.

Lemma login_bad_code_witness :
  fst (run Sample.compare Sample.sign
         (Auth.login (Sample.aliceLogin (CodeText "000000"))) Sample.world0)
  = (invalidOrExpiredCode, Sample.world0).
Proof.
  rewrite (login_bad_code_changes_nothing Sample.compare Sample.sign
             (Sample.aliceLogin (CodeText "000000")) Sample.world0 Sample.alice).
  - reflexivity.
  - apply reaches_world0; reflexivity.
  - reflexivity.
Defined.

Lemma expired_code_rejected_witness :
  map expiresAt (codes Sample.worldLate) = [601000]
  /\ clock Sample.worldLate = 662000
  /\ fst (run Sample.compare Sample.sign
            (Auth.login (Sample.aliceLogin (CodeText "123456"))) Sample.worldLate)
     = (invalidOrExpiredCode, Sample.worldLate).
Proof.
  split; [reflexivity | split; [reflexivity|]].
  rewrite (proj1 (expired_code_rejected Sample.compare Sample.sign)
             (Sample.aliceLogin (CodeText "123456")) Sample.worldLate Sample.alice).
  - reflexivity.
  - repeat split; reflexivity.
  - intros r [<- | []] _ _ _. cbn. lia.
Defined.

Lemma requirePermission_witness :
  find (byId (_id Sample.bob)) (users Sample.world0) = Some Sample.bob
  /\ run Sample.compare Sample.sign
         (requirePermission "users:write" (Some Sample.bob)) Sample.world0
     = (Respond (forbidden "users:write" RoleUser), Sample.world0,
        [ev (User_findById Sample.bobId)]).
Proof.
  split; [reflexivity|].
  apply (requirePermission_iff_effective Sample.compare Sample.sign
           "users:write" Sample.bob Sample.bob Sample.world0); [reflexivity|].
  cbn. intros H. repeat (destruct H as [H | H]; [discriminate H|]). exact H.
Defined.

Lemma rolePermissions_monotone_witness :
  In "reports:export" (permissions Sample.bob)
  /\ run Sample.compare Sample.sign
         (requirePermission "reports:export" (Some Sample.bob)) Sample.world0
     = (Next, Sample.world0, [ev (User_findById Sample.bobId)]).
Proof.
  split; [left; reflexivity|].
  apply (proj2 (proj2 (rolePermissions_monotone Sample.compare Sample.sign))
           "reports:export" Sample.bob Sample.bob Sample.world0);
    [reflexivity | left; reflexivity].
Defined.

Lemma self_protection_spelling_witness :
  SampleMore.aliceIdUpper <> _id Sample.alice
  /\ ObjectId_cast SampleMore.aliceIdUpper = Some (_id Sample.alice)
  /\ (let w1 := snd (fst (run Sample.compare Sample.sign
                              (Users.updateRole SampleMore.aliceIdUpper
                                                Sample.alice Sample.demote)
                              Sample.world0)) in
      status (fst (fst (run Sample.compare Sample.sign
                            (Users.updateRole SampleMore.aliceIdUpper
                                              Sample.alice Sample.demote)
                            Sample.world0))) = 200
      /\ option_map role (find (byId Sample.aliceId) (users w1)) = Some RoleUser)
  /\ (let w1 := snd (fst (run Sample.compare Sample.sign
                              (Users.deleteUser SampleMore.aliceIdUpper
                                                Sample.alice)
                              Sample.world0)) in
      fst (fst (run Sample.compare Sample.sign
                    (Users.deleteUser SampleMore.aliceIdUpper Sample.alice)
                    Sample.world0))
      = res_json (message "User deleted successfully")
      /\ find (byId Sample.aliceId) (users w1) = None).
Proof.
  assert (Hne : SampleMore.aliceIdUpper <> _id Sample.alice) by discriminate.
  split; [exact Hne | split; [reflexivity | split]].
  - exact (proj1 (proj2 (proj2 (self_protection_depends_on_spelling
                                  Sample.compare Sample.sign)))
             Sample.alice Sample.alice Sample.world0 SampleMore.aliceIdUpper
             RoleUser eq_refl eq_refl Hne eq_refl).
  - exact (proj2 (proj2 (proj2 (self_protection_depends_on_spelling
                                  Sample.compare Sample.sign)))
             Sample.alice Sample.alice Sample.world0 SampleMore.aliceIdUpper
             eq_refl eq_refl Hne eq_refl users_world0_distinct).
Defined.

Lemma wf_worldDuplicate : wf SampleMore.worldDuplicate.
Proof.
  split; cbn.
  - constructor; [intros [H | []]; discriminate H|].
    constructor; [intros [] | constructor].
  - repeat constructor; cbn; lia.
Qed.

(** On the sample deployment; and on the later deployment, where the
    first login consumes the live record and the second, with the same
    code, is refused although the expired duplicate is still there. *)
Lemma code_record_single_use_witness :
  find (matches (Auth.codeQuery Sample.aliceId (Equals "123456") login_t 2000))
       (codes Sample.world0)
    = Some Sample.aliceCode
  /\ status (fst (fst (run Sample.compare Sample.sign
                         (Auth.login (Sample.aliceLogin (CodeText "123456")))
                         Sample.world0))) = 200
  /\ fst (fst (run Sample.compare Sample.sign
                 (Auth.enable2fa Sample.bob (CodeText "654321"))
                 SampleMore.worldEnable))
     = res_json (message "Two-factor authentication enabled successfully")
  /\ (let w1 := snd (fst (run Sample.compare Sample.sign
                              (Auth.login (Sample.aliceLogin (CodeText "123456")))
                              SampleMore.worldDuplicate)) in
      map isUsed (codes w1) = [false; true]
      /\ fst (run Sample.compare Sample.sign
                  (Auth.login (Sample.aliceLogin (CodeText "123456"))) w1)
         = (invalidOrExpiredCode, w1)).
Proof.
  split; [reflexivity | split; [|split]].
  - apply (proj1 (code_record_single_use Sample.compare Sample.sign)
             (Sample.aliceLogin (CodeText "123456")) Sample.world0 Sample.alice
             Sample.aliceCode).
    + exact wf_world0.
    + apply reaches_world0; reflexivity.
    + reflexivity.
  - apply (proj2 (code_record_single_use Sample.compare Sample.sign)
             enable_2fa true "Two-factor authentication enabled successfully"
             Sample.bob (CodeText "654321") SampleMore.worldEnable
             SampleMore.bobEnableCode).
    + exact wf_worldEnable.
    + reflexivity.
    + reflexivity.
    + reflexivity.
  - cbn zeta. split; [reflexivity|].
    destruct (proj1 (code_record_single_use Sample.compare Sample.sign)
                (Sample.aliceLogin (CodeText "123456")) SampleMore.worldDuplicate
                Sample.alice SampleMore.aliceSecondCode wf_worldDuplicate)
      as [_ H].
    + repeat split.
    + reflexivity.
    + destruct (H _ (later_now Sample.compare Sample.sign _)) as (_ & _ & H3).
      rewrite (H3 (Sample.aliceLogin (CodeText "123456"))
                  (setLastLogin 800000 Sample.alice)).
      * reflexivity.
      * repeat split.
      * reflexivity.
      * reflexivity.
      * intros r' [<- | [<- | []]] _ _ _ Hused Hlt.
        -- exfalso. revert Hlt. cbn. unfold default_expiresAt. lia.
        -- discriminate Hused.
Defined.

(** Two codes issued for the same account and flow may coincide; the code
    is then accepted twice, once per record.  And a single record is
    consumed twice when a second request looks it up before the first has
    saved it: two overlapping enable requests both answer with success. *)
Lemma same_code_accepted_twice :
  (let '(_, w1, _) := run Sample.compare Sample.sign
                          (Auth.login (Sample.aliceLogin NoCode)) Sample.worldFresh in
   let '(_, w2, _) := run Sample.compare Sample.sign
                          (Auth.login (Sample.aliceLogin NoCode)) w1 in
   let '(r3, w3, _) := run Sample.compare Sample.sign
                           (Auth.login (Sample.aliceLogin (CodeText "123456"))) w2 in
   let '(r4, w4, _) := run Sample.compare Sample.sign
                           (Auth.login (Sample.aliceLogin (CodeText "123456"))) w3 in
   map code (codes w2) = ["123456"; "123456"]
   /\ map isUsed (codes w2) = [false; false]
   /\ status r3 = 200 /\ map isUsed (codes w3) = [true; false]
   /\ status r4 = 200 /\ map isUsed (codes w4) = [true; true])
  /\ (let '(r1, r2, w) :=
        interleave Sample.compare Sample.sign
                   [First; First; Second; Second]
                   (Auth.enable2fa Sample.bob (CodeText "654321"))
                   (Auth.enable2fa Sample.bob (CodeText "654321"))
                   SampleMore.worldEnable in
      map isUsed (codes SampleMore.worldEnable) = [false]
      /\ r1 = res_json (message "Two-factor authentication enabled successfully")
      /\ r2 = res_json (message "Two-factor authentication enabled successfully")
      /\ map isUsed (codes w) = [true]).
Proof. vm_compute. repeat split. Qed.

(** A code one of whose records has expired is still accepted when a later
    record of the same account and flow holds the same digits: the expired
    record is skipped and the live one is consumed. *)
Lemma expired_code_accepted_through_duplicate :
  let '(resp, w, _) :=
    run Sample.compare Sample.sign
        (Auth.login (Sample.aliceLogin (CodeText "123456")))
        SampleMore.worldDuplicate in
  map code (codes SampleMore.worldDuplicate) = ["123456"; "123456"]
  /\ map expiresAt (codes SampleMore.worldDuplicate) = [601000; 1300000]
  /\ clock SampleMore.worldDuplicate = 800000
  /\ map isUsed (codes SampleMore.worldDuplicate) = [false; false]
  /\ status resp = 200
  /\ map isUsed (codes w) = [false; true].
Proof. vm_compute. repeat split. Qed.



(** ** Further properties of the routes *)

Section Further.

Variable bcrypt_compare : string -> string -> bool.
Variable sign : string -> Z -> string.

Local Abbreviation run := (run bcrypt_compare sign).
Local Abbreviation exec := (exec bcrypt_compare sign).
Local Abbreviation later := (later bcrypt_compare sign).

(** A lookup over a collection with one more document at its end. *)
Lemma find_app_new {A : Type} (p : A -> bool) (l : list A) (x : A) :
  p x = true ->
  find p (l ++ [x]) = match find p l with Some y => Some y | None => Some x end.
Proof.
  intros Hx. induction l as [|y t IH]; cbn; [now rewrite Hx|].
  destruct (p y); [reflexivity | exact IH].
Qed.

Lemma find_app_old {A : Type} (p : A -> bool) (l : list A) (x y : A) :
  find p l = Some y -> find p (l ++ [x]) = Some y.
Proof.
  induction l as [|z t IH]; cbn; [discriminate|].
  destruct (p z); [trivial | exact IH].
Qed.

(** *** Login without a second factor *)

(** X1.  For an account with 2FA disabled the login is decided by the
    password alone: a matching password gives the identity with a token
    signed at the current time and sets [lastLogin] to it, whatever the
    request carries as code, and touches neither codes nor mail; a
    non-matching one gives the 401 answer and changes nothing. *)
Theorem login_without_second_factor (b : Auth.LoginBody) (w : World) (u : User) :
  truthy (Auth.lb_email b) = true ->
  truthy (Auth.lb_password b) = true ->
  find (byEmail (str (Auth.lb_email b))) (users w) = Some u ->
  twoFactorEnabled u = false ->
  (bcrypt_compare (str (Auth.lb_password b)) (password u) = true ->
   run (Auth.login b) w
     = (AuthMore.loggedIn u (sign (_id u) (clock w)),
        setUsers (updateOne (byId (_id u)) (setLastLogin (clock w)) (users w)) w,
        [ev (User_findOne (str (Auth.lb_email b)));
         ev (User_matchPassword u (str (Auth.lb_password b)));
         ev Date_now;
         ev (User_save_lastLogin (_id u) (clock w));
         ev (jwt_sign (_id u))]))
  /\ (bcrypt_compare (str (Auth.lb_password b)) (password u) = false ->
      fst (run (Auth.login b) w) = (invalidCredentials, w)).
Proof.
  intros He Hp Hu H2fa. unfold Auth.login. rewrite He, Hp. cbn.
  rewrite Hu. cbn. split; intros Hok; rewrite Hok; [rewrite H2fa|]; reflexivity.
Qed.

(** *** Issuing a login code *)

(** A record is found under its own code until it expires. *)
Lemma matches_new_record (id : nat) (u c : string) (t : CodeType) (created now : Z) :
  now < created + 600000 ->
  matches (Auth.codeQuery u (Equals c) t now) (newTwoFactorAuth id created u c t)
  = true.
Proof.
  intros H. apply matches_spec. cbn. rewrite String.eqb_refl.
  unfold default_expiresAt. repeat split. lia.
Qed.

Lemma login_issues (b : Auth.LoginBody) (w : World) (u : User) :
  reachesIssuance bcrypt_compare b w u ->
  run (Auth.login b) w
    = (if mailerUp w then AuthMore.codeSent else serverError,
       afterIssuance (_id u) (email u) login_t w,
       [ev (User_findOne (str (Auth.lb_email b)));
        ev (User_matchPassword u (str (Auth.lb_password b)));
        ev (crypto_randomInt 100000 999999);
        ev (TwoFactorAuth_create (_id u) (nextCode w) login_t);
        ev (sendTwoFactorCode (email u) (nextCode w) login_t)]).
Proof.
  intros (He & Hp & Hu & Hok & H2fa & Hc).
  destruct w as [us cs nid clk rg rp up ob]. cbn in Hu.
  unfold Auth.login. rewrite He, Hp. cbn.
  rewrite Hu. cbn. rewrite Hok, H2fa, Hc. destruct up; reflexivity.
Qed.

(** X2.  A login with 2FA enabled and no code, when the mailer delivers,
    answers "code sent" without a token; it adds exactly one record,
    holding the generated six-digit code for the account and the login
    flow, unused and expiring ten minutes later; it mails that same code to
    the account's address; and it leaves every account, [lastLogin]
    included, as it was. *)
Theorem login_issues_code (b : Auth.LoginBody) (w : World) (u : User) :
  reachesIssuance bcrypt_compare b w u ->
  mailerUp w = true ->
  let w1 := snd (fst (run (Auth.login b) w)) in
  fst (fst (run (Auth.login b) w)) = AuthMore.codeSent
  /\ codes w1
     = (codes w ++ [{| tfa_id := nextId w; user := _id u; code := nextCode w;
                       expiresAt := clock w + 600000; isUsed := false;
                       type := login_t |}])%list
  /\ String.length (nextCode w) = 6%nat
  /\ outbox w1 = (outbox w ++ [(email u, nextCode w, login_t)])%list
  /\ users w1 = users w.
Proof.
  intros Hreach Hup. rewrite (login_issues b w u Hreach). cbn [fst snd].
  rewrite Hup. cbn. rewrite Hup. repeat split.
  apply Number_toString_length6.
  pose proof (randomInt_range 100000 999999 (rng w (rngPos w))). lia.
Qed.

(** X3.  When the mailer fails the same login answers 500 "Server error"
    and nothing is mailed, yet the record created before the send stays in
    the collection, unused and unexpired. *)
Theorem login_mailer_failure_keeps_record (b : Auth.LoginBody) (w : World) (u : User) :
  reachesIssuance bcrypt_compare b w u ->
  mailerUp w = false ->
  let w1 := snd (fst (run (Auth.login b) w)) in
  fst (fst (run (Auth.login b) w)) = serverError
  /\ outbox w1 = outbox w
  /\ users w1 = users w
  /\ find (matches (Auth.codeQuery (_id u) (Equals (nextCode w)) login_t (clock w)))
          (codes w1) <> None.
Proof.
  intros Hreach Hdown. rewrite (login_issues b w u Hreach). cbn [fst snd].
  rewrite Hdown. cbn. rewrite Hdown. repeat split.
  rewrite find_app_new.
  - destruct (find _ (codes w)); discriminate.
  - apply matches_new_record. lia.
Qed.

Lemma nextCode_truthy (w : World) : truthyCode (CodeText (nextCode w)) = true.
Proof.
  cbn. destruct (String.eqb_spec (nextCode w) ""); [|reflexivity].
  assert (H : String.length (nextCode w) = 6%nat).
  { apply Number_toString_length6.
    pose proof (randomInt_range 100000 999999 (rng w (rngPos w))). lia. }
  rewrite e in H. discriminate H.
Qed.

Lemma issued_reaches_verification (b : Auth.LoginBody) (w : World) (u : User)
      (c : string) (d : Z) :
  reachesIssuance bcrypt_compare b w u ->
  truthyCode (CodeText c) = true ->
  reachesVerification bcrypt_compare (AuthMore.withCode b (CodeText c))
    (advance d (afterIssuance (_id u) (email u) login_t w)) u.
Proof.
  intros (He & Hp & Hu & Hok & H2fa & _) Hc. repeat split; assumption.
Qed.

Lemma login_verified_answer (b : Auth.LoginBody) (w : World) (u : User)
      (r : TwoFactorAuth) :
  reachesVerification bcrypt_compare b w u ->
  find (matches (Auth.codeQuery (_id u) (asCondition (Auth.lb_twoFactorCode b)) login_t (clock w)))
       (codes w) = Some r ->
  fst (run (Auth.login b) w)
  = (AuthMore.loggedIn u (sign (_id u) (clock w)), afterVerifiedLogin u r w).
Proof.
  intros (He & Hp & Hu & Hok & H2fa & Hc & Hcast) Hsome.
  unfold Auth.login. rewrite He, Hp. cbn.
  rewrite Hu. cbn. rewrite Hok, H2fa, Hc. cbn. rewrite Hcast. cbn.
  rewrite Hsome. reflexivity.
Qed.

(** A supplied value that the query cast rejects: the catch block answers
    500 and nothing has changed. *)
Lemma login_cast_fails (b : Auth.LoginBody) (w : World) (u : User) :
  truthy (Auth.lb_email b) = true ->
  truthy (Auth.lb_password b) = true ->
  find (byEmail (str (Auth.lb_email b))) (users w) = Some u ->
  bcrypt_compare (str (Auth.lb_password b)) (password u) = true ->
  twoFactorEnabled u = true ->
  truthyCode (Auth.lb_twoFactorCode b) = true ->
  castable (Auth.lb_twoFactorCode b) = false ->
  run (Auth.login b) w
  = (serverError, w,
     [ev (User_findOne (str (Auth.lb_email b)));
      ev (User_matchPassword u (str (Auth.lb_password b)));
      ev Date_now]).
Proof.
  intros He Hp Hu Hok H2fa Hc Hcast.
  unfold Auth.login. rewrite He, Hp. cbn.
  rewrite Hu. cbn. rewrite Hok, H2fa, Hc. cbn. rewrite Hcast. reflexivity.
Qed.

Lemma toggle2fa_cast_fails (t : CodeType) (flag : bool) (done : string)
      (ru : User) (c : CodeField) (w : World) :
  truthyCode c = true -> castable c = false ->
  run (Auth.toggle2fa t flag done ru c) w = (serverError, w, [ev Date_now]).
Proof.
  intros Hc Hcast. unfold Auth.toggle2fa. rewrite Hc. cbn.
  rewrite Hcast. reflexivity.
Qed.

(** X4.  A code just issued by a login opens the login: submitted with the
    same credentials any time less than ten minutes (600000 ms) after it
    was created, the login answers 200, whether or not the mail went out. *)
Theorem issued_code_is_accepted (b : Auth.LoginBody) (w : World) (u : User) (d : Z) :
  reachesIssuance bcrypt_compare b w u ->
  0 <= d < 600000 ->
  status (fst (fst (run (Auth.login (AuthMore.withCode b (CodeText (nextCode w))))
                        (advance d (snd (fst (run (Auth.login b) w)))))))
  = 200.
Proof.
  intros Hreach Hd. rewrite (login_issues b w u Hreach). cbn [fst snd].
  pose proof (issued_reaches_verification b w u (nextCode w) d Hreach
                (nextCode_truthy w)) as Hv.
  destruct (find (matches (Auth.codeQuery (_id u) (Equals (nextCode w)) login_t
                             (clock w + d)))
                 (codes (advance d (afterIssuance (_id u) (email u) login_t w))))
    as [r|] eqn:Hf.
  - destruct (login_verified bcrypt_compare sign _ _ u r Hv Hf) as (resp & Hrun & Hst).
    rewrite Hrun. exact Hst.
  - exfalso. cbn in Hf. rewrite find_app_new in Hf.
    + destruct (find _ (codes w)); discriminate.
    + apply matches_new_record. lia.
Qed.

(** X5.  Ten minutes after its creation, to the millisecond, the issued
    code is no longer accepted: provided every older record holding the
    same code for the account has expired as well, the login answers the
    invalid-code error and leaves the world as it is. *)
Theorem issued_code_expires (b : Auth.LoginBody) (w : World) (u : User) (d : Z) :
  reachesIssuance bcrypt_compare b w u ->
  600000 <= d ->
  (forall r, In r (codes w) -> user r = _id u -> code r = nextCode w ->
             type r = login_t -> expiresAt r <= clock w + d) ->
  fst (run (Auth.login (AuthMore.withCode b (CodeText (nextCode w))))
           (advance d (snd (fst (run (Auth.login b) w)))))
  = (invalidOrExpiredCode, advance d (snd (fst (run (Auth.login b) w)))).
Proof.
  intros Hreach Hd Hold. rewrite (login_issues b w u Hreach). cbn [fst snd].
  rewrite (login_lookup_fails bcrypt_compare sign _ _ u); [reflexivity | |].
  - apply issued_reaches_verification; [exact Hreach | apply nextCode_truthy].
  - apply expired_no_match. cbn. intros r Hr Hu Hc Ht.
    apply String.eqb_eq in Hc.
    apply in_app_iff in Hr. destruct Hr as [Hr | [<- | []]].
    + exact (Hold r Hr Hu Hc Ht).
    + cbn. unfold default_expiresAt. lia.
Qed.

(** X6.  Issuing a new code revokes nothing: a code that the login would
    have accepted against the record [r0] before another code was issued is
    still accepted, against the same record, afterwards. *)
Theorem issuing_keeps_older_codes
        (b : Auth.LoginBody) (w : World) (u : User) (c : string)
        (r0 : TwoFactorAuth) :
  reachesIssuance bcrypt_compare b w u ->
  truthyCode (CodeText c) = true ->
  find (matches (Auth.codeQuery (_id u) (Equals c) login_t (clock w))) (codes w) = Some r0 ->
  let w1 := snd (fst (run (Auth.login b) w)) in
  status (fst (fst (run (Auth.login (AuthMore.withCode b (CodeText c))) w1))) = 200
  /\ snd (fst (run (Auth.login (AuthMore.withCode b (CodeText c))) w1))
     = afterVerifiedLogin u r0 w1.
Proof.
  intros Hreach Hc Hf. rewrite (login_issues b w u Hreach). cbn [fst snd].
  pose proof (issued_reaches_verification b w u c 0 Hreach Hc) as Hv.
  assert (Hw : advance 0 (afterIssuance (_id u) (email u) login_t w)
               = afterIssuance (_id u) (email u) login_t w).
  { unfold advance. cbn. rewrite Z.add_0_r. reflexivity. }
  rewrite Hw in Hv.
  assert (Hf1 : find (matches (Auth.codeQuery (_id u) (Equals c) login_t
                                 (clock (afterIssuance (_id u) (email u) login_t w))))
                     (codes (afterIssuance (_id u) (email u) login_t w)) = Some r0).
  { cbn. apply find_app_old. exact Hf. }
  destruct (login_verified bcrypt_compare sign _ _ u r0 Hv Hf1) as (resp & Hrun & Hst).
  rewrite Hrun. split; [exact Hst | reflexivity].
Qed.

(** *** Enabling and disabling 2FA *)

Lemma accountButFlag_updateOne (p : User -> bool) (flag : bool) (l : list User) :
  map accountButFlag (updateOne p (applyUpdate (Auth.twoFactorEnabledUpdate flag)) l)
  = map accountButFlag l.
Proof.
  induction l as [|x t IH]; cbn; [reflexivity|].
  destruct (p x); cbn; [reflexivity | now rewrite IH].
Qed.

Lemma recordCore_updateOne (p : TwoFactorAuth -> bool) (b : bool)
      (l : list TwoFactorAuth) :
  map recordCore (updateOne p (setIsUsed b) l) = map recordCore l.
Proof.
  induction l as [|x t IH]; cbn; [reflexivity|].
  destruct (p x); cbn; [reflexivity | now rewrite IH].
Qed.

Lemma find_updateOne_other (id id' : string) (f : User -> User) (l : list User) :
  (forall x, _id (f x) = _id x) -> id' <> id ->
  find (byId id') (updateOne (byId id) f l) = find (byId id') l.
Proof.
  intros Hf Hne. induction l as [|x t IH]; cbn; [reflexivity|].
  destruct (byId id x) eqn:E; cbn.
  - unfold byId in *. rewrite Hf. apply String.eqb_eq in E.
    replace (_id x =? id')%string with false; [reflexivity|].
    symmetry. apply String.eqb_neq. congruence.
  - destruct (byId id' x); [reflexivity | exact IH].
Qed.

(** With distinct ids, marking the record [r] used puts its used copy
    into the collection and keeps every other record. *)
Lemma marked_record_present (r : TwoFactorAuth) (cs : list TwoFactorAuth) :
  NoDup (map tfa_id cs) -> In r cs ->
  In (setIsUsed true r) (updateOne (byTfaId (tfa_id r)) (setIsUsed true) cs).
Proof.
  induction cs as [|x t IH]; cbn; intros Hnd Hin; [contradiction|].
  apply NoDup_cons_iff in Hnd. destruct Hnd as [Hx Ht].
  unfold byTfaId at 1. destruct (Nat.eqb_spec (tfa_id x) (tfa_id r)) as [E|E].
  - destruct Hin as [-> | Hin]; [left; reflexivity|].
    exfalso. apply Hx. rewrite E. apply in_map. exact Hin.
  - destruct Hin as [-> | Hin]; [congruence|]. right. exact (IH Ht Hin).
Qed.

Lemma other_records_kept (i : nat) (cs : list TwoFactorAuth) (x : TwoFactorAuth) :
  In x cs -> tfa_id x <> i ->
  In x (updateOne (byTfaId i) (setIsUsed true) cs).
Proof.
  induction cs as [|y t IH]; cbn; intros Hin Hne; [contradiction|].
  unfold byTfaId at 1. destruct (Nat.eqb_spec (tfa_id y) i) as [E|E].
  - destruct Hin as [-> | Hin]; [congruence | right; exact Hin].
  - destruct Hin as [-> | Hin]; [left; reflexivity | right; exact (IH Hin Hne)].
Qed.

(** X7.  Enabling (disabling) 2FA with a code that matches a record sets
    the requester's [twoFactorEnabled] to true (false) and nothing else of
    any account: an account under any other id is found as it was.  The
    matched record is marked used, every other record stays as it was, no
    record changes in anything but [isUsed], and no mail is sent. *)
Theorem toggle2fa_sets_flag (t : CodeType) (flag : bool) (done : string)
        (ru acct : User) (c : CodeField) (w : World) (r : TwoFactorAuth) :
  wf w ->
  truthyCode c = true -> castable c = true ->
  find (matches (Auth.codeQuery (_id ru) (asCondition c) t (clock w))) (codes w) = Some r ->
  find (byId (_id ru)) (users w) = Some acct ->
  let w1 := snd (fst (run (Auth.toggle2fa t flag done ru c) w)) in
  fst (fst (run (Auth.toggle2fa t flag done ru c) w)) = res_json (message done)
  /\ option_map twoFactorEnabled (find (byId (_id ru)) (users w1)) = Some flag
  /\ map accountButFlag (users w1) = map accountButFlag (users w)
  /\ (forall id, id <> _id ru ->
                 find (byId id) (users w1) = find (byId id) (users w))
  /\ In (setIsUsed true r) (codes w1)
  /\ usedIn (tfa_id r) (codes w1)
  /\ (forall x, In x (codes w) -> tfa_id x <> tfa_id r -> In x (codes w1))
  /\ map recordCore (codes w1) = map recordCore (codes w)
  /\ outbox w1 = outbox w.
Proof.
  intros [Hnd _] Hc Hcast Hf Hacct.
  rewrite (toggle2fa_verified bcrypt_compare sign t flag done ru c w r Hc Hcast Hf).
  cbn [fst snd]. cbn -[find]. repeat split.
  - rewrite find_updateOne by apply byId_applyUpdate. rewrite Hacct. reflexivity.
  - apply accountButFlag_updateOne.
  - intros id Hid. apply find_updateOne_other; [reflexivity | exact Hid].
  - apply marked_record_present; [exact Hnd|]. apply find_some in Hf. tauto.
  - apply usedIn_marked, Hnd.
  - intros x Hx Hne. apply other_records_kept; assumption.
  - apply recordCore_updateOne.
Qed.

Lemma find_byEmail_after_update (e : string) (upd : UserUpdate) (u : User)
      (l : list User) :
  find (byEmail e) l = Some u -> find (byId (_id u)) l = Some u ->
  find (byEmail e) (updateOne (byId (_id u)) (applyUpdate upd) l)
  = Some (applyUpdate upd u).
Proof.
  induction l as [|x l' IH]; cbn; [discriminate|].
  destruct (byEmail e x) eqn:Ee; destruct (byId (_id u) x) eqn:Ei; cbn.
  - intros [= ->] _. unfold byEmail in *. cbn. rewrite Ee. reflexivity.
  - intros [= ->]. unfold byId in Ei. rewrite String.eqb_refl in Ei. discriminate.
  - intros Hf [= ->]. apply find_some in Hf. destruct Hf as [_ Hf].
    rewrite Hf in Ee. discriminate.
  - rewrite Ee. exact IH.
Qed.

(** X8.  The flag a toggle stores decides the account's next login: after
    2FA has been enabled, a login with the right password and no code gets
    "code sent" and no token; after it has been disabled, the same login
    gets the identity and a token at once. *)
Theorem toggle2fa_decides_next_login
        (b : Auth.LoginBody) (u : User) (c : CodeField) (w : World)
        (r : TwoFactorAuth) (t : CodeType) (flag : bool) (done : string) :
  truthy (Auth.lb_email b) = true ->
  truthy (Auth.lb_password b) = true ->
  truthyCode (Auth.lb_twoFactorCode b) = false ->
  find (byEmail (str (Auth.lb_email b))) (users w) = Some u ->
  find (byId (_id u)) (users w) = Some u ->
  bcrypt_compare (str (Auth.lb_password b)) (password u) = true ->
  mailerUp w = true ->
  truthyCode c = true -> castable c = true ->
  find (matches (Auth.codeQuery (_id u) (asCondition c) t (clock w))) (codes w) = Some r ->
  let w1 := snd (fst (run (Auth.toggle2fa t flag done u c) w)) in
  fst (fst (run (Auth.login b) w1))
  = if flag then AuthMore.codeSent
    else AuthMore.loggedIn (applyUpdate (Auth.twoFactorEnabledUpdate false) u)
                           (sign (_id u) (clock w)).
Proof.
  intros He Hp Hnc Hu Hid Hok Hup Hc Hcast Hf.
  rewrite (toggle2fa_verified bcrypt_compare sign t flag done u c w r Hc Hcast Hf).
  cbn [fst snd]. unfold afterVerifiedToggle.
  destruct w as [us cs nid clk rg rp up ob]. cbn in Hu, Hid, Hup. subst up.
  unfold Auth.login. rewrite He, Hp. cbn -[find].
  rewrite (find_byEmail_after_update _ _ u us Hu Hid). cbn.
  rewrite Hok, Hnc. destruct flag; reflexivity.
Qed.

(** X9.  A verification only ever matches a record of the requester's own
    account and of the handler's own flow: whatever the submitted value is
    (a string, or an operator object standing for a condition on the
    stored code), when no record satisfying it belongs to this very account
    and flow type, the login and the enable/disable handlers answer the
    invalid-code error and change nothing, however many valid records
    other accounts or other flows hold. *)
Theorem code_bound_to_account_and_flow :
  (forall (b : Auth.LoginBody) (w : World) (u : User),
      reachesVerification bcrypt_compare b w u ->
      (forall r, In r (codes w) ->
                 holds (asCondition (Auth.lb_twoFactorCode b)) (code r) = true ->
                 user r <> _id u \/ type r <> login_t) ->
      fst (run (Auth.login b) w) = (invalidOrExpiredCode, w))
  /\ (forall (t : CodeType) (flag : bool) (done : string) (ru : User)
             (c : CodeField) (w : World),
         truthyCode c = true -> castable c = true ->
         (forall r, In r (codes w) -> holds (asCondition c) (code r) = true ->
                    user r <> _id ru \/ type r <> t) ->
         fst (run (Auth.toggle2fa t flag done ru c) w) = (invalidOrExpiredCode, w)).
Proof.
  assert (G : forall id c t now cs,
             (forall r, In r cs -> holds c (code r) = true ->
                        user r <> id \/ type r <> t) ->
             find (matches (Auth.codeQuery id c t now)) cs = None).
  { intros id c t now cs H. apply find_none_all. intros r Hr.
    destruct (matches _ r) eqn:E; [exfalso | reflexivity].
    apply matches_spec in E. cbn in E. destruct E as (Eu & Ec & Et & _).
    destruct (H r Hr Ec); contradiction. }
  split.
  - intros b w u Hreach H.
    rewrite (login_lookup_fails bcrypt_compare sign b w u Hreach); [reflexivity|].
    apply G, H.
  - intros t flag done ru c w Hc Hcast H.
    rewrite (toggle2fa_lookup_fails bcrypt_compare sign t flag done ru c w Hc Hcast);
      [reflexivity|]. apply G, H.
Qed.

(** *** The reaper and the lookups *)

Lemma find_filter_kept {A : Type} (p keep : A -> bool) (l : list A) :
  (forall x, p x = true -> keep x = true) ->
  find p (filter keep l) = find p l.
Proof.
  intros H. induction l as [|x t IH]; cbn; [reflexivity|].
  destruct (keep x) eqn:K; cbn.
  - destruct (p x); [reflexivity | exact IH].
  - destruct (p x) eqn:P; [|exact IH]. rewrite (H x P) in K. discriminate.
Qed.

Lemma find_reaped (id : string) (c : CodeCondition) (t : CodeType) (w : World) :
  find (matches (Auth.codeQuery id c t (clock w))) (codes (reap w))
  = find (matches (Auth.codeQuery id c t (clock w))) (codes w).
Proof.
  cbn. apply find_filter_kept. intros r Hr. apply matches_spec in Hr.
  cbn in Hr. apply Z.ltb_lt. tauto.
Qed.

Ltac login_branches b w u :=
  unfold Auth.login;
  destruct (truthy (Auth.lb_email b));
  destruct (truthy (Auth.lb_password b));
  cbn -[find]; try reflexivity;
  try (destruct (find (byEmail (str (Auth.lb_email b))) w) as [u|];
       cbn -[find]; try reflexivity;
       try (match goal with
            | |- context [bcrypt_compare ?e ?h] => destruct (bcrypt_compare e h)
            end;
            cbn -[find]; try reflexivity;
            try (match goal with
                 | |- context [if twoFactorEnabled ?x then _ else _] =>
                     destruct (twoFactorEnabled x)
                 end;
                 cbn -[find]; try reflexivity;
                 try (match goal with
                      | |- context [truthyCode (Auth.lb_twoFactorCode b)] =>
                          destruct (truthyCode (Auth.lb_twoFactorCode b))
                      end;
                      cbn -[find]; try reflexivity;
                      try (destruct (castable (Auth.lb_twoFactorCode b));
                           cbn -[find]; try reflexivity))))).

(** X10.  The TTL reaper is invisible to verification: it removes exactly
    the records whose [expiresAt] is not later than the current time, and
    every login and every enable/disable request gets the same answer
    after a reap as before it. *)
Theorem reap_is_invisible :
  (forall (w : World) (r : TwoFactorAuth),
      In r (codes (reap w)) <-> In r (codes w) /\ clock w < expiresAt r)
  /\ (forall (b : Auth.LoginBody) (w : World),
         fst (fst (run (Auth.login b) (reap w))) = fst (fst (run (Auth.login b) w)))
  /\ (forall (t : CodeType) (flag : bool) (done : string) (ru : User)
             (c : CodeField) (w : World),
         fst (fst (run (Auth.toggle2fa t flag done ru c) (reap w)))
         = fst (fst (run (Auth.toggle2fa t flag done ru c) w))).
Proof.
  split; [|split].
  - intros w r. cbn. rewrite filter_In, Z.ltb_lt. tauto.
  - intros b w.
    assert (Hf : forall id c t,
               find (matches (Auth.codeQuery id c t (clock w))) (codes (reap w))
               = find (matches (Auth.codeQuery id c t (clock w))) (codes w))
      by (intros; apply find_reaped).
    destruct w as [us cs nid clk rg rp up ob]. unfold reap, setCodes in *.
    cbn [codes clock users nextId rng rngPos mailerUp outbox] in *.
    generalize dependent (filter (fun r => clk <? expiresAt r) cs).
    intros cs' Hf. destruct up; login_branches b ltac:(us) u;
      rewrite Hf; destruct (find _ cs); reflexivity.
  - intros t flag done ru c w.
    assert (Hf : forall id c t,
               find (matches (Auth.codeQuery id c t (clock w))) (codes (reap w))
               = find (matches (Auth.codeQuery id c t (clock w))) (codes w))
      by (intros; apply find_reaped).
    destruct w as [us cs nid clk rg rp up ob]. unfold reap, setCodes in *.
    cbn [codes clock users nextId rng rngPos mailerUp outbox] in *.
    generalize dependent (filter (fun r => clk <? expiresAt r) cs).
    intros cs' Hf. unfold Auth.toggle2fa.
    destruct up; destruct (truthyCode c); destruct (castable c);
      cbn -[find]; try reflexivity;
      rewrite Hf; destruct (find _ cs); reflexivity.
Qed.

(** *** What a login leaves alone *)

Lemma accountCore_updateOne (p : User -> bool) (t : Z) (l : list User) :
  map accountCore (updateOne p (setLastLogin t) l) = map accountCore l.
Proof.
  induction l as [|x l' IH]; cbn; [reflexivity|].
  destruct (p x); cbn; [reflexivity | now rewrite IH].
Qed.

Lemma login_plain (b : Auth.LoginBody) (w : World) (u : User) :
  truthy (Auth.lb_email b) = true ->
  truthy (Auth.lb_password b) = true ->
  find (byEmail (str (Auth.lb_email b))) (users w) = Some u ->
  bcrypt_compare (str (Auth.lb_password b)) (password u) = true ->
  twoFactorEnabled u = false ->
  fst (run (Auth.login b) w)
  = (AuthMore.loggedIn u (sign (_id u) (clock w)),
     setUsers (updateOne (byId (_id u)) (setLastLogin (clock w)) (users w)) w).
Proof.
  intros He Hp Hu Hok H2fa. unfold Auth.login. rewrite He, Hp. cbn.
  rewrite Hu. cbn. rewrite Hok, H2fa. reflexivity.
Qed.

Lemma login_refused (b : Auth.LoginBody) (w : World) :
  truthy (Auth.lb_email b) = false \/ truthy (Auth.lb_password b) = false
  \/ find (byEmail (str (Auth.lb_email b))) (users w) = None
  \/ (exists u, find (byEmail (str (Auth.lb_email b))) (users w) = Some u
                /\ bcrypt_compare (str (Auth.lb_password b)) (password u) = false) ->
  snd (fst (run (Auth.login b) w)) = w.
Proof.
  unfold Auth.login.
  destruct (truthy (Auth.lb_email b)); [|reflexivity].
  destruct (truthy (Auth.lb_password b)); [|reflexivity].
  intros [H | [H | [H | (u & Hu & Hbad)]]]; try discriminate; cbn.
  - rewrite H. reflexivity.
  - rewrite Hu. cbn. rewrite Hbad. reflexivity.
Qed.

(** Where a login can leave the world: untouched, with a code verified and
    [lastLogin] set, with a code issued, or with [lastLogin] set alone. *)
Lemma login_world_cases (b : Auth.LoginBody) (w : World) :
  let w1 := snd (fst (run (Auth.login b) w)) in
  w1 = w
  \/ (exists u r, w1 = afterVerifiedLogin u r w)
  \/ (exists u, w1 = afterIssuance (_id u) (email u) login_t w)
  \/ (exists u, w1 = setUsers (updateOne (byId (_id u)) (setLastLogin (clock w))
                                         (users w)) w).
Proof.
  cbn zeta.
  destruct (truthy (Auth.lb_email b)) eqn:He;
    [|left; apply login_refused; auto].
  destruct (truthy (Auth.lb_password b)) eqn:Hp;
    [|left; apply login_refused; auto].
  destruct (find (byEmail (str (Auth.lb_email b))) (users w)) as [u|] eqn:Hu;
    [|left; apply login_refused; auto].
  destruct (bcrypt_compare (str (Auth.lb_password b)) (password u)) eqn:Hok;
    [|left; apply login_refused; right; right; right; exists u; auto].
  destruct (twoFactorEnabled u) eqn:H2fa.
  - destruct (truthyCode (Auth.lb_twoFactorCode b)) eqn:Hc.
    + destruct (castable (Auth.lb_twoFactorCode b)) eqn:Hcast;
        [|left; rewrite (login_cast_fails b w u); auto].
      assert (Hv : reachesVerification bcrypt_compare b w u)
        by (repeat split; assumption).
      destruct (find (matches (Auth.codeQuery (_id u)
                                 (asCondition (Auth.lb_twoFactorCode b)) login_t (clock w)))
                     (codes w)) as [r|] eqn:Hf.
      * right; left. exists u, r.
        destruct (login_verified bcrypt_compare sign b w u r Hv Hf)
          as (resp & Hrun & _). rewrite Hrun. reflexivity.
      * left. rewrite (login_lookup_fails bcrypt_compare sign b w u Hv Hf).
        reflexivity.
    + right; right; left. exists u. rewrite (login_issues b w u); [reflexivity|].
      repeat split; assumption.
  - right; right; right. exists u.
    rewrite (login_plain b w u He Hp Hu Hok H2fa). reflexivity.
Qed.

(** X11.  Whatever the request, a login changes no account in anything but
    [lastLogin], adds or removes no account, and neither removes a code
    record nor changes one in anything but [isUsed]: the records after the
    login are the ones before it, followed by at most one new record. *)
Theorem login_leaves_accounts_and_records (b : Auth.LoginBody) (w : World) :
  let w1 := snd (fst (run (Auth.login b) w)) in
  map accountCore (users w1) = map accountCore (users w)
  /\ exists new, (List.length new <= 1)%nat
       /\ map recordCore (codes w1) = (map recordCore (codes w) ++ new)%list.
Proof.
  cbn zeta.
  destruct (login_world_cases b w) as [E | [(u & r & E) | [(u & E) | (u & E)]]];
    cbn zeta in E; rewrite E; clear E.
  - split; [reflexivity|]. exists []. split; [cbn; lia | now rewrite app_nil_r].
  - split; [apply accountCore_updateOne|]. exists []. split; [cbn; lia|].
    rewrite app_nil_r. apply recordCore_updateOne.
  - split; [reflexivity|]. eexists. split; [|apply map_app]. cbn. lia.
  - split; [apply accountCore_updateOne|]. exists [].
    split; [cbn; lia | now rewrite app_nil_r].
Qed.

(** *** The [protect] middleware *)

Section Protect.

Variable jwt_verify : string -> option string.

Lemma protect_world (authorization : option string) (w : World) :
  snd (fst (run (protect jwt_verify authorization) w)) = w.
Proof.
  unfold protect.
  destruct (truthy authorization && String.prefix "Bearer" (str authorization));
    [|reflexivity].
  destruct (nth_error _ 1) as [token|]; [|reflexivity].
  destruct (jwt_verify token) as [decoded|]; [|reflexivity].
  destruct (ObjectId_cast decoded) as [id|]; [|reflexivity].
  cbn. destruct (find (byId id) (users w)); reflexivity.
Qed.

(** X12.  [protect] lets a request through exactly when its Authorization
    header is non-empty and starts with "Bearer", the header has a second
    space-separated piece, that piece verifies to an id, the id casts to
    an ObjectId, and an account with that ObjectId is stored; the account
    it attaches is the stored one without its password.  It never changes
    the world. *)
Theorem protect_attaches_iff (authorization : option string) (w : World)
        (req_user : User) :
  (fst (fst (run (protect jwt_verify authorization) w)) = Attached req_user
   <-> exists token decoded id u,
         truthy authorization = true
         /\ String.prefix "Bearer" (str authorization) = true
         /\ nth_error (split " "%char (str authorization)) 1 = Some token
         /\ jwt_verify token = Some decoded
         /\ ObjectId_cast decoded = Some id
         /\ find (byId id) (users w) = Some u
         /\ req_user = withoutPassword u)
  /\ snd (fst (run (protect jwt_verify authorization) w)) = w.
Proof.
  split; [|apply protect_world]. unfold protect.
  destruct (truthy authorization) eqn:Ht; cbn [andb].
  2: { split; [discriminate|]. intros (? & ? & ? & ? & H & _). discriminate. }
  destruct (String.prefix "Bearer" (str authorization)) eqn:Hp.
  2: { split; [discriminate|]. intros (? & ? & ? & ? & _ & H & _). discriminate. }
  destruct (nth_error _ 1) as [token|] eqn:Hn.
  2: { split; [discriminate|].
       intros (? & ? & ? & ? & _ & _ & H & _). discriminate. }
  destruct (jwt_verify token) as [decoded|] eqn:Hv.
  2: { split; [discriminate|].
       intros (t' & ? & ? & ? & _ & _ & [= <-] & H & _). congruence. }
  destruct (ObjectId_cast decoded) as [id|] eqn:Hcast.
  2: { split; [discriminate|].
       intros (t' & d' & ? & ? & _ & _ & [= <-] & Hv' & H & _). congruence. }
  cbn. destruct (find (byId id) (users w)) as [u|] eqn:Hu; cbn.
  - split.
    + intros [= <-]. exists token, decoded, id, u. repeat split; auto.
    + intros (t' & d' & id' & u' & _ & _ & [= <-] & Hv' & Hc' & Hu' & ->).
      congruence.
  - split; [discriminate|].
    intros (t' & d' & id' & u' & _ & _ & [= <-] & Hv' & Hc' & Hu' & _).
    congruence.
Qed.

Lemma split_no_separator (sep : ascii) (s : string) :
  occurs sep s = false -> split sep s = [s].
Proof.
  induction s as [|c t IH]; cbn; [reflexivity|].
  intros H. apply orb_false_iff in H. destruct H as [Hc Ht].
  rewrite Hc, (IH Ht). reflexivity.
Qed.

Lemma header_token (token : string) :
  occurs " "%char token = false ->
  truthy (Some (authorizationHeader token)) = true
  /\ String.prefix "Bearer" (authorizationHeader token) = true
  /\ nth_error (split " "%char (authorizationHeader token)) 1 = Some token.
Proof.
  intros H. repeat split. cbn. rewrite (split_no_separator _ _ H). reflexivity.
Qed.

(** X13.  The header the client builds and the token [protect] reads are
    a round trip: for a token without a space, a request carrying
    "Bearer " followed by the token is let through exactly as the
    verification of that very token, the cast of its id and the lookup of
    the account decide. *)
Theorem client_header_round_trip (token : string) (w : World) :
  occurs " "%char token = false ->
  fst (fst (run (protect jwt_verify (Some (authorizationHeader token))) w))
  = match jwt_verify token with
    | None => Refused (notAuthorized "Not authorized, token failed")
    | Some decoded =>
        match ObjectId_cast decoded with
        | None => Refused (notAuthorized "Not authorized, token failed")
        | Some id =>
            match find (byId id) (users w) with
            | Some u => Attached (withoutPassword u)
            | None => Refused (notAuthorized "Not authorized, user not found")
            end
        end
    end.
Proof.
  intros H. destruct (header_token token H) as (Ht & Hp & Hn).
  unfold protect. cbn [str]. rewrite Ht, Hp. cbn [andb]. rewrite Hn.
  destruct (jwt_verify token) as [decoded|]; [|reflexivity].
  destruct (ObjectId_cast decoded) as [id|]; [|reflexivity].
  cbn. destruct (find (byId id) (users w)); reflexivity.
Qed.

Lemma login_refused_response (b : Auth.LoginBody) (w : World) :
  truthy (Auth.lb_email b) = false \/ truthy (Auth.lb_password b) = false
  \/ find (byEmail (str (Auth.lb_email b))) (users w) = None
  \/ (exists u, find (byEmail (str (Auth.lb_email b))) (users w) = Some u
                /\ bcrypt_compare (str (Auth.lb_password b)) (password u) = false) ->
  hasMember "token" (body (fst (fst (run (Auth.login b) w)))) = false.
Proof.
  unfold Auth.login.
  destruct (truthy (Auth.lb_email b)); [|reflexivity].
  destruct (truthy (Auth.lb_password b)); [|reflexivity].
  intros [H | [H | [H | (u & Hu & Hbad)]]]; try discriminate; cbn -[hasMember].
  - rewrite H. reflexivity.
  - rewrite Hu. cbn -[hasMember]. rewrite Hbad. reflexivity.
Qed.

(** The two ways a login ends with a token: on the password alone for an
    account without 2FA, or past the code lookup, which has returned a
    record. *)
Lemma login_token_cases (b : Auth.LoginBody) (w : World) :
  hasMember "token" (body (fst (fst (run (Auth.login b) w)))) = true ->
  exists u,
    find (byEmail (str (Auth.lb_email b))) (users w) = Some u
    /\ bcrypt_compare (str (Auth.lb_password b)) (password u) = true
    /\ ((twoFactorEnabled u = false
         /\ fst (run (Auth.login b) w)
            = (AuthMore.loggedIn u (sign (_id u) (clock w)),
               setUsers (updateOne (byId (_id u)) (setLastLogin (clock w))
                           (users w)) w))
        \/ (twoFactorEnabled u = true
            /\ exists r,
                 reachesVerification bcrypt_compare b w u
                 /\ find (matches (Auth.codeQuery (_id u)
                                     (asCondition (Auth.lb_twoFactorCode b))
                                     login_t (clock w)))
                         (codes w) = Some r
                 /\ fst (run (Auth.login b) w)
                    = (AuthMore.loggedIn u (sign (_id u) (clock w)),
                       afterVerifiedLogin u r w))).
Proof.
  intros Htok.
  destruct (truthy (Auth.lb_email b)) eqn:He;
    [|rewrite login_refused_response in Htok by auto; discriminate].
  destruct (truthy (Auth.lb_password b)) eqn:Hp;
    [|rewrite login_refused_response in Htok by auto; discriminate].
  destruct (find (byEmail (str (Auth.lb_email b))) (users w)) as [u|] eqn:Hu;
    [|rewrite login_refused_response in Htok by auto; discriminate].
  destruct (bcrypt_compare (str (Auth.lb_password b)) (password u)) eqn:Hok;
    [|rewrite login_refused_response in Htok
        by (right; right; right; exists u; auto); discriminate].
  exists u. split; [reflexivity|]. split; [exact Hok|].
  destruct (twoFactorEnabled u) eqn:H2fa.
  - right. split; [reflexivity|].
    destruct (truthyCode (Auth.lb_twoFactorCode b)) eqn:Hc.
    + destruct (castable (Auth.lb_twoFactorCode b)) eqn:Hcast.
      * assert (Hv : reachesVerification bcrypt_compare b w u)
          by (repeat split; assumption).
        destruct (find (matches (Auth.codeQuery (_id u)
                                   (asCondition (Auth.lb_twoFactorCode b))
                                   login_t (clock w)))
                       (codes w)) as [r|] eqn:Hf.
        -- exists r. split; [exact Hv|]. split; [reflexivity|].
           apply login_verified_answer; assumption.
        -- rewrite (login_lookup_fails bcrypt_compare sign b w u Hv Hf) in Htok.
           discriminate.
      * rewrite (login_cast_fails b w u He Hp Hu Hok H2fa Hc Hcast) in Htok.
        discriminate.
    + rewrite (login_issues b w u) in Htok by (repeat split; assumption).
      cbn [fst] in Htok. destruct (mailerUp w); discriminate.
  - left. split; [reflexivity|].
    apply login_plain; assumption.
Qed.

(** The profile route under the token of account [u], in a world whose
    accounts are those of a login of [u] at time [t]. *)
Lemma profile_after_login (u : User) (t : Z) (token : string) (us : list User)
      (w1 : World) :
  find (byId (_id u)) us = Some u ->
  users w1 = updateOne (byId (_id u)) (setLastLogin t) us ->
  occurs " "%char token = false ->
  jwt_verify token = Some (_id u) ->
  ObjectId_cast (_id u) = Some (_id u) ->
  fst (run (protected jwt_verify (Some (authorizationHeader token))
                      AuthMore.profile) w1)
  = (res_json (userJson (setLastLogin t u)), w1).
Proof.
  intros Hid Hus Hsp Hv Hcast.
  destruct (header_token _ Hsp) as (Ht & Hpre & Hn).
  unfold protected, protect. cbn [str]. rewrite Ht, Hpre. cbn [andb].
  rewrite Hn, Hv, Hcast. cbn -[find]. rewrite Hus.
  rewrite find_updateOne by reflexivity. rewrite Hid. cbn -[find].
  rewrite Hus. rewrite find_updateOne by reflexivity. rewrite Hid. reflexivity.
Qed.

(** X14.  Login and the protected profile route compose: whenever a login
    answers with a token, be it on the password alone or after a code has
    been verified, and the signer and the verifier agree on that token, a
    request carrying it reaches the profile handler as the same account,
    and the profile shows [lastLogin] at the time of that login and no
    password. *)
Theorem login_token_opens_profile (b : Auth.LoginBody) (w : World) (u : User) :
  hasMember "token" (body (fst (fst (run (Auth.login b) w)))) = true ->
  find (byEmail (str (Auth.lb_email b))) (users w) = Some u ->
  find (byId (_id u)) (users w) = Some u ->
  occurs " "%char (sign (_id u) (clock w)) = false ->
  jwt_verify (sign (_id u) (clock w)) = Some (_id u) ->
  ObjectId_cast (_id u) = Some (_id u) ->
  let w1 := snd (fst (run (Auth.login b) w)) in
  fst (fst (run (Auth.login b) w))
    = AuthMore.loggedIn u (sign (_id u) (clock w))
  /\ fst (run (protected jwt_verify
                 (Some (authorizationHeader (sign (_id u) (clock w))))
                 AuthMore.profile) w1)
     = (res_json (userJson (setLastLogin (clock w) u)), w1).
Proof.
  intros Htok Hu Hid Hsp Hv Hcast. cbn zeta.
  destruct (login_token_cases b w Htok) as (u' & Hu' & _ & Hcases).
  assert (u' = u) by congruence. subst u'.
  destruct Hcases as [(_ & Hrun) | (_ & r & _ & _ & Hrun)];
    rewrite Hrun; cbn [fst snd]; (split; [reflexivity|]);
    apply (profile_after_login u (clock w) _ (users w));
    try assumption; reflexivity.
Qed.

End Protect.

(** *** Guarded routes *)

Lemma requirePermission_result (permission : string) (ru u : User) (w : World) :
  find (byId (_id ru)) (users w) = Some u ->
  run (requirePermission permission (Some ru)) w
  = (if includes (rolePermissions (role u)) permission
        || includes (permissions u) permission
     then Next else Respond (forbidden permission (role u)),
     w, [ev (User_findById (_id ru))]).
Proof.
  intros Hu. unfold requirePermission. cbn -[includes]. rewrite Hu. cbn -[includes].
  destruct (includes (rolePermissions (role u)) permission);
    destruct (includes (permissions u) permission); reflexivity.
Qed.

Lemma middleware_user_gone (ru : User) (w : World) :
  find (byId (_id ru)) (users w) = None ->
  (forall p, run (requirePermission p (Some ru)) w
             = (Respond (res_status_json 401 (message "User not found")), w,
                [ev (User_findById (_id ru))]))
  /\ (forall roles, run (requireRole roles (Some ru)) w
                    = (Respond (res_status_json 401 (message "User not found")), w,
                       [ev (User_findById (_id ru))])).
Proof.
  intros Hu. split; intros; [unfold requirePermission | unfold requireRole];
    cbn -[includes]; rewrite Hu; reflexivity.
Qed.

Lemma requireRole_result (allowedRoles : list string) (ru u : User) (w : World) :
  find (byId (_id ru)) (users w) = Some u ->
  run (requireRole allowedRoles (Some ru)) w
  = (if includes allowedRoles (roleName (role u))
     then Next else Respond (UsersMore.forbiddenRole allowedRoles (role u)),
     w, [ev (User_findById (_id ru))]).
Proof.
  intros Hu. unfold requireRole. cbn -[includes]. rewrite Hu. cbn -[includes].
  destruct (includes allowedRoles (roleName (role u))); reflexivity.
Qed.

Lemma In_effective (p : string) (u : User) :
  In p (spec_effectivePermissions u)
  <-> includes (rolePermissions (role u)) p || includes (permissions u) p = true.
Proof.
  unfold spec_effectivePermissions.
  rewrite in_app_iff, orb_true_iff, !includes_In. tauto.
Qed.

(** X15.  A route guarded by [requirePermission] runs its handler only for
    an account holding the permission: then the route is the handler run
    on the same world right after the check; otherwise, whatever the
    handler is, the answer is the 403 (or the 401 for an account that is
    gone) and the world is untouched. *)
Theorem permission_guards_handler
        (p : string) (ru : User) (w : World) (h : Prog Response) :
  (forall u, find (byId (_id ru)) (users w) = Some u ->
             In p (spec_effectivePermissions u) ->
             run (route (requirePermission p (Some ru)) h) w
             = (fst (fst (run h w)), snd (fst (run h w)),
                ev (User_findById (_id ru)) :: snd (run h w)))
  /\ (forall u, find (byId (_id ru)) (users w) = Some u ->
                ~ In p (spec_effectivePermissions u) ->
                run (route (requirePermission p (Some ru)) h) w
                = (forbidden p (role u), w, [ev (User_findById (_id ru))]))
  /\ (find (byId (_id ru)) (users w) = None ->
      run (route (requirePermission p (Some ru)) h) w
      = (res_status_json 401 (message "User not found"), w,
         [ev (User_findById (_id ru))])).
Proof.
  split; [|split].
  - intros u Hu Hin. rewrite (run_route bcrypt_compare sign).
    rewrite (requirePermission_result p ru u w Hu).
    apply In_effective in Hin. rewrite Hin.
    destruct (run h w) as [[r w2] t]. reflexivity.
  - intros u Hu Hin. rewrite (run_route bcrypt_compare sign).
    rewrite (requirePermission_result p ru u w Hu).
    rewrite In_effective in Hin. apply not_true_is_false in Hin. rewrite Hin.
    reflexivity.
  - intros Hu. rewrite (run_route bcrypt_compare sign).
    rewrite (proj1 (middleware_user_gone ru w Hu)). reflexivity.
Qed.

(** X16.  A route guarded by [requireRole] decides on the role stored for
    the requester's id at that moment, not on the account attached to the
    request: the handler runs exactly when the stored role is among the
    allowed ones; otherwise the answer is 403 with the allowed roles and
    the stored role, and the world is untouched. *)
Theorem role_guards_handler
        (allowedRoles : list string) (ru u : User) (w : World) (h : Prog Response) :
  find (byId (_id ru)) (users w) = Some u ->
  (In (roleName (role u)) allowedRoles ->
   run (route (requireRole allowedRoles (Some ru)) h) w
   = (fst (fst (run h w)), snd (fst (run h w)),
      ev (User_findById (_id ru)) :: snd (run h w)))
  /\ (~ In (roleName (role u)) allowedRoles ->
      run (route (requireRole allowedRoles (Some ru)) h) w
      = (UsersMore.forbiddenRole allowedRoles (role u), w,
         [ev (User_findById (_id ru))])).
Proof.
  intros Hu. split; intros Hin; rewrite (run_route bcrypt_compare sign);
    rewrite (requireRole_result allowedRoles ru u w Hu).
  - apply includes_In in Hin. rewrite Hin.
    destruct (run h w) as [[r w2] t]. reflexivity.
  - apply includes_false_notIn in Hin. rewrite Hin. reflexivity.
Qed.

(** *** Managing other accounts *)

Lemma find_deleteOne_other (id id' : string) (l : list User) :
  id' <> id -> find (byId id') (deleteOne (byId id) l) = find (byId id') l.
Proof.
  intros Hne. induction l as [|x t IH]; cbn; [reflexivity|].
  destruct (byId id x) eqn:E; cbn.
  - unfold byId in *. apply String.eqb_eq in E.
    replace (_id x =? id')%string with false; [reflexivity|].
    symmetry. apply String.eqb_neq. congruence.
  - destruct (byId id' x); [reflexivity | exact IH].
Qed.

(** X17.  An admin's role update, with a valid or absent role, under an id
    that differs from the admin's own id string and casts to the ObjectId
    of a stored account answers 200 with the updated account; the target
    takes the role named in the body (keeps its own when none is named) and
    the permissions of the body (keeps its own when none are given),
    keeping every other field; every other ObjectId resolves to the same
    account as before; no code record changes. *)
Theorem updateRole_changes_target_only
        (me acct target : User) (pid id : string) (w : World) (b : Users.RoleBody) :
  find (byId (_id me)) (users w) = Some acct -> role acct = RoleAdmin ->
  pid <> _id me ->
  truthy (Users.rb_role b) = false
  \/ includes Users.validRoles (str (Users.rb_role b)) = true ->
  ObjectId_cast pid = Some id ->
  find (byId id) (users w) = Some target ->
  let w1 := snd (fst (run (Users.updateRole pid me b) w)) in
  let target1 := applyUpdate (UsersMore.updateData b) target in
  fst (fst (run (Users.updateRole pid me b) w)) = res_json (userJson target1)
  /\ find (byId id) (users w1) = Some target1
  /\ (truthy (Users.rb_role b) = true ->
      roleName (role target1) = str (Users.rb_role b))
  /\ (truthy (Users.rb_role b) = false -> role target1 = role target)
  /\ permissions target1
     = match Users.rb_permissions b with
       | Some ps => ps
       | None => permissions target
       end
  /\ accountCore target1
     = (_id target, name target, email target, password target,
        role target1, permissions target1, twoFactorEnabled target)
  /\ (forall id', id' <> id ->
                  find (byId id') (users w1) = find (byId id') (users w))
  /\ codes w1 = codes w.
Proof.
  intros Hme Hadmin Hne Hvalid Hcast Ht. cbn zeta.
  rewrite (updateRole_cast bcrypt_compare sign me acct pid id w b
             Hme Hadmin Hne Hvalid Hcast).
  rewrite Ht. cbn [fst snd]. cbn -[find]. repeat split.
  - rewrite find_updateOne by apply byId_applyUpdate. rewrite Ht. reflexivity.
  - intros Htr. rewrite Htr. destruct Hvalid as [H | H]; [congruence|].
    unfold parseRole.
    destruct (String.eqb_spec (str (Users.rb_role b)) "user") as [->|];
      [reflexivity|].
    destruct (String.eqb_spec (str (Users.rb_role b)) "manager") as [->|];
      [reflexivity|].
    destruct (String.eqb_spec (str (Users.rb_role b)) "admin") as [->|];
      [reflexivity|].
    exfalso. apply includes_In in H. cbn in H. intuition congruence.
  - intros Hf. rewrite Hf. reflexivity.
  - intros id' Hid. apply find_updateOne_other; [reflexivity | exact Hid].
Qed.

(** X18.  Role changes take effect at once: after an admin has set another
    account's role, under any spelling of that account's ObjectId, every
    permission of the new role passes that account's next permission
    check. *)
Theorem promotion_grants_permissions
        (me acct target : User) (pid : string) (w : World) (newRole : Role)
        (p : string) :
  find (byId (_id me)) (users w) = Some acct -> role acct = RoleAdmin ->
  pid <> _id me ->
  ObjectId_cast pid = Some (_id target) ->
  find (byId (_id target)) (users w) = Some target ->
  In p (rolePermissions newRole) ->
  let b := {| Users.rb_role := Some (roleName newRole);
              Users.rb_permissions := None |} in
  let w1 := snd (fst (run (Users.updateRole pid me b) w)) in
  run (requirePermission p (Some target)) w1
  = (Next, w1, [ev (User_findById (_id target))]).
Proof.
  intros Hme Hadmin Hne Hcast Ht Hin. cbn zeta.
  rewrite (updateRole_cast bcrypt_compare sign me acct pid (_id target) w _
             Hme Hadmin Hne);
    [| right; destruct newRole; reflexivity | exact Hcast].
  rewrite Ht. cbn [fst snd].
  rewrite (requirePermission_result p target
             (applyUpdate (UsersMore.updateData
                {| Users.rb_role := Some (roleName newRole);
                   Users.rb_permissions := None |}) target)).
  - replace (role (applyUpdate _ target)) with newRole
      by (destruct newRole; reflexivity).
    apply includes_In in Hin. rewrite Hin. reflexivity.
  - cbn -[find]. rewrite find_updateOne by apply byId_applyUpdate.
    rewrite Ht. reflexivity.
Qed.

Lemma deleteOne_absent {A : Type} (p : A -> bool) (l : list A) :
  find p l = None -> deleteOne p l = l.
Proof.
  induction l as [|x t IH]; cbn; [reflexivity|].
  destruct (p x); [discriminate|]. intros H. now rewrite IH.
Qed.

(** X19.  An admin's delete under an id that differs from the admin's own
    id string: when the id casts to the ObjectId of a stored account the
    answer is 200 and that account is removed (with distinct ids, no
    account is found under the ObjectId any more, while every other
    ObjectId resolves as before and no code record changes); when it casts
    to an ObjectId that is not stored the answer is 404; when it does not
    cast the answer is 500; in both of these cases the world is
    untouched. *)
Theorem deleteUser_removes_target_only
        (me acct : User) (pid : string) (w : World) :
  find (byId (_id me)) (users w) = Some acct -> role acct = RoleAdmin ->
  pid <> _id me ->
  NoDup (map _id (users w)) ->
  let w1 := snd (fst (run (Users.deleteUser pid me) w)) in
  (forall id target,
      ObjectId_cast pid = Some id ->
      find (byId id) (users w) = Some target ->
      fst (fst (run (Users.deleteUser pid me) w))
        = res_json (message "User deleted successfully")
      /\ find (byId id) (users w1) = None
      /\ (forall id', id' <> id ->
                      find (byId id') (users w1) = find (byId id') (users w))
      /\ codes w1 = codes w)
  /\ (forall id,
         ObjectId_cast pid = Some id ->
         find (byId id) (users w) = None ->
         fst (run (Users.deleteUser pid me) w)
         = (res_status_json 404 (message "User not found"), w))
  /\ (ObjectId_cast pid = None ->
      fst (run (Users.deleteUser pid me) w) = (serverError, w)).
Proof.
  intros Hme Hadmin Hne Hnd. cbn zeta. split; [|split].
  - intros id target Hcast Ht.
    rewrite (deleteUser_cast bcrypt_compare sign me acct pid id w
               Hme Hadmin Hne Hcast).
    rewrite Ht. cbn [fst snd]. cbn -[find]. repeat split.
    + apply find_none_after_delete, Hnd.
    + intros id' Hid. apply find_deleteOne_other. exact Hid.
  - intros id Hcast Hnone.
    rewrite (deleteUser_cast bcrypt_compare sign me acct pid id w
               Hme Hadmin Hne Hcast).
    rewrite Hnone, (deleteOne_absent _ _ Hnone). destruct w; reflexivity.
  - intros Hcast. unfold Users.deleteUser.
    rewrite (run_route bcrypt_compare sign).
    rewrite (requireRole_admin_passes bcrypt_compare sign me acct w Hme Hadmin).
    unfold Users.deleteHandler.
    apply String.eqb_neq in Hne. rewrite Hne, Hcast. reflexivity.
Qed.

(** X20.  A deleted account is locked out at once: after an admin's delete
    under any spelling of the account's ObjectId, with distinct ids, every
    permission check and every role check made for it answers 401 "User
    not found", and a login with its email answers the 401 for invalid
    credentials when no other account has that email. *)
Theorem deleted_account_is_locked_out
        (me acct target : User) (pid : string) (w : World) (b : Auth.LoginBody) :
  find (byId (_id me)) (users w) = Some acct -> role acct = RoleAdmin ->
  pid <> _id me ->
  ObjectId_cast pid = Some (_id target) ->
  NoDup (map _id (users w)) ->
  (forall x, In x (users w) -> email x = str (Auth.lb_email b) ->
             _id x = _id target) ->
  truthy (Auth.lb_email b) = true ->
  truthy (Auth.lb_password b) = true ->
  let w1 := snd (fst (run (Users.deleteUser pid me) w)) in
  (forall p, fst (fst (run (requirePermission p (Some target)) w1))
             = Respond (res_status_json 401 (message "User not found")))
  /\ (forall roles, fst (fst (run (requireRole roles (Some target)) w1))
                    = Respond (res_status_json 401 (message "User not found")))
  /\ fst (run (Auth.login b) w1) = (invalidCredentials, w1).
Proof.
  intros Hme Hadmin Hne Hcast Hnd Hmail He Hp. cbn zeta.
  rewrite (deleteUser_cast bcrypt_compare sign me acct pid (_id target) w
             Hme Hadmin Hne Hcast).
  cbn [fst snd].
  assert (Hgone : find (byId (_id target))
                       (users (setUsers (deleteOne (byId (_id target)) (users w)) w))
                  = None) by (cbn -[find]; apply find_none_after_delete, Hnd).
  destruct (middleware_user_gone target _ Hgone) as [HP HR].
  split; [intros p; rewrite HP; reflexivity|].
  split; [intros roles; rewrite HR; reflexivity|].
  unfold Auth.login. rewrite He, Hp. cbn -[find].
  rewrite find_none_all; [reflexivity|].
  intros x Hx. destruct (deleteOne_removes _ _ Hnd x Hx) as [Hin Hid].
  unfold byEmail. apply String.eqb_neq. intros Heq. apply Hid. auto.
Qed.


(** *** Codes of the enable and disable flows *)

Lemma toggle2fa_issues (t : CodeType) (flag : bool) (done : string)
      (ru : User) (c : CodeField) (w : World) :
  truthyCode c = false ->
  fst (run (Auth.toggle2fa t flag done ru c) w)
  = (if mailerUp w then res_json (message "Verification code sent to your email")
     else serverError,
     afterIssuance (_id ru) (email ru) t w).
Proof.
  intros Hc. destruct w as [us cs nid clk rg rp up ob].
  unfold Auth.toggle2fa. rewrite Hc. destruct up; reflexivity.
Qed.

(** X22.  Asking to enable or disable 2FA without a code changes no
    account: it only adds one unused record of that flow for the
    requester, expiring ten minutes later, and mails its code to the
    requester's address; submitted to the same handler within those ten
    minutes, that code is accepted and the flag is stored. *)
Theorem toggle2fa_code_round_trip (t : CodeType) (flag : bool) (done : string)
        (ru acct : User) (w : World) (d : Z) :
  find (byId (_id ru)) (users w) = Some acct ->
  mailerUp w = true ->
  0 <= d < 600000 ->
  let w1 := snd (fst (run (Auth.toggle2fa t flag done ru NoCode) w)) in
  let w2 := snd (fst (run (Auth.toggle2fa t flag done ru (CodeText (nextCode w)))
                          (advance d w1))) in
  users w1 = users w
  /\ codes w1
     = (codes w ++ [{| tfa_id := nextId w; user := _id ru; code := nextCode w;
                       expiresAt := clock w + 600000; isUsed := false;
                       type := t |}])%list
  /\ outbox w1 = (outbox w ++ [(email ru, nextCode w, t)])%list
  /\ fst (fst (run (Auth.toggle2fa t flag done ru (CodeText (nextCode w)))
                    (advance d w1)))
     = res_json (message done)
  /\ option_map twoFactorEnabled (find (byId (_id ru)) (users w2)) = Some flag.
Proof.
  intros Hacct Hup Hd. cbn zeta.
  rewrite (toggle2fa_issues t flag done ru NoCode w eq_refl). cbn [fst snd].
  split; [reflexivity|]. split; [reflexivity|].
  split; [cbn; rewrite Hup; reflexivity|].
  destruct (find (matches (Auth.codeQuery (_id ru) (Equals (nextCode w)) t (clock w + d)))
                 (codes (advance d (afterIssuance (_id ru) (email ru) t w))))
    as [r|] eqn:Hf.
  - rewrite (toggle2fa_verified bcrypt_compare sign t flag done ru
               (CodeText (nextCode w)) _ r (nextCode_truthy w) eq_refl Hf).
    cbn [fst snd]. split; [reflexivity|]. cbn -[find].
    rewrite find_updateOne by apply byId_applyUpdate. rewrite Hacct. reflexivity.
  - exfalso. cbn in Hf. rewrite find_app_new in Hf.
    + destruct (find _ (codes w)); discriminate.
    + apply matches_new_record. lia.
Qed.

(** X23.  The enable and disable handlers change an account only when the
    lookup returns a record: without a code, with a value the query cast
    rejects, or with a value that no unused, unexpired record of the
    requester for that flow satisfies, every account stays as it was; and
    in every case no account other than the requester's changes and
    nothing but [twoFactorEnabled] changes. *)
Theorem toggle2fa_changes_flag_only (t : CodeType) (flag : bool) (done : string)
        (ru : User) (c : CodeField) (w : World) :
  let w1 := snd (fst (run (Auth.toggle2fa t flag done ru c) w)) in
  (truthyCode c = false \/ castable c = false
   \/ find (matches (Auth.codeQuery (_id ru) (asCondition c) t (clock w))) (codes w) = None ->
   users w1 = users w)
  /\ map accountButFlag (users w1) = map accountButFlag (users w)
  /\ (forall id, id <> _id ru ->
                 find (byId id) (users w1) = find (byId id) (users w)).
Proof.
  cbn zeta. destruct (truthyCode c) eqn:Hc.
  - destruct (castable c) eqn:Hcast.
    + destruct (find (matches (Auth.codeQuery (_id ru) (asCondition c) t (clock w)))
                     (codes w)) as [r|] eqn:Hf.
      * rewrite (toggle2fa_verified bcrypt_compare sign t flag done ru c w r
                   Hc Hcast Hf).
        cbn [fst snd]. cbn -[find].
        split; [intros [H | [H | H]]; discriminate|].
        split; [apply accountButFlag_updateOne|].
        intros id Hid. apply find_updateOne_other; [reflexivity | exact Hid].
      * rewrite (toggle2fa_lookup_fails bcrypt_compare sign t flag done ru c w
                   Hc Hcast Hf).
        cbn [fst snd]. auto.
    + rewrite (toggle2fa_cast_fails t flag done ru c w Hc Hcast).
      cbn [fst snd]. auto.
  - rewrite (toggle2fa_issues t flag done ru c w Hc). cbn [fst snd]. auto.
Qed.

(** *** No token without proof *)

(** X24.  A login returns a token only to a request that has proved the
    password and, if the account has 2FA enabled, only when an unused,
    unexpired login record of that account satisfies the submitted value:
    for a string, a record holding exactly that code; for an operator
    object, a record meeting its condition. *)
Theorem token_requires_password_and_code (b : Auth.LoginBody) (w : World) :
  hasMember "token" (body (fst (fst (run (Auth.login b) w)))) = true ->
  exists u,
    find (byEmail (str (Auth.lb_email b))) (users w) = Some u
    /\ bcrypt_compare (str (Auth.lb_password b)) (password u) = true
    /\ (twoFactorEnabled u = true ->
        exists r, In r (codes w)
                  /\ user r = _id u
                  /\ holds (asCondition (Auth.lb_twoFactorCode b)) (code r) = true
                  /\ (forall s, Auth.lb_twoFactorCode b = CodeText s -> code r = s)
                  /\ type r = login_t
                  /\ isUsed r = false
                  /\ clock w < expiresAt r).
Proof.
  intros Htok.
  destruct (login_token_cases b w Htok) as (u & Hu & Hok & Hcases).
  exists u. split; [exact Hu|]. split; [exact Hok|]. intros H2fa.
  destruct Hcases as [(Hoff & _) | (_ & r & _ & Hf & _)]; [congruence|].
  exists r. apply find_some in Hf. destruct Hf as [Hin Hm].
  apply matches_spec in Hm. cbn in Hm.
  destruct Hm as (Eu & Ec & Et & Eused & Elt).
  repeat split; try assumption.
  intros s Hs. apply (holds_text _ s (code r) Hs). exact Ec.
Qed.

Lemma find_some_satisfying {A : Type} (p : A -> bool) (l : list A) (x : A) :
  In x l -> p x = true -> exists y, find p l = Some y.
Proof.
  intros Hin Hp. destruct (find p l) as [y|] eqn:E; [eauto|].
  rewrite (find_none _ _ E x Hin) in Hp. discriminate.
Qed.

(** X27.  The code field is not checked to be a string.  An operator object
    in its place becomes a condition on the stored code: with
    [{"$ne": x}], any unused, unexpired record of the account and flow
    whose code differs from [x] is matched, so the login answers with the
    identity and a token, and an enable or disable request stores its
    flag, without the mailed code being submitted. *)
Theorem operator_object_passes_verification :
  (forall (b : Auth.LoginBody) (w : World) (u : User) (x : string)
          (r0 : TwoFactorAuth),
      reachesVerification bcrypt_compare b w u ->
      Auth.lb_twoFactorCode b = notEqual x ->
      In r0 (codes w) -> user r0 = _id u -> type r0 = login_t ->
      isUsed r0 = false -> clock w < expiresAt r0 -> code r0 <> x ->
      fst (fst (run (Auth.login b) w))
      = AuthMore.loggedIn u (sign (_id u) (clock w)))
  /\ (forall (t : CodeType) (flag : bool) (done : string) (ru acct : User)
             (w : World) (x : string) (r0 : TwoFactorAuth),
         find (byId (_id ru)) (users w) = Some acct ->
         In r0 (codes w) -> user r0 = _id ru -> type r0 = t ->
         isUsed r0 = false -> clock w < expiresAt r0 -> code r0 <> x ->
         let w1 := snd (fst (run (Auth.toggle2fa t flag done ru (notEqual x)) w)) in
         fst (fst (run (Auth.toggle2fa t flag done ru (notEqual x)) w))
         = res_json (message done)
         /\ option_map twoFactorEnabled (find (byId (_id ru)) (users w1))
            = Some flag).
Proof.
  assert (G : forall id t now x r0,
             user r0 = id -> type r0 = t -> isUsed r0 = false ->
             now < expiresAt r0 -> code r0 <> x ->
             matches (Auth.codeQuery id (asCondition (notEqual x)) t now) r0 = true).
  { intros id t now x r0 Hu Ht Hused Hlt Hx. apply matches_spec. cbn.
    apply String.eqb_neq in Hx. rewrite Hx. auto. }
  split.
  - intros b w u x r0 Hreach Hcode Hin Hu Ht Hused Hlt Hx.
    destruct (find_some_satisfying _ _ r0 Hin
                (G (_id u) login_t (clock w) x r0 Hu Ht Hused Hlt Hx)) as (r & Hf).
    rewrite <- Hcode in Hf.
    rewrite (login_verified_answer b w u r Hreach Hf). reflexivity.
  - intros t flag done ru acct w x r0 Hacct Hin Hu Ht Hused Hlt Hx. cbn zeta.
    destruct (find_some_satisfying _ _ r0 Hin
                (G (_id ru) t (clock w) x r0 Hu Ht Hused Hlt Hx)) as (r & Hf).
    rewrite (toggle2fa_verified bcrypt_compare sign t flag done ru (notEqual x) w r
               eq_refl eq_refl Hf).
    cbn [fst snd]. split; [reflexivity|]. cbn -[find].
    rewrite find_updateOne by apply byId_applyUpdate. rewrite Hacct. reflexivity.
Qed.

(** X28.  A truthy value that the query cast rejects ends in the catch
    block: the login and the enable/disable handlers answer 500 "Server
    error" after reading the clock, without a lookup and with the world as
    it was. *)
Theorem uncastable_code_is_server_error :
  (forall (b : Auth.LoginBody) (w : World) (u : User),
      truthy (Auth.lb_email b) = true ->
      truthy (Auth.lb_password b) = true ->
      find (byEmail (str (Auth.lb_email b))) (users w) = Some u ->
      bcrypt_compare (str (Auth.lb_password b)) (password u) = true ->
      twoFactorEnabled u = true ->
      truthyCode (Auth.lb_twoFactorCode b) = true ->
      castable (Auth.lb_twoFactorCode b) = false ->
      run (Auth.login b) w
      = (serverError, w,
         [ev (User_findOne (str (Auth.lb_email b)));
          ev (User_matchPassword u (str (Auth.lb_password b)));
          ev Date_now]))
  /\ (forall (t : CodeType) (flag : bool) (done : string) (ru : User)
             (c : CodeField) (w : World),
         truthyCode c = true -> castable c = false ->
         run (Auth.toggle2fa t flag done ru c) w = (serverError, w, [ev Date_now])).
Proof.
  split.
  - intros b w u. apply login_cast_fails.
  - intros t flag done ru c w. apply toggle2fa_cast_fails.
Qed.

(** *** Deleting inventory items and waste logs *)

Section OwnedDocuments.

Variable P : Type.

Local Abbreviation deleteRoute := (deleteOwnedRoute bcrypt_compare sign P).

Lemma deleteOne_docs_other (id id' : string) (docs : list (Owned P)) :
  id' <> id ->
  find (byDocId id') (deleteOne (byDocId id) docs) = find (byDocId id') docs.
Proof.
  intros Hne. induction docs as [|x t IH]; cbn; [reflexivity|].
  destruct (byDocId id x) eqn:E; cbn.
  - unfold byDocId in *. apply String.eqb_eq in E.
    replace (doc_id x =? id')%string with false; [reflexivity|].
    symmetry. apply String.eqb_neq. congruence.
  - destruct (byDocId id' x); [reflexivity | exact IH].
Qed.

Lemma deleteOne_docs_gone (id : string) (docs : list (Owned P)) :
  NoDup (map doc_id docs) ->
  find (byDocId id) (deleteOne (byDocId id) docs) = None.
Proof.
  induction docs as [|x t IH]; cbn; intros Hnd; [reflexivity|].
  apply NoDup_cons_iff in Hnd. destruct Hnd as [Hx Ht].
  destruct (byDocId id x) eqn:E.
  - apply find_none_all. intros y Hy. unfold byDocId in *.
    apply String.eqb_eq in E. apply String.eqb_neq. intros Heq.
    apply Hx. rewrite E, <- Heq. apply in_map. exact Hy.
  - cbn. rewrite E. exact (IH Ht).
Qed.

(** X25.  Deleting an inventory item or a waste log needs both the
    permission and ownership.  For a requester holding the permission and
    an id that casts to an ObjectId: a document stored under it and owned
    by the requester is removed (with distinct ids nothing is found under
    the ObjectId afterwards, and every other ObjectId resolves as before);
    a document owned by someone else is left in place with a 401, whatever
    the requester's role; an ObjectId with no document gives 404.  An id
    that does not cast gives 500 and leaves the documents.  Without the
    permission the answer is the 403 and the documents stay, even the
    requester's own. *)
Theorem delete_needs_permission_and_ownership
        (permission notFound removed pid : string) (ru u : User) (w : World)
        (docs : list (Owned P)) :
  find (byId (_id ru)) (users w) = Some u ->
  (In permission (spec_effectivePermissions u) ->
   (forall id d, ObjectId_cast pid = Some id ->
                 find (byDocId id) docs = Some d -> doc_user d = _id ru ->
                 NoDup (map doc_id docs) ->
                 let docs1 := snd (deleteRoute permission notFound removed
                                               pid ru w docs) in
                 fst (deleteRoute permission notFound removed pid ru w docs)
                   = res_json (message removed)
                 /\ find (byDocId id) docs1 = None
                 /\ forall id', id' <> id ->
                                find (byDocId id') docs1 = find (byDocId id') docs)
   /\ (forall id d, ObjectId_cast pid = Some id ->
                    find (byDocId id) docs = Some d -> doc_user d <> _id ru ->
                    deleteRoute permission notFound removed pid ru w docs
                    = (res_status_json 401 (message "Not authorized"), docs))
   /\ (forall id, ObjectId_cast pid = Some id ->
                  find (byDocId id) docs = None ->
                  deleteRoute permission notFound removed pid ru w docs
                  = (res_status_json 404 (message notFound), docs))
   /\ (ObjectId_cast pid = None ->
       deleteRoute permission notFound removed pid ru w docs
       = (serverError, docs)))
  /\ (~ In permission (spec_effectivePermissions u) ->
      deleteRoute permission notFound removed pid ru w docs
      = (forbidden permission (role u), docs)).
Proof.
  intros Hu. unfold deleteOwnedRoute, deleteOwnedHandler.
  rewrite (requirePermission_result permission ru u w Hu). cbn [fst].
  split.
  - intros Hin. apply In_effective in Hin. rewrite Hin.
    split; [|split; [|split]].
    + intros id d Hcast Hd Hown Hnd. cbn zeta.
      rewrite Hcast, Hd, Hown, String.eqb_refl. cbn. repeat split.
      * apply deleteOne_docs_gone, Hnd.
      * intros id' Hid. apply deleteOne_docs_other, Hid.
    + intros id d Hcast Hd Hne. rewrite Hcast, Hd.
      apply String.eqb_neq in Hne. rewrite Hne. reflexivity.
    + intros id Hcast Hnone. rewrite Hcast, Hnone. reflexivity.
    + intros Hcast. rewrite Hcast. reflexivity.
  - intros Hin. rewrite In_effective in Hin. apply not_true_is_false in Hin.
    rewrite Hin. reflexivity.
Qed.

(** X26.  An account with role 'user' and no custom permissions can add
    inventory items and waste logs but can never delete one, not even its
    own: both delete routes answer 403 and leave the documents as they
    are, while 'inventory:write' and 'waste:write' pass its permission
    check. *)
Theorem plain_user_cannot_delete_own_documents
        (pid : string) (ru u : User) (w : World) (docs : list (Owned P)) :
  find (byId (_id ru)) (users w) = Some u ->
  role u = RoleUser -> permissions u = [] ->
  deleteInventoryItem bcrypt_compare sign P pid ru w docs
    = (forbidden "inventory:delete" RoleUser, docs)
  /\ deleteWasteLog bcrypt_compare sign P pid ru w docs
     = (forbidden "waste:delete" RoleUser, docs)
  /\ fst (fst (run (requirePermission "inventory:write" (Some ru)) w)) = Next
  /\ fst (fst (run (requirePermission "waste:write" (Some ru)) w)) = Next.
Proof.
  intros Hu Hr Hp.
  unfold deleteInventoryItem, deleteWasteLog, deleteOwnedRoute.
  rewrite !(requirePermission_result _ ru u w Hu), Hr, Hp. repeat split.
Qed.

End OwnedDocuments.

End Further.

(** X21.  The permissions offered by [GET /api/users/permissions] are, as a
    set, the permissions of the admin role: every permission any role
    grants can be assigned as a custom permission, every assignable
    permission is held by an admin, and no value is listed twice. *)
Theorem availablePermissions_are_admin_permissions :
  (forall p, In p (map fst UsersMore.availablePermissions)
             <-> In p (rolePermissions RoleAdmin))
  /\ (forall r p, In p (rolePermissions r) ->
                  In p (map fst UsersMore.availablePermissions))
  /\ NoDup (map fst UsersMore.availablePermissions).
Proof.
  split; [|split].
  - intros p. cbn. tauto.
  - intros r p. destruct r; cbn; tauto.
  - cbn. repeat (constructor; [cbn; intuition discriminate|]). constructor.
Qed.

(** ** The further properties on the sample deployment *)

Lemma issuance_world0 :
  reachesIssuance Sample.compare (Sample.aliceLogin NoCode) Sample.world0 Sample.alice.
Proof. repeat split. Qed.

Lemma login_without_second_factor_witness :
  twoFactorEnabled Sample.bob = false
  /\ fst (run Sample.compare Sample.sign
            (Auth.login (Sample.bobLogin "wrong")) Sample.world0)
     = (invalidCredentials, Sample.world0).
Proof.
  split; [reflexivity|].
  apply (login_without_second_factor Sample.compare Sample.sign
           (Sample.bobLogin "wrong") Sample.world0 Sample.bob);
    reflexivity.
Defined.

Lemma login_issues_code_witness :
  mailerUp Sample.world0 = true
  /\ fst (fst (run Sample.compare Sample.sign
                 (Auth.login (Sample.aliceLogin NoCode)) Sample.world0))
     = AuthMore.codeSent.
Proof.
  split; [reflexivity|].
  apply (login_issues_code Sample.compare Sample.sign
           (Sample.aliceLogin NoCode) Sample.world0 Sample.alice);
    [exact issuance_world0 | reflexivity].
Defined.

Lemma login_mailer_failure_witness :
  mailerUp SampleMore.worldMailDown = false
  /\ fst (fst (run Sample.compare Sample.sign
                 (Auth.login (Sample.aliceLogin NoCode)) SampleMore.worldMailDown))
     = serverError.
Proof.
  split; [reflexivity|].
  apply (login_mailer_failure_keeps_record Sample.compare Sample.sign
           (Sample.aliceLogin NoCode) SampleMore.worldMailDown Sample.alice);
    [repeat split | reflexivity].
Defined.

Lemma issued_code_is_accepted_witness :
  0 <= 1000 < 600000
  /\ status (fst (fst (run Sample.compare Sample.sign
                         (Auth.login (AuthMore.withCode (Sample.aliceLogin NoCode)
                                        (CodeText (nextCode Sample.world0))))
                         (advance 1000
                            (snd (fst (run Sample.compare Sample.sign
                                           (Auth.login (Sample.aliceLogin NoCode))
                                           Sample.world0)))))))
     = 200.
Proof.
  split; [lia|].
  apply (issued_code_is_accepted Sample.compare Sample.sign
           (Sample.aliceLogin NoCode) Sample.world0 Sample.alice 1000);
    [exact issuance_world0 | lia].
Defined.

Lemma issued_code_expires_witness :
  600000 <= 600000
  /\ fst (fst (run Sample.compare Sample.sign
                 (Auth.login (AuthMore.withCode (Sample.aliceLogin NoCode)
                                (CodeText (nextCode Sample.worldFresh))))
                 (advance 600000
                    (snd (fst (run Sample.compare Sample.sign
                                   (Auth.login (Sample.aliceLogin NoCode))
                                   Sample.worldFresh))))))
     = invalidOrExpiredCode.
Proof.
  split; [lia|].
  rewrite (issued_code_expires Sample.compare Sample.sign
             (Sample.aliceLogin NoCode) Sample.worldFresh Sample.alice 600000).
  - reflexivity.
  - repeat split.
  - lia.
  - intros r [].
Defined.

Lemma issuing_keeps_older_codes_witness :
  find (matches (Auth.codeQuery Sample.aliceId (Equals "123456") login_t 2000)) (codes Sample.world0)
    = Some Sample.aliceCode
  /\ status (fst (fst (run Sample.compare Sample.sign
                         (Auth.login (AuthMore.withCode (Sample.aliceLogin NoCode)
                                        (CodeText "123456")))
                         (snd (fst (run Sample.compare Sample.sign
                                        (Auth.login (Sample.aliceLogin NoCode))
                                        Sample.world0))))))
     = 200.
Proof.
  split; [reflexivity|].
  apply (issuing_keeps_older_codes Sample.compare Sample.sign
           (Sample.aliceLogin NoCode) Sample.world0 Sample.alice "123456"
           Sample.aliceCode);
    [exact issuance_world0 | reflexivity | reflexivity].
Defined.

Lemma toggle2fa_sets_flag_witness :
  find (byId Sample.bobId) (users SampleMore.worldEnable) = Some Sample.bob
  /\ option_map twoFactorEnabled
       (find (byId Sample.bobId)
             (users (snd (fst (run Sample.compare Sample.sign
                                   (Auth.enable2fa Sample.bob (CodeText "654321"))
                                   SampleMore.worldEnable)))))
     = Some true.
Proof.
  split; [reflexivity|].
  apply (toggle2fa_sets_flag Sample.compare Sample.sign enable_2fa true
           "Two-factor authentication enabled successfully"
           Sample.bob Sample.bob (CodeText "654321") SampleMore.worldEnable
           SampleMore.bobEnableCode);
    try reflexivity. exact wf_worldEnable.
Defined.

Lemma toggle2fa_decides_next_login_witness :
  twoFactorEnabled Sample.bob = false
  /\ fst (fst (run Sample.compare Sample.sign
                 (Auth.login (Sample.bobLogin "pw2"))
                 (snd (fst (run Sample.compare Sample.sign
                                (Auth.enable2fa Sample.bob (CodeText "654321"))
                                SampleMore.worldEnable)))))
     = AuthMore.codeSent.
Proof.
  split; [reflexivity|].
  apply (toggle2fa_decides_next_login Sample.compare Sample.sign
           (Sample.bobLogin "pw2") Sample.bob (CodeText "654321")
           SampleMore.worldEnable SampleMore.bobEnableCode enable_2fa true
           "Two-factor authentication enabled successfully");
    reflexivity.
Defined.

Lemma code_bound_witness :
  map type (codes Sample.world0) = [login_t]
  /\ fst (run Sample.compare Sample.sign
            (Auth.disable2fa Sample.alice (CodeText "123456")) Sample.world0)
     = (invalidOrExpiredCode, Sample.world0).
Proof.
  split; [reflexivity|].
  apply (proj2 (code_bound_to_account_and_flow Sample.compare Sample.sign)
           disable_2fa false "Two-factor authentication disabled successfully"
           Sample.alice (CodeText "123456") Sample.world0);
    [reflexivity | reflexivity |].
  intros r [<- | []] _. right. discriminate.
Defined.

Lemma protect_attaches_witness :
  SampleMore.verify "jwt:64a1f3c29b7e4d0012ab34c1" = Some Sample.aliceId
  /\ fst (fst (run Sample.compare Sample.sign
                 (protect SampleMore.verify (Some "Bearer jwt:64a1f3c29b7e4d0012ab34c1")) Sample.world0))
     = Attached (withoutPassword Sample.alice).
Proof.
  split; [reflexivity|].
  apply (proj1 (protect_attaches_iff Sample.compare Sample.sign SampleMore.verify
                  (Some "Bearer jwt:64a1f3c29b7e4d0012ab34c1") Sample.world0
                  (withoutPassword Sample.alice))).
  exists "jwt:64a1f3c29b7e4d0012ab34c1", Sample.aliceId, Sample.aliceId, Sample.alice.
  repeat split.
Defined.

Lemma client_header_round_trip_witness :
  occurs " "%char "jwt:64b2f3c29b7e4d0012ab34c2" = false
  /\ fst (fst (run Sample.compare Sample.sign
                 (protect SampleMore.verify (Some (authorizationHeader "jwt:64b2f3c29b7e4d0012ab34c2")))
                 Sample.world0))
     = Attached (withoutPassword Sample.bob).
Proof.
  split; [reflexivity|].
  rewrite (client_header_round_trip Sample.compare Sample.sign SampleMore.verify
             "jwt:64b2f3c29b7e4d0012ab34c2" Sample.world0); reflexivity.
Defined.

Lemma login_token_opens_profile_witness :
  SampleMore.verify (Sample.sign Sample.aliceId 2000) = Some Sample.aliceId
  /\ twoFactorEnabled Sample.alice = true
  /\ fst (fst (run Sample.compare Sample.sign
                 (Auth.login (Sample.aliceLogin (CodeText "123456")))
                 Sample.world0))
     = AuthMore.loggedIn Sample.alice "jwt:64a1f3c29b7e4d0012ab34c1".
Proof.
  split; [reflexivity | split; [reflexivity|]].
  apply (login_token_opens_profile Sample.compare Sample.sign SampleMore.verify
           (Sample.aliceLogin (CodeText "123456")) Sample.world0 Sample.alice);
    reflexivity.
Defined.

Lemma permission_guards_handler_witness :
  ~ In "users:read" (spec_effectivePermissions Sample.bob)
  /\ run Sample.compare Sample.sign
         (route (requirePermission "users:read" (Some Sample.bob))
                (Users.deleteHandler Sample.aliceId Sample.bob))
         Sample.world0
     = (forbidden "users:read" RoleUser, Sample.world0,
        [ev (User_findById Sample.bobId)]).
Proof.
  assert (H : ~ In "users:read" (spec_effectivePermissions Sample.bob)).
  { cbn. intros H. repeat (destruct H as [H | H]; [discriminate H|]). exact H. }
  split; [exact H|].
  apply (proj1 (proj2 (permission_guards_handler Sample.compare Sample.sign
                         "users:read" Sample.bob Sample.world0
                         (Users.deleteHandler Sample.aliceId Sample.bob)))
           Sample.bob); [reflexivity | exact H].
Defined.

Lemma role_guards_handler_witness :
  ~ In (roleName (role Sample.bob)) ["admin"]
  /\ run Sample.compare Sample.sign
         (route (requireRole ["admin"] (Some Sample.bob))
                (Users.deleteHandler Sample.aliceId Sample.bob))
         Sample.world0
     = (UsersMore.forbiddenRole ["admin"] RoleUser, Sample.world0,
        [ev (User_findById Sample.bobId)]).
Proof.
  assert (H : ~ In (roleName (role Sample.bob)) ["admin"]).
  { cbn. intros [H | []]. discriminate H. }
  split; [exact H|].
  apply (proj2 (role_guards_handler Sample.compare Sample.sign ["admin"]
                  Sample.bob Sample.bob Sample.world0
                  (Users.deleteHandler Sample.aliceId Sample.bob) eq_refl)).
  exact H.
Defined.

Lemma updateRole_changes_target_only_witness :
  role Sample.bob = RoleUser
  /\ option_map role
       (find (byId Sample.bobId)
             (users (snd (fst (run Sample.compare Sample.sign
                                   (Users.updateRole Sample.bobId Sample.alice
                                                     SampleMore.promote)
                                   Sample.world0)))))
     = Some RoleManager.
Proof.
  split; [reflexivity|].
  pose proof (updateRole_changes_target_only Sample.compare Sample.sign
                Sample.alice Sample.alice Sample.bob Sample.bobId Sample.bobId
                Sample.world0 SampleMore.promote eq_refl eq_refl) as H.
  cbn zeta in H. destruct H as (_ & H & _).
  - discriminate.
  - right. reflexivity.
  - reflexivity.
  - reflexivity.
  - rewrite H. reflexivity.
Defined.

Lemma promotion_grants_permissions_witness :
  In "users:read" (rolePermissions RoleManager)
  /\ fst (fst (run Sample.compare Sample.sign
                 (requirePermission "users:read" (Some Sample.bob))
                 (snd (fst (run Sample.compare Sample.sign
                                (Users.updateRole Sample.bobId Sample.alice
                                                  SampleMore.promote)
                                Sample.world0)))))
     = Next.
Proof.
  assert (H : In "users:read" (rolePermissions RoleManager))
    by (cbn; tauto).
  split; [exact H|].
  assert (Hne : Sample.bobId <> _id Sample.alice) by discriminate.
  exact (f_equal (fun x => fst (fst x))
           (promotion_grants_permissions Sample.compare Sample.sign
              Sample.alice Sample.alice Sample.bob Sample.bobId Sample.world0
              RoleManager "users:read" eq_refl eq_refl Hne eq_refl eq_refl H)).
Defined.

Lemma deleteUser_removes_witness :
  find (byId Sample.bobId) (users Sample.world0) = Some Sample.bob
  /\ find (byId Sample.bobId)
          (users (snd (fst (run Sample.compare Sample.sign
                                (Users.deleteUser Sample.bobId Sample.alice)
                                Sample.world0))))
     = None
  /\ ObjectId_cast "zz" = None
  /\ fst (run Sample.compare Sample.sign
              (Users.deleteUser "zz" Sample.alice) Sample.world0)
     = (serverError, Sample.world0).
Proof.
  split; [reflexivity|].
  pose proof (deleteUser_removes_target_only Sample.compare Sample.sign
                Sample.alice Sample.alice Sample.bobId Sample.world0
                eq_refl eq_refl) as H.
  pose proof (deleteUser_removes_target_only Sample.compare Sample.sign
                Sample.alice Sample.alice "zz" Sample.world0
                eq_refl eq_refl) as H'.
  cbn zeta in H, H'. split; [|split; [reflexivity|]].
  - destruct H as [H _].
    + discriminate.
    + exact users_world0_distinct.
    + destruct (H Sample.bobId Sample.bob eq_refl eq_refl) as (_ & Hgone & _).
      exact Hgone.
  - destruct H' as (_ & _ & H').
    + discriminate.
    + exact users_world0_distinct.
    + exact (H' eq_refl).
Defined.

Lemma deleted_account_witness :
  fst (fst (run Sample.compare Sample.sign
              (Auth.login (Sample.bobLogin "pw2"))
              (snd (fst (run Sample.compare Sample.sign
                             (Users.deleteUser Sample.bobId Sample.alice)
                             Sample.world0)))))
  = invalidCredentials.
Proof.
  pose proof (deleted_account_is_locked_out Sample.compare Sample.sign
                Sample.alice Sample.alice Sample.bob Sample.bobId Sample.world0
                (Sample.bobLogin "pw2") eq_refl eq_refl) as H.
  cbn zeta in H. destruct H as (_ & _ & H).
  - discriminate.
  - reflexivity.
  - exact users_world0_distinct.
  - intros x [<- | [<- | []]]; [discriminate | reflexivity].
  - reflexivity.
  - reflexivity.
  - exact (f_equal fst H).
Defined.

Lemma availablePermissions_witness :
  In "waste:read" (rolePermissions RoleUser)
  /\ In "waste:read" (map fst UsersMore.availablePermissions).
Proof.
  assert (H : In "waste:read" (rolePermissions RoleUser)) by (cbn; tauto).
  split; [exact H|].
  exact (proj1 (proj2 availablePermissions_are_admin_permissions)
           RoleUser "waste:read" H).
Defined.

Lemma toggle2fa_code_round_trip_witness :
  0 <= 1000 < 600000
  /\ codes (snd (fst (run Sample.compare Sample.sign
                         (Auth.enable2fa Sample.bob NoCode) Sample.world0)))
     = [Sample.aliceCode;
        {| tfa_id := 1; user := Sample.bobId; code := "123456"; expiresAt := 602000;
           isUsed := false; type := enable_2fa |}].
Proof.
  split; [lia|].
  pose proof (toggle2fa_code_round_trip Sample.compare Sample.sign enable_2fa true
                "Two-factor authentication enabled successfully"
                Sample.bob Sample.bob Sample.world0 1000 eq_refl eq_refl) as H.
  cbn zeta in H. destruct H as (_ & H & _); [lia|]. exact H.
Defined.

Lemma toggle2fa_changes_flag_only_witness :
  truthyCode NoCode = false
  /\ users (snd (fst (run Sample.compare Sample.sign
                         (Auth.disable2fa Sample.alice NoCode) Sample.world0)))
     = users Sample.world0.
Proof.
  split; [reflexivity|].
  apply (proj1 (toggle2fa_changes_flag_only Sample.compare Sample.sign
                  disable_2fa false
                  "Two-factor authentication disabled successfully"
                  Sample.alice NoCode Sample.world0)).
  left. reflexivity.
Defined.

Lemma token_requires_witness :
  hasMember "token"
    (body (fst (fst (run Sample.compare Sample.sign
                         (Auth.login (Sample.bobLogin "pw2")) Sample.world0))))
  = true
  /\ exists u,
       find (byEmail "bob@example.com") (users Sample.world0) = Some u
       /\ Sample.compare "pw2" (password u) = true.
Proof.
  split; [reflexivity|].
  destruct (token_requires_password_and_code Sample.compare Sample.sign
              (Sample.bobLogin "pw2") Sample.world0 eq_refl)
    as (u & Hu & Hok & _).
  exists u. split; [exact Hu | exact Hok].
Defined.

Lemma delete_ownership_witness :
  In "inventory:delete" (spec_effectivePermissions Sample.alice)
  /\ deleteInventoryItem Sample.compare Sample.sign unit SampleMore.item2
                         Sample.alice Sample.world0 SampleMore.items
     = (res_status_json 401 (message "Not authorized"), SampleMore.items)
  /\ deleteInventoryItem Sample.compare Sample.sign unit "zz"
                         Sample.alice Sample.world0 SampleMore.items
     = (serverError, SampleMore.items).
Proof.
  assert (H : In "inventory:delete" (spec_effectivePermissions Sample.alice))
    by (cbn; tauto).
  split; [exact H | split].
  - apply (proj1 (proj2 (proj1 (delete_needs_permission_and_ownership
                                  Sample.compare Sample.sign unit
                                  "inventory:delete" "Inventory item not found"
                                  "Item removed" SampleMore.item2 Sample.alice
                                  Sample.alice Sample.world0 SampleMore.items
                                  eq_refl) H))
             SampleMore.item2 (mkOwned SampleMore.item2 Sample.bobId tt));
      [reflexivity | reflexivity | discriminate].
  - apply (proj2 (proj2 (proj2 (proj1 (delete_needs_permission_and_ownership
                                  Sample.compare Sample.sign unit
                                  "inventory:delete" "Inventory item not found"
                                  "Item removed" "zz" Sample.alice
                                  Sample.alice Sample.world0 SampleMore.items
                                  eq_refl) H)))).
    reflexivity.
Defined.

Lemma plain_user_witness :
  permissions SampleMore.carol = []
  /\ deleteWasteLog Sample.compare Sample.sign unit SampleMore.log1 SampleMore.carol
                    SampleMore.worldCarol [mkOwned SampleMore.log1 SampleMore.carolId tt]
     = (forbidden "waste:delete" RoleUser, [mkOwned SampleMore.log1 SampleMore.carolId tt]).
Proof.
  split; [reflexivity|].
  apply (plain_user_cannot_delete_own_documents Sample.compare Sample.sign unit
           SampleMore.log1 SampleMore.carol SampleMore.carol SampleMore.worldCarol
           [mkOwned SampleMore.log1 SampleMore.carolId tt]); reflexivity.
Defined.

Lemma operator_object_witness :
  code Sample.aliceCode <> "x"
  /\ fst (fst (run Sample.compare Sample.sign
                 (Auth.login (Sample.aliceLogin (notEqual "x"))) Sample.world0))
     = AuthMore.loggedIn Sample.alice "jwt:64a1f3c29b7e4d0012ab34c1".
Proof.
  assert (H : code Sample.aliceCode <> "x") by discriminate.
  split; [exact H|].
  apply (proj1 (operator_object_passes_verification Sample.compare Sample.sign)
           (Sample.aliceLogin (notEqual "x")) Sample.world0 Sample.alice "x"
           Sample.aliceCode);
    try reflexivity.
  - apply reaches_world0; reflexivity.
  - left. reflexivity.
  - exact H.
Defined.

Lemma uncastable_code_witness :
  castable CodeInvalid = false
  /\ fst (run Sample.compare Sample.sign
              (Auth.login (Sample.aliceLogin CodeInvalid)) Sample.world0)
     = (serverError, Sample.world0).
Proof.
  split; [reflexivity|].
  exact (f_equal fst
           (proj1 (uncastable_code_is_server_error Sample.compare Sample.sign)
              (Sample.aliceLogin CodeInvalid) Sample.world0 Sample.alice
              eq_refl eq_refl eq_refl eq_refl eq_refl eq_refl eq_refl)).
Defined.
